(** * S4: a terminal browser for S3 buckets -- the navigation state machine

    A shallow embedding of the Go sources of slmtnm/s4 and the properties
    of its specification.

    Definitions
    - [GoInt]      : Go's 64-bit [int] as [Z] with wrap-around written out.
    - [GoStrings]  : the functions of [strings], [path/filepath] and [fmt]
                     that the program calls, on byte strings.
    - [S3]         : s3client.go ([ListObjects], [CopyObject], [DeleteObject],
                     [RenameObject]) over a remote service whose requests are
                     logged, and an in-memory bucket to run it on.
    - [Tui]        : the current user interface: [Model], [Update] and the
                     [update...] functions of each view, [updateScroll], and
                     the commands [loadObjects], [loadLocalFiles],
                     [renameFile], [pasteFiles], [calculateDirStats].
    - [Legacy]     : [updateBrowser] of the earlier variant of the user
                     interface that the repository also carries (no
                     statistics cache, no dialogs).
    - the vocabulary of the properties, and models and runs to try them on.
    - the views ([viewBrowser], [viewPreview], [renderInputWithCursor],
      [viewConfirm]) as far as they index and slice, and [deleteFile].
    - [Config]     : config.go ([LoadS3Config], [GetEndpointURL],
                     [InteractiveS3Setup], [saveS3Config]) over the
                     accessors of the ini library.

    Properties: the scroll window, the keys of the browser, the rename
    dialog, error and status, the statistics cache, rename as copy then
    delete, the destination of a paste, the order of listings; then paths
    and keys, the client and its commands, the browser and its dialogs,
    the preview, the rename dialog, the upload picker, the statistics, the
    list on the screen, the configuration, the earlier variant.
*)

From Stdlib Require Import ZArith Lia Ascii String List Permutation Sorted FinFun.
From stdpp Require Import base tactics option list strings gmap pretty.

Local Open Scope string_scope.
Local Open Scope Z_scope.
Local Open Scope list_scope.

(* ===================================================================== *)
(** * Go's [int]                                                          *)
(* ===================================================================== *)

Module GoInt.

(** [int] is 64 bits wide on every platform the program is built for. *)
Definition min_int : Z := - 2 ^ 63.
Definition max_int : Z := 2 ^ 63 - 1.

(** The value an arithmetic result takes after two's-complement
    wrap-around. *)
Definition wrap (z : Z) : Z := (z + 2 ^ 63) mod 2 ^ 64 - 2 ^ 63.

Definition add (a b : Z) : Z := wrap (a + b).
Definition sub (a b : Z) : Z := wrap (a - b).
(** Go's [/] truncates toward zero. *)
Definition quot (a b : Z) : Z := wrap (Z.quot a b).

Definition in_range (z : Z) : Prop := min_int <= z <= max_int.

(** [len(x)] of a slice and of a string. *)
Definition len {A} (l : list A) : Z := Z.of_nat (length l).
Definition slen (s : string) : Z := Z.of_nat (String.length s).

End GoInt.

Notation "a +! b" := (GoInt.add a b) (at level 50, left associativity).
Notation "a -! b" := (GoInt.sub a b) (at level 50, left associativity).

(* ===================================================================== *)
(** * Strings and paths                                                   *)
(* ===================================================================== *)

Module GoStrings.

Definition slash : ascii := "/"%char.
Definition dot : ascii := "."%char.
Definition newline : ascii := ascii_of_nat 10.

Definition is_slash (c : ascii) : bool := Ascii.eqb c slash.

(** [strings.HasPrefix(s, prefix)]. *)
Definition HasPrefix (s p : string) : bool := String.prefix p s.

(** [strings.HasSuffix(s, suffix)]:
    [len(s) >= len(suffix) && s[len(s)-len(suffix):] == suffix]. *)
Definition HasSuffix (s suf : string) : bool :=
  (String.length suf <=? String.length s)%nat &&
  String.eqb
    (String.substring (String.length s - String.length suf)
                      (String.length suf) s) suf.

(** [strings.TrimSuffix(s, suffix)]. *)
Definition TrimSuffix (s suf : string) : string :=
  if HasSuffix s suf
  then String.substring 0 (String.length s - String.length suf) s
  else s.

(** [strings.Contains(s, substr)]. *)
Fixpoint Contains (s sub : string) : bool :=
  String.prefix sub s ||
  match s with
  | EmptyString => false
  | String _ s' => Contains s' sub
  end.

(** [strings.Split(s, sep)] for a separator of one byte, the only kind the
    program uses (["/"] and a line feed). The result is never empty. *)
Fixpoint Split (s : string) (sep : ascii) : list string :=
  match s with
  | EmptyString => [EmptyString]
  | String c s' =>
      if Ascii.eqb c sep then EmptyString :: Split s' sep
      else match Split s' sep with
           | [] => [String c EmptyString]
           | p :: ps => String c p :: ps
           end
  end.

(** [strings.Join(elems, sep)]. *)
Fixpoint Join (elems : list string) (sep : string) : string :=
  match elems with
  | [] => EmptyString
  | [e] => e
  | e :: es => e +:+ sep +:+ Join es sep
  end.

(** [filepath.Base] on a Unix path: trailing separators are removed, the
    last element is kept; an empty path gives ["."], a path of separators
    only gives ["/"]. The work is done on the reversed byte list. *)
Fixpoint drop_slashes (r : list ascii) : list ascii :=
  match r with
  | c :: r' => if is_slash c then drop_slashes r' else r
  | [] => []
  end.

Fixpoint take_element (r : list ascii) : list ascii :=
  match r with
  | c :: r' => if is_slash c then [] else c :: take_element r'
  | [] => []
  end.

Definition Base (path : string) : string :=
  match path with
  | EmptyString => "."
  | _ =>
      let elem := take_element (drop_slashes (rev (list_ascii_of_string path))) in
      match elem with
      | [] => "/"
      | _ => string_of_list_ascii (rev elem)
      end
  end.

(** [filepath.Ext]: the suffix beginning at the final dot in the final
    element of the path, empty if there is no dot. [ext_scan r acc] walks
    the reversed path [r]; [acc] holds the bytes already passed, in
    forward order. *)
Fixpoint ext_scan (r acc : list ascii) : list ascii :=
  match r with
  | [] => []
  | c :: r' =>
      if is_slash c then []
      else if Ascii.eqb c dot then c :: acc
      else ext_scan r' (c :: acc)
  end.

Definition Ext (path : string) : string :=
  string_of_list_ascii (ext_scan (rev (list_ascii_of_string path)) []).

(** [fmt.Sprintf("%d", n)]. *)
Definition fmt_d (n : Z) : string := pretty n.

End GoStrings.

(* ===================================================================== *)
(** * The storage client (s3client.go)                                    *)
(* ===================================================================== *)

Module S3.

(** Go's [error] values. [ErrText] is an error made from a message
    ([fmt.Errorf(msg)], or whatever the SDK or the operating system
    reports); [ErrWrap p e] is [fmt.Errorf(p + ": %w", e)]. [nil] is
    [None : option error]. *)
Inductive error : Type :=
| ErrText (text : string)
| ErrWrap (context : string) (cause : error).

Fixpoint Error (e : error) : string :=
  match e with
  | ErrText t => t
  | ErrWrap c e' => c +:+ ": " +:+ Error e'
  end.

(** [S3Object]. *)
Record S3Object : Type := mkS3Object {
  Key : string;
  Size : Z;
  LastModified : string;
  IsDir : bool
}.

(** What the SDK's [ListObjectsV2] answers: the common prefixes and the
    objects, whose modification time is carried already formatted as
    ["2006-01-02 15:04:05"]. *)
Record ContentEntry : Type := mkContentEntry {
  cKey : string;
  cSize : Z;
  cLastModified : string
}.

Record ListObjectsV2Output : Type := mkListOutput {
  CommonPrefixes : list string;
  Contents : list ContentEntry
}.

(** The requests the client sends, as they appear on the wire. *)
Inductive Call : Type :=
| CallList (bucket prefix delimiter : string)
| CallCopy (bucket copySource destKey : string)
| CallDelete (bucket key : string).

(** The remote service: each request transforms the remote state and
    answers with an error or a result. Nothing is assumed about it. *)
Record Service (Remote : Type) : Type := mkService {
  sdkListObjectsV2 : Remote -> string -> string -> string ->
                     Remote * (error + ListObjectsV2Output);
  sdkCopyObject : Remote -> string -> string -> string ->
                  Remote * option error;
  sdkDeleteObject : Remote -> string -> string -> Remote * option error
}.
Arguments sdkListObjectsV2 {Remote}.
Arguments sdkCopyObject {Remote}.
Arguments sdkDeleteObject {Remote}.

(** The world a command runs in: the remote state and the log of the
    requests sent so far, oldest first. *)
Record World (Remote : Type) : Type := mkWorld {
  remote : Remote;
  calls : list Call
}.
Arguments mkWorld {Remote}.
Arguments remote {Remote}.
Arguments calls {Remote}.

(** Commands thread the world: a state monad. *)
Definition M (Remote A : Type) : Type := World Remote -> A * World Remote.

Definition ret {Remote A} (a : A) : M Remote A := fun w => (a, w).

Definition bind {Remote A B} (c : M Remote A) (k : A -> M Remote B)
  : M Remote B :=
  fun w => let '(a, w') := c w in k a w'.

Section Client.
Context {Remote : Type} (svc : Service Remote).

Local Notation "'run' x <- c ; k" := (bind c (fun x => k))
  (at level 10, x name, c at level 100, k at level 200,
   format "'[v' 'run'  x  <-  c ; '/' k ']'").

(** The three SDK requests, logged. *)
Definition callList (bucket prefix delimiter : string)
  : M Remote (error + ListObjectsV2Output) :=
  fun w =>
    let '(r, out) := sdkListObjectsV2 svc (remote w) bucket prefix delimiter in
    (out, mkWorld r (calls w ++ [CallList bucket prefix delimiter])).

Definition callCopy (bucket copySource destKey : string)
  : M Remote (option error) :=
  fun w =>
    let '(r, err) := sdkCopyObject svc (remote w) bucket copySource destKey in
    (err, mkWorld r (calls w ++ [CallCopy bucket copySource destKey])).

Definition callDelete (bucket key : string) : M Remote (option error) :=
  fun w =>
    let '(r, err) := sdkDeleteObject svc (remote w) bucket key in
    (err, mkWorld r (calls w ++ [CallDelete bucket key])).

(** The directories of a listing: the common prefixes without their
    trailing separator, an empty key skipped. *)
Fixpoint directories (prefixes : list string) : list S3Object :=
  match prefixes with
  | [] => []
  | p :: ps =>
      let key := GoStrings.TrimSuffix p "/" in
      if String.eqb key "" then directories ps
      else mkS3Object key 0 "" true :: directories ps
  end.

(** The files of a listing: directory markers are skipped. *)
Fixpoint files (contents : list ContentEntry) : list S3Object :=
  match contents with
  | [] => []
  | c :: cs =>
      if GoStrings.HasSuffix (cKey c) "/" then files cs
      else mkS3Object (cKey c) (cSize c) (cLastModified c) false :: files cs
  end.

(** [ListObjects]. *)
Definition ListObjects (bucket prefix : string)
  : M Remote (error + list S3Object) :=
  run result <- callList bucket prefix "/" ;
  match result with
  | inl err => ret (inl (ErrWrap "failed to list objects" err))
  | inr out =>
      ret (inr (directories (CommonPrefixes out) ++ files (Contents out)))
  end.

(** [CopyObject]. *)
Definition CopyObject (bucket sourceKey destKey : string)
  : M Remote (option error) :=
  let copySource := bucket +:+ "/" +:+ sourceKey in
  run err <- callCopy bucket copySource destKey ;
  match err with
  | Some e => ret (Some (ErrWrap "failed to copy object" e))
  | None => ret None
  end.

(** [DeleteObject]. *)
Definition DeleteObject (bucket key : string) : M Remote (option error) :=
  run err <- callDelete bucket key ;
  match err with
  | Some e => ret (Some (ErrWrap "failed to delete object" e))
  | None => ret None
  end.

(** [RenameObject]: copy to the new key, then delete the old one. *)
Definition RenameObject (bucket oldKey newKey : string)
  : M Remote (option error) :=
  run err <- CopyObject bucket oldKey newKey ;
  match err with
  | Some e => ret (Some (ErrWrap "failed to copy object during rename" e))
  | None =>
      run err <- DeleteObject bucket oldKey ;
      match err with
      | Some e =>
          ret (Some (ErrWrap "failed to delete original object during rename" e))
      | None => ret None
      end
  end.

End Client.

(** An in-memory bucket with fault injection, to run the client on: the
    remote state holds the objects of one bucket and, for each kind of
    request, the keys on which the service answers with an error. *)
Record MemRemote : Type := mkMemRemote {
  objectsOf : gmap string string;
  prefixesOf : list string;
  copyFaults : list string;
  deleteFaults : list string
}.

Definition memList (r : MemRemote) (bucket prefix delimiter : string)
  : MemRemote * (error + ListObjectsV2Output) :=
  (r, inr (mkListOutput (prefixesOf r)
             ((fun kv => mkContentEntry kv.1 (GoInt.slen kv.2) "")
                <$> map_to_list (objectsOf r)))).

Definition memCopy (r : MemRemote) (bucket copySource destKey : string)
  : MemRemote * option error :=
  if bool_decide (destKey ∈ copyFaults r)
  then (r, Some (ErrText "AccessDenied"))
  else
    match objectsOf r !! String.substring (String.length bucket + 1)
                           (String.length copySource) copySource with
    | None => (r, Some (ErrText "NoSuchKey"))
    | Some body =>
        (mkMemRemote (<[destKey := body]> (objectsOf r)) (prefixesOf r)
                     (copyFaults r) (deleteFaults r), None)
    end.

Definition memDelete (r : MemRemote) (bucket key : string)
  : MemRemote * option error :=
  if bool_decide (key ∈ deleteFaults r)
  then (r, Some (ErrText "AccessDenied"))
  else (mkMemRemote (delete key (objectsOf r)) (prefixesOf r)
                    (copyFaults r) (deleteFaults r), None).

Definition memService : Service MemRemote :=
  mkService MemRemote memList memCopy memDelete.

End S3.
(* ===================================================================== *)
(** * The terminal user interface                                         *)
(* ===================================================================== *)

Module Tui.
Export S3.

(** [ViewMode]. *)
Inductive ViewMode : Type :=
| ViewBrowser | ViewPreview | ViewHelp | ViewUpload | ViewRename | ViewConfirm.

(** [LocalItem]. *)
Module LocalItem.
Record t : Type := mk { Name : string; IsDir : bool; Size : Z }.
End LocalItem.

(** [DirStats]. *)
Module DirStats.
Record t : Type := mk {
  Size : Z;
  LastModified : string;
  SizeTimeout : bool;
  DateTimeout : bool
}.
End DirStats.

(** [Model]. The client pointer is left out: it never changes. The
    payload of a confirmation, an [interface{}] that holds a string or
    nothing, is an [option string]. The statistics cache, a Go map, is a
    finite map. *)
Record Model : Type := mkModel {
  bucket : string;
  currentPath : string;
  objects : list S3Object;
  cursor : Z;
  viewMode : ViewMode;
  previewContent : string;
  previewFileName : string;
  previewLines : list string;
  previewScroll : Z;
  previewWidth : Z;
  localItems : list LocalItem.t;
  localPath : string;
  err : option error;
  statusMessage : string;
  loading : bool;
  width : Z;
  height : Z;
  yankedFiles : list string;
  renameInput : string;
  renameOriginal : string;
  renameCursor : Z;
  scrollOffset : Z;
  confirmAction : string;
  confirmTarget : string;
  confirmData : option string;
  dirStatsCache : gmap string DirStats.t
}.

(** Assignments to one field. *)
Definition set_bucket (v : string) (m : Model) : Model :=
      mkModel v (currentPath m) (objects m) (cursor m) (viewMode m)
    (previewContent m) (previewFileName m) (previewLines m) (previewScroll
    m) (previewWidth m) (localItems m) (localPath m) (err m)
    (statusMessage m) (loading m) (width m) (height m) (yankedFiles m)
    (renameInput m) (renameOriginal m) (renameCursor m) (scrollOffset m)
    (confirmAction m) (confirmTarget m) (confirmData m) (dirStatsCache m).
Definition set_currentPath (v : string) (m : Model) : Model :=
      mkModel (bucket m) v (objects m) (cursor m) (viewMode m)
    (previewContent m) (previewFileName m) (previewLines m) (previewScroll
    m) (previewWidth m) (localItems m) (localPath m) (err m)
    (statusMessage m) (loading m) (width m) (height m) (yankedFiles m)
    (renameInput m) (renameOriginal m) (renameCursor m) (scrollOffset m)
    (confirmAction m) (confirmTarget m) (confirmData m) (dirStatsCache m).
Definition set_objects (v : list S3Object) (m : Model) : Model :=
      mkModel (bucket m) (currentPath m) v (cursor m) (viewMode m)
    (previewContent m) (previewFileName m) (previewLines m) (previewScroll
    m) (previewWidth m) (localItems m) (localPath m) (err m)
    (statusMessage m) (loading m) (width m) (height m) (yankedFiles m)
    (renameInput m) (renameOriginal m) (renameCursor m) (scrollOffset m)
    (confirmAction m) (confirmTarget m) (confirmData m) (dirStatsCache m).
Definition set_cursor (v : Z) (m : Model) : Model :=
      mkModel (bucket m) (currentPath m) (objects m) v (viewMode m)
    (previewContent m) (previewFileName m) (previewLines m) (previewScroll
    m) (previewWidth m) (localItems m) (localPath m) (err m)
    (statusMessage m) (loading m) (width m) (height m) (yankedFiles m)
    (renameInput m) (renameOriginal m) (renameCursor m) (scrollOffset m)
    (confirmAction m) (confirmTarget m) (confirmData m) (dirStatsCache m).
Definition set_viewMode (v : ViewMode) (m : Model) : Model :=
      mkModel (bucket m) (currentPath m) (objects m) (cursor m) v
    (previewContent m) (previewFileName m) (previewLines m) (previewScroll
    m) (previewWidth m) (localItems m) (localPath m) (err m)
    (statusMessage m) (loading m) (width m) (height m) (yankedFiles m)
    (renameInput m) (renameOriginal m) (renameCursor m) (scrollOffset m)
    (confirmAction m) (confirmTarget m) (confirmData m) (dirStatsCache m).
Definition set_previewContent (v : string) (m : Model) : Model :=
      mkModel (bucket m) (currentPath m) (objects m) (cursor m) (viewMode
    m) v (previewFileName m) (previewLines m) (previewScroll m)
    (previewWidth m) (localItems m) (localPath m) (err m) (statusMessage
    m) (loading m) (width m) (height m) (yankedFiles m) (renameInput m)
    (renameOriginal m) (renameCursor m) (scrollOffset m) (confirmAction m)
    (confirmTarget m) (confirmData m) (dirStatsCache m).
Definition set_previewFileName (v : string) (m : Model) : Model :=
      mkModel (bucket m) (currentPath m) (objects m) (cursor m) (viewMode
    m) (previewContent m) v (previewLines m) (previewScroll m)
    (previewWidth m) (localItems m) (localPath m) (err m) (statusMessage
    m) (loading m) (width m) (height m) (yankedFiles m) (renameInput m)
    (renameOriginal m) (renameCursor m) (scrollOffset m) (confirmAction m)
    (confirmTarget m) (confirmData m) (dirStatsCache m).
Definition set_previewLines (v : list string) (m : Model) : Model :=
      mkModel (bucket m) (currentPath m) (objects m) (cursor m) (viewMode
    m) (previewContent m) (previewFileName m) v (previewScroll m)
    (previewWidth m) (localItems m) (localPath m) (err m) (statusMessage
    m) (loading m) (width m) (height m) (yankedFiles m) (renameInput m)
    (renameOriginal m) (renameCursor m) (scrollOffset m) (confirmAction m)
    (confirmTarget m) (confirmData m) (dirStatsCache m).
Definition set_previewScroll (v : Z) (m : Model) : Model :=
      mkModel (bucket m) (currentPath m) (objects m) (cursor m) (viewMode
    m) (previewContent m) (previewFileName m) (previewLines m) v
    (previewWidth m) (localItems m) (localPath m) (err m) (statusMessage
    m) (loading m) (width m) (height m) (yankedFiles m) (renameInput m)
    (renameOriginal m) (renameCursor m) (scrollOffset m) (confirmAction m)
    (confirmTarget m) (confirmData m) (dirStatsCache m).
Definition set_previewWidth (v : Z) (m : Model) : Model :=
      mkModel (bucket m) (currentPath m) (objects m) (cursor m) (viewMode
    m) (previewContent m) (previewFileName m) (previewLines m)
    (previewScroll m) v (localItems m) (localPath m) (err m)
    (statusMessage m) (loading m) (width m) (height m) (yankedFiles m)
    (renameInput m) (renameOriginal m) (renameCursor m) (scrollOffset m)
    (confirmAction m) (confirmTarget m) (confirmData m) (dirStatsCache m).
Definition set_localItems (v : list LocalItem.t) (m : Model) : Model :=
      mkModel (bucket m) (currentPath m) (objects m) (cursor m) (viewMode
    m) (previewContent m) (previewFileName m) (previewLines m)
    (previewScroll m) (previewWidth m) v (localPath m) (err m)
    (statusMessage m) (loading m) (width m) (height m) (yankedFiles m)
    (renameInput m) (renameOriginal m) (renameCursor m) (scrollOffset m)
    (confirmAction m) (confirmTarget m) (confirmData m) (dirStatsCache m).
Definition set_localPath (v : string) (m : Model) : Model :=
      mkModel (bucket m) (currentPath m) (objects m) (cursor m) (viewMode
    m) (previewContent m) (previewFileName m) (previewLines m)
    (previewScroll m) (previewWidth m) (localItems m) v (err m)
    (statusMessage m) (loading m) (width m) (height m) (yankedFiles m)
    (renameInput m) (renameOriginal m) (renameCursor m) (scrollOffset m)
    (confirmAction m) (confirmTarget m) (confirmData m) (dirStatsCache m).
Definition set_err (v : option error) (m : Model) : Model :=
      mkModel (bucket m) (currentPath m) (objects m) (cursor m) (viewMode
    m) (previewContent m) (previewFileName m) (previewLines m)
    (previewScroll m) (previewWidth m) (localItems m) (localPath m) v
    (statusMessage m) (loading m) (width m) (height m) (yankedFiles m)
    (renameInput m) (renameOriginal m) (renameCursor m) (scrollOffset m)
    (confirmAction m) (confirmTarget m) (confirmData m) (dirStatsCache m).
Definition set_statusMessage (v : string) (m : Model) : Model :=
      mkModel (bucket m) (currentPath m) (objects m) (cursor m) (viewMode
    m) (previewContent m) (previewFileName m) (previewLines m)
    (previewScroll m) (previewWidth m) (localItems m) (localPath m) (err
    m) v (loading m) (width m) (height m) (yankedFiles m) (renameInput m)
    (renameOriginal m) (renameCursor m) (scrollOffset m) (confirmAction m)
    (confirmTarget m) (confirmData m) (dirStatsCache m).
Definition set_loading (v : bool) (m : Model) : Model :=
      mkModel (bucket m) (currentPath m) (objects m) (cursor m) (viewMode
    m) (previewContent m) (previewFileName m) (previewLines m)
    (previewScroll m) (previewWidth m) (localItems m) (localPath m) (err
    m) (statusMessage m) v (width m) (height m) (yankedFiles m)
    (renameInput m) (renameOriginal m) (renameCursor m) (scrollOffset m)
    (confirmAction m) (confirmTarget m) (confirmData m) (dirStatsCache m).
Definition set_width (v : Z) (m : Model) : Model :=
      mkModel (bucket m) (currentPath m) (objects m) (cursor m) (viewMode
    m) (previewContent m) (previewFileName m) (previewLines m)
    (previewScroll m) (previewWidth m) (localItems m) (localPath m) (err
    m) (statusMessage m) (loading m) v (height m) (yankedFiles m)
    (renameInput m) (renameOriginal m) (renameCursor m) (scrollOffset m)
    (confirmAction m) (confirmTarget m) (confirmData m) (dirStatsCache m).
Definition set_height (v : Z) (m : Model) : Model :=
      mkModel (bucket m) (currentPath m) (objects m) (cursor m) (viewMode
    m) (previewContent m) (previewFileName m) (previewLines m)
    (previewScroll m) (previewWidth m) (localItems m) (localPath m) (err
    m) (statusMessage m) (loading m) (width m) v (yankedFiles m)
    (renameInput m) (renameOriginal m) (renameCursor m) (scrollOffset m)
    (confirmAction m) (confirmTarget m) (confirmData m) (dirStatsCache m).
Definition set_yankedFiles (v : list string) (m : Model) : Model :=
      mkModel (bucket m) (currentPath m) (objects m) (cursor m) (viewMode
    m) (previewContent m) (previewFileName m) (previewLines m)
    (previewScroll m) (previewWidth m) (localItems m) (localPath m) (err
    m) (statusMessage m) (loading m) (width m) (height m) v (renameInput
    m) (renameOriginal m) (renameCursor m) (scrollOffset m) (confirmAction
    m) (confirmTarget m) (confirmData m) (dirStatsCache m).
Definition set_renameInput (v : string) (m : Model) : Model :=
      mkModel (bucket m) (currentPath m) (objects m) (cursor m) (viewMode
    m) (previewContent m) (previewFileName m) (previewLines m)
    (previewScroll m) (previewWidth m) (localItems m) (localPath m) (err
    m) (statusMessage m) (loading m) (width m) (height m) (yankedFiles m)
    v (renameOriginal m) (renameCursor m) (scrollOffset m) (confirmAction
    m) (confirmTarget m) (confirmData m) (dirStatsCache m).
Definition set_renameOriginal (v : string) (m : Model) : Model :=
      mkModel (bucket m) (currentPath m) (objects m) (cursor m) (viewMode
    m) (previewContent m) (previewFileName m) (previewLines m)
    (previewScroll m) (previewWidth m) (localItems m) (localPath m) (err
    m) (statusMessage m) (loading m) (width m) (height m) (yankedFiles m)
    (renameInput m) v (renameCursor m) (scrollOffset m) (confirmAction m)
    (confirmTarget m) (confirmData m) (dirStatsCache m).
Definition set_renameCursor (v : Z) (m : Model) : Model :=
      mkModel (bucket m) (currentPath m) (objects m) (cursor m) (viewMode
    m) (previewContent m) (previewFileName m) (previewLines m)
    (previewScroll m) (previewWidth m) (localItems m) (localPath m) (err
    m) (statusMessage m) (loading m) (width m) (height m) (yankedFiles m)
    (renameInput m) (renameOriginal m) v (scrollOffset m) (confirmAction
    m) (confirmTarget m) (confirmData m) (dirStatsCache m).
Definition set_scrollOffset (v : Z) (m : Model) : Model :=
      mkModel (bucket m) (currentPath m) (objects m) (cursor m) (viewMode
    m) (previewContent m) (previewFileName m) (previewLines m)
    (previewScroll m) (previewWidth m) (localItems m) (localPath m) (err
    m) (statusMessage m) (loading m) (width m) (height m) (yankedFiles m)
    (renameInput m) (renameOriginal m) (renameCursor m) v (confirmAction
    m) (confirmTarget m) (confirmData m) (dirStatsCache m).
Definition set_confirmAction (v : string) (m : Model) : Model :=
      mkModel (bucket m) (currentPath m) (objects m) (cursor m) (viewMode
    m) (previewContent m) (previewFileName m) (previewLines m)
    (previewScroll m) (previewWidth m) (localItems m) (localPath m) (err
    m) (statusMessage m) (loading m) (width m) (height m) (yankedFiles m)
    (renameInput m) (renameOriginal m) (renameCursor m) (scrollOffset m) v
    (confirmTarget m) (confirmData m) (dirStatsCache m).
Definition set_confirmTarget (v : string) (m : Model) : Model :=
      mkModel (bucket m) (currentPath m) (objects m) (cursor m) (viewMode
    m) (previewContent m) (previewFileName m) (previewLines m)
    (previewScroll m) (previewWidth m) (localItems m) (localPath m) (err
    m) (statusMessage m) (loading m) (width m) (height m) (yankedFiles m)
    (renameInput m) (renameOriginal m) (renameCursor m) (scrollOffset m)
    (confirmAction m) v (confirmData m) (dirStatsCache m).
Definition set_confirmData (v : option string) (m : Model) : Model :=
      mkModel (bucket m) (currentPath m) (objects m) (cursor m) (viewMode
    m) (previewContent m) (previewFileName m) (previewLines m)
    (previewScroll m) (previewWidth m) (localItems m) (localPath m) (err
    m) (statusMessage m) (loading m) (width m) (height m) (yankedFiles m)
    (renameInput m) (renameOriginal m) (renameCursor m) (scrollOffset m)
    (confirmAction m) (confirmTarget m) v (dirStatsCache m).
Definition set_dirStatsCache (v : gmap string DirStats.t) (m : Model) : Model :=
      mkModel (bucket m) (currentPath m) (objects m) (cursor m) (viewMode
    m) (previewContent m) (previewFileName m) (previewLines m)
    (previewScroll m) (previewWidth m) (localItems m) (localPath m) (err
    m) (statusMessage m) (loading m) (width m) (height m) (yankedFiles m)
    (renameInput m) (renameOriginal m) (renameCursor m) (scrollOffset m)
    (confirmAction m) (confirmTarget m) (confirmData m) v.

(** [NewModel]. *)
Definition NewModel (bucket : string) : Model :=
  {| bucket := bucket; currentPath := ""; objects := []; cursor := 0;
     viewMode := ViewBrowser; previewContent := ""; previewFileName := "";
     previewLines := []; previewScroll := 0; previewWidth := 0;
     localItems := []; localPath := ""; err := None; statusMessage := "";
     loading := true; width := 0; height := 0; yankedFiles := [];
     renameInput := ""; renameOriginal := ""; renameCursor := 0;
     scrollOffset := 0; confirmAction := ""; confirmTarget := "";
     confirmData := None; dirStatsCache := ∅ |}.

(** The messages [Update] receives. [OtherMsg] stands for every message
    type the program does not name. *)
Inductive Msg : Type :=
| WindowSizeMsg (Width Height : Z)
| KeyMsg (key : string)
| objectsLoadedMsg (objects : list S3Object) (err : option error)
| previewLoadedMsg (content file : string) (err : option error)
| fileDownloadedMsg (filename : string) (err : option error)
| fileUploadedMsg (filename : string) (err : option error)
| fileDeletedMsg (filename : string) (err : option error)
| fileCopiedMsg (sourceKey destKey : string) (err : option error)
| fileRenamedMsg (oldKey newKey : string) (err : option error)
| statusMsg (message : string) (isError : bool)
| localFilesLoadedMsg (items : list LocalItem.t) (path : string)
                      (err : option error)
| errorMsg (err : option error)
| dirStatsMsg (dirKey : string) (size : Z) (lastModified : string)
              (sizeTimeout dateTimeout : bool)
| OtherMsg.

(** The commands [Update] dispatches. A command is a closure over the
    model it was made from; it is kept as the name of the closure and
    what it captured. [CmdNone] is [nil]. *)
#[warnings="-register-all"]
Inductive Cmd : Type :=
| CmdNone
| Quit
| loadObjects (m : Model)
| previewFileContent (m : Model) (key : string)
| loadLocalFiles (m : Model) (path : string)
| uploadFile (m : Model) (fullPath : string)
| deleteFile (m : Model) (key : string)
| downloadFile (m : Model) (key : string)
| renameFile (m : Model) (oldKey newFilename : string)
| pasteFiles (m : Model)
| calculateDirStats (m : Model) (dirKey : string)
| Batch (cmds : list Cmd).

(** [uploadFilePrompt]. *)
Definition uploadFilePrompt (m : Model) : Cmd := loadLocalFiles m ".".

(** What a transition produces: the next model and a command, or a
    run-time panic (an index or a slice bound out of range). *)
Inductive Outcome : Type :=
| Next (m : Model) (cmd : Cmd)
| Panic.

(** [xs[i]], [s[i]], [s[:i]], [s[i:]]: [None] where Go panics. *)
Definition index {A} (xs : list A) (i : Z) : option A :=
  if (0 <=? i) then xs !! Z.to_nat i else None.

Definition byteAt (s : string) (i : Z) : option ascii :=
  if (0 <=? i) then String.get (Z.to_nat i) s else None.

Definition sliceTo (s : string) (i : Z) : option string :=
  if (0 <=? i) && (i <=? GoInt.slen s)
  then Some (String.substring 0 (Z.to_nat i) s) else None.

Definition sliceFrom (s : string) (i : Z) : option string :=
  if (0 <=? i) && (i <=? GoInt.slen s)
  then Some (String.substring (Z.to_nat i) (String.length s - Z.to_nat i) s)
  else None.

(** [case "a", "b":] of a switch on the key. *)
Definition keyIs (key : string) (cases : list string) : bool :=
  existsb (String.eqb key) cases.

(** The rows left for the list: the height less the title, status and
    help lines, at least five. *)
Definition availableHeight (m : Model) : Z :=
  let h := height m -! 8 in
  if h <? 5 then 5 else h.

(** Half a screen, at least one row. *)
Definition pageSize (m : Model) : Z :=
  let p := GoInt.quot (availableHeight m) 2 in
  if p <? 1 then 1 else p.

(** [updateScroll]. *)
Definition updateScroll (m : Model) : Model :=
  if GoInt.len (objects m) =? 0 then set_scrollOffset 0 m
  else
    let availableHeight := availableHeight m in
    let scrollback := 2 in
    (* Scroll down if cursor is too close to bottom *)
    let m :=
      if cursor m >=? scrollOffset m +! availableHeight -! scrollback
      then set_scrollOffset
             (cursor m -! availableHeight +! scrollback +! 1) m
      else m in
    (* Scroll up if cursor is too close to top *)
    let m :=
      if cursor m <? scrollOffset m +! scrollback
      then set_scrollOffset (cursor m -! scrollback) m
      else m in
    (* Ensure scroll offset stays within bounds *)
    let m := if scrollOffset m <? 0 then set_scrollOffset 0 m else m in
    if scrollOffset m >? GoInt.len (objects m) -! availableHeight
    then
      let m := set_scrollOffset (GoInt.len (objects m) -! availableHeight) m in
      if scrollOffset m <? 0 then set_scrollOffset 0 m else m
    else m.

(** The position of the first occurrence of [key] among the yanked keys. *)
Fixpoint yankedIndex (key : string) (yanked : list string) : option nat :=
  match yanked with
  | [] => None
  | y :: ys =>
      if String.eqb y key then Some 0%nat
      else option_map S (yankedIndex key ys)
  end.

(** [append(ys[:i], ys[i+1:]...)]. *)
Definition removeAt (i : nat) (ys : list string) : list string :=
  take i ys ++ drop (S i) ys.

(** The listing prefix one level up: the last segment of the path is
    dropped. *)
Definition parentPath (path : string) : string :=
  let parts := GoStrings.Split path GoStrings.slash in
  if GoInt.len parts >? 1
  then GoStrings.Join (take (length parts - 1) parts) "/"
  else "".

(** [updateBrowser]. *)
Definition updateBrowser (m : Model) (key : string) : Outcome :=
  if keyIs key ["ctrl+c"; "q"] then Next m Quit
  else if keyIs key ["up"; "k"] then
    if cursor m >? 0
    then Next (updateScroll (set_cursor (cursor m -! 1) m)) CmdNone
    else Next m CmdNone
  else if keyIs key ["down"; "j"] then
    if cursor m <? GoInt.len (objects m) -! 1
    then Next (updateScroll (set_cursor (cursor m +! 1) m)) CmdNone
    else Next m CmdNone
  else if keyIs key ["enter"; "l"; "o"] then
    if GoInt.len (objects m) >? 0 then
      match index (objects m) (cursor m) with
      | None => Panic
      | Some selected =>
          if IsDir selected then
            (* Navigate into directory *)
            let m := set_currentPath (Key selected) m in
            let m := set_loading true m in
            let m := set_dirStatsCache ∅ m in
            Next m (loadObjects m)
          else
            (* Preview file *)
            Next m (previewFileContent m (Key selected))
      end
    else Next m CmdNone
  else if keyIs key ["backspace"; "h"] then
    (* Go back to parent directory *)
    if negb (String.eqb (currentPath m) "") then
      let m := set_currentPath (parentPath (currentPath m)) m in
      let m := set_loading true m in
      let m := set_dirStatsCache ∅ m in
      Next m (loadObjects m)
    else Next m CmdNone
  else if keyIs key ["r"] then
    (* Rename selected file *)
    if GoInt.len (objects m) >? 0 then
      match index (objects m) (cursor m) with
      | None => Panic
      | Some selected =>
          if negb (IsDir selected) then
            let m := set_renameOriginal (Key selected) m in
            let m := set_renameInput (GoStrings.Base (Key selected)) m in
            let m := set_renameCursor (GoInt.slen (renameInput m)) m in
            let m := set_viewMode ViewRename m in
            let m := set_err None m in
            let m := set_statusMessage "" m in
            Next m CmdNone
          else Next m CmdNone
      end
    else Next m CmdNone
  else if keyIs key ["d"] then
    (* Download selected file (with confirmation) *)
    if GoInt.len (objects m) >? 0 then
      match index (objects m) (cursor m) with
      | None => Panic
      | Some selected =>
          if negb (IsDir selected) then
            let m := set_confirmAction "download" m in
            let m := set_confirmTarget (Key selected) m in
            let m := set_viewMode ViewConfirm m in
            let m := set_err None m in
            let m := set_statusMessage "" m in
            Next m CmdNone
          else Next m CmdNone
      end
    else Next m CmdNone
  else if keyIs key ["u"] then
    (* Upload file from current directory *)
    Next m (uploadFilePrompt m)
  else if keyIs key ["x"] then
    (* Delete selected file (with confirmation) *)
    if GoInt.len (objects m) >? 0 then
      match index (objects m) (cursor m) with
      | None => Panic
      | Some selected =>
          if negb (IsDir selected) then
            let m := set_confirmAction "delete" m in
            let m := set_confirmTarget (Key selected) m in
            let m := set_viewMode ViewConfirm m in
            let m := set_err None m in
            let m := set_statusMessage "" m in
            Next m CmdNone
          else Next m CmdNone
      end
    else Next m CmdNone
  else if keyIs key ["y"] then
    (* Yank (mark for copying) selected file - toggle behavior *)
    if GoInt.len (objects m) >? 0 then
      match index (objects m) (cursor m) with
      | None => Panic
      | Some selected =>
          if negb (IsDir selected) then
            let m :=
              match yankedIndex (Key selected) (yankedFiles m) with
              | Some i => set_yankedFiles (removeAt i (yankedFiles m)) m
              | None => set_yankedFiles (yankedFiles m ++ [Key selected]) m
              end in
            let m := set_err None m in
            (* Move cursor to next item *)
            if cursor m <? GoInt.len (objects m) -! 1
            then Next (updateScroll (set_cursor (cursor m +! 1) m)) CmdNone
            else Next m CmdNone
          else Next m CmdNone
      end
    else Next m CmdNone
  else if keyIs key ["p"] then
    (* Paste yanked files to current location *)
    if GoInt.len (yankedFiles m) >? 0 then Next m (pasteFiles m)
    else Next m CmdNone
  else if keyIs key ["c"] then
    (* Clear all yanked files *)
    if GoInt.len (yankedFiles m) >? 0 then
      let count := GoInt.len (yankedFiles m) in
      let m := set_yankedFiles [] m in
      let m := set_statusMessage
                 ("✓ Cleared " +:+ GoStrings.fmt_d count +:+ " yanked file(s)") m in
      let m := set_err None m in
      Next m CmdNone
    else Next m CmdNone
  else if keyIs key ["g"] then
    (* Go to first item *)
    if GoInt.len (objects m) >? 0
    then Next (updateScroll (set_cursor 0 m)) CmdNone
    else Next m CmdNone
  else if keyIs key ["G"] then
    (* Go to last item *)
    if GoInt.len (objects m) >? 0
    then Next (updateScroll (set_cursor (GoInt.len (objects m) -! 1) m)) CmdNone
    else Next m CmdNone
  else if keyIs key ["ctrl+d"] then
    (* Page down (half screen) *)
    if GoInt.len (objects m) >? 0 then
      let m := set_cursor (cursor m +! pageSize m) m in
      let m := if cursor m >=? GoInt.len (objects m)
               then set_cursor (GoInt.len (objects m) -! 1) m else m in
      Next (updateScroll m) CmdNone
    else Next m CmdNone
  else if keyIs key ["ctrl+u"] then
    (* Page up (half screen) *)
    if GoInt.len (objects m) >? 0 then
      let m := set_cursor (cursor m -! pageSize m) m in
      let m := if cursor m <? 0 then set_cursor 0 m else m in
      Next (updateScroll m) CmdNone
    else Next m CmdNone
  else if keyIs key ["?"] then Next (set_viewMode ViewHelp m) CmdNone
  else Next m CmdNone.


(** The last line the preview can scroll to. *)
Definition maxScroll (m : Model) : Z :=
  let s := GoInt.len (previewLines m) -! (height m -! 8) in
  if s <? 0 then 0 else s.

(** [updatePreview]. *)
Definition updatePreview (m : Model) (key : string) : Outcome :=
  if keyIs key ["ctrl+c"; "q"] then Next m Quit
  else if keyIs key ["esc"; "backspace"; "h"; "left"] then
    let m := set_viewMode ViewBrowser m in
    let m := set_previewContent "" m in
    let m := set_previewFileName "" m in
    let m := set_previewLines [] m in
    let m := set_previewScroll 0 m in
    let m := set_previewWidth 0 m in
    Next m CmdNone
  else if keyIs key ["up"; "k"] then
    if previewScroll m >? 0
    then Next (set_previewScroll (previewScroll m -! 1) m) CmdNone
    else Next m CmdNone
  else if keyIs key ["down"; "j"] then
    if previewScroll m <? maxScroll m
    then Next (set_previewScroll (previewScroll m +! 1) m) CmdNone
    else Next m CmdNone
  else if keyIs key ["pgup"; "u"] then
    let m := set_previewScroll (previewScroll m -! 10) m in
    let m := if previewScroll m <? 0 then set_previewScroll 0 m else m in
    Next m CmdNone
  else if keyIs key ["pgdown"; "d"] then
    let maxScroll := maxScroll m in
    let m := set_previewScroll (previewScroll m +! 10) m in
    let m := if previewScroll m >? maxScroll
             then set_previewScroll maxScroll m else m in
    Next m CmdNone
  else if keyIs key ["home"; "g"] then Next (set_previewScroll 0 m) CmdNone
  else if keyIs key ["end"; "G"] then
    Next (set_previewScroll (maxScroll m) m) CmdNone
  else Next m CmdNone.

(** [updateHelp]. *)
Definition updateHelp (m : Model) (key : string) : Outcome :=
  if keyIs key ["ctrl+c"; "q"] then Next m Quit
  else if keyIs key ["esc"; "?"] then Next (set_viewMode ViewBrowser m) CmdNone
  else Next m CmdNone.

(** The rename dialog's editor. [scanBack p s n] is the loop
    [for start >= 0 && p(s[start]) { start-- }] entered with
    [start = n - 1]; it gives the final [start]. *)
Fixpoint scanBack (p : ascii -> bool) (s : string) (n : nat) : option Z :=
  match n with
  | O => Some (-1)
  | S k =>
      match String.get k s with
      | None => None
      | Some c => if p c then scanBack p s k else Some (Z.of_nat k)
      end
  end.

Definition isSpace (c : ascii) : bool := Ascii.eqb c " "%char.

(** A key that is one printable byte. *)
Definition printable (key : string) : bool :=
  match key with
  | String c EmptyString =>
      (32 <=? Z.of_nat (nat_of_ascii c)) && (Z.of_nat (nat_of_ascii c) <=? 126)
  | _ => false
  end.

(** The editing keys of [updateRename]; [None] is a panic. *)
Definition renameEdit (m : Model) (key : string) : option Model :=
  if keyIs key ["backspace"] then
    (* Remove character to the left of cursor *)
    if (renameCursor m >? 0) && (GoInt.slen (renameInput m) >? 0) then
      before ← sliceTo (renameInput m) (renameCursor m -! 1);
      after ← sliceFrom (renameInput m) (renameCursor m);
      let m := set_renameInput (before +:+ after) m in
      Some (set_renameCursor (renameCursor m -! 1) m)
    else Some m
  else if keyIs key ["delete"] then
    (* Remove character at cursor position *)
    if renameCursor m <? GoInt.slen (renameInput m) then
      before ← sliceTo (renameInput m) (renameCursor m);
      after ← sliceFrom (renameInput m) (renameCursor m +! 1);
      Some (set_renameInput (before +:+ after) m)
    else Some m
  else if keyIs key ["left"] then
    if renameCursor m >? 0
    then Some (set_renameCursor (renameCursor m -! 1) m) else Some m
  else if keyIs key ["right"] then
    if renameCursor m <? GoInt.slen (renameInput m)
    then Some (set_renameCursor (renameCursor m +! 1) m) else Some m
  else if keyIs key ["home"; "ctrl+a"] then Some (set_renameCursor 0 m)
  else if keyIs key ["end"; "ctrl+e"] then
    Some (set_renameCursor (GoInt.slen (renameInput m)) m)
  else if keyIs key ["ctrl+u"] then
    (* Delete all text to the left of cursor *)
    after ← sliceFrom (renameInput m) (renameCursor m);
    Some (set_renameCursor 0 (set_renameInput after m))
  else if keyIs key ["ctrl+w"] then
    (* Delete word to the left of cursor *)
    if renameCursor m >? 0 then
      let start := renameCursor m -! 1 in
      start ← scanBack isSpace (renameInput m) (Z.to_nat (start + 1));
      start ← scanBack (fun c => negb (isSpace c)) (renameInput m)
                       (Z.to_nat (start + 1));
      let start := start +! 1 in
      before ← sliceTo (renameInput m) start;
      after ← sliceFrom (renameInput m) (renameCursor m);
      Some (set_renameCursor start (set_renameInput (before +:+ after) m))
    else Some m
  else
    (* Add character to input (only printable characters) *)
    if printable key then
      before ← sliceTo (renameInput m) (renameCursor m);
      after ← sliceFrom (renameInput m) (renameCursor m);
      let m := set_renameInput (before +:+ key +:+ after) m in
      Some (set_renameCursor (renameCursor m +! 1) m)
    else Some m.

(** Ensure cursor stays within bounds. *)
Definition clampRenameCursor (m : Model) : Model :=
  let m := if renameCursor m <? 0 then set_renameCursor 0 m else m in
  if renameCursor m >? GoInt.slen (renameInput m)
  then set_renameCursor (GoInt.slen (renameInput m)) m else m.

(** The dialog's buffers, emptied. *)
Definition clearRename (m : Model) : Model :=
  set_renameCursor 0 (set_renameOriginal "" (set_renameInput "" m)).

(** [updateRename]. *)
Definition updateRename (m : Model) (key : string) : Outcome :=
  if keyIs key ["ctrl+c"; "q"] then Next m Quit
  else if keyIs key ["esc"] then
    (* Cancel rename *)
    Next (clearRename (set_viewMode ViewBrowser m)) CmdNone
  else if keyIs key ["enter"] then
    (* Confirm rename *)
    if negb (String.eqb (renameInput m) "") &&
       negb (String.eqb (renameInput m) (GoStrings.Base (renameOriginal m)))
    then
      let m := set_viewMode ViewBrowser m in
      let m := set_loading true m in
      let cmd := renameFile m (renameOriginal m) (renameInput m) in
      Next (clearRename m) cmd
    else
      (* If no change, just go back to browser *)
      Next (clearRename (set_viewMode ViewBrowser m)) CmdNone
  else
    match renameEdit m key with
    | None => Panic
    | Some m => Next (clampRenameCursor m) CmdNone
    end.

(** The confirmation's state, emptied. *)
Definition clearConfirm (m : Model) : Model :=
  set_confirmData None (set_confirmTarget "" (set_confirmAction "" m)).

(** [updateConfirm]. *)
Definition updateConfirm (m : Model) (key : string) : Outcome :=
  if keyIs key ["ctrl+c"; "q"] then Next m Quit
  else if keyIs key ["esc"; "n"; "N"] then
    (* Cancel confirmation *)
    Next (clearConfirm (set_viewMode ViewBrowser m)) CmdNone
  else if keyIs key ["y"; "Y"; "enter"] then
    (* Confirm action *)
    let m := set_viewMode ViewBrowser m in
    let m := set_loading true m in
    let cmd :=
      if String.eqb (confirmAction m) "delete"
      then deleteFile m (confirmTarget m)
      else if String.eqb (confirmAction m) "download"
      then downloadFile m (confirmTarget m)
      else if String.eqb (confirmAction m) "upload"
      then match confirmData m with
           | Some fullPath => uploadFile m fullPath
           | None => CmdNone
           end
      else CmdNone in
    Next (clearConfirm m) cmd
  else Next m CmdNone.

(** The directories of a fresh listing that have no cached statistics, one
    command each. *)
Definition statsCommands (m : Model) : list Cmd :=
  omap (fun obj : S3Object =>
          if IsDir obj then
            match dirStatsCache m !! Key obj with
            | None => Some (calculateDirStats m (Key obj))
            | Some _ => None
            end
          else None)
       (objects m).

Section Machine.

(** Three library functions are taken as they are: [filepath.Dir],
    [filepath.Join] and [utf8.RuneCountInString]. *)
Variable filepath_Dir : string -> string.
Variable filepath_Join : string -> string -> string.
Variable utf8_RuneCountInString : string -> Z.

(** The directory above [localPath] in the upload picker. *)
Definition localParent (localPath : string) : string :=
  let parentPath := filepath_Dir localPath in
  if String.eqb parentPath "." && String.eqb localPath "." then ".."
  else if String.eqb parentPath "" || String.eqb parentPath "/" then "."
  else parentPath.

(** [updateUpload]. *)
Definition updateUpload (m : Model) (key : string) : Outcome :=
  if keyIs key ["ctrl+c"; "q"] then Next m Quit
  else if keyIs key ["esc"] then Next (set_viewMode ViewBrowser m) CmdNone
  else if keyIs key ["up"; "k"] then
    if cursor m >? 0 then Next (set_cursor (cursor m -! 1) m) CmdNone
    else Next m CmdNone
  else if keyIs key ["down"; "j"] then
    if cursor m <? GoInt.len (localItems m) -! 1
    then Next (set_cursor (cursor m +! 1) m) CmdNone
    else Next m CmdNone
  else if keyIs key ["enter"; "l"; "o"] then
    if GoInt.len (localItems m) >? 0 then
      match index (localItems m) (cursor m) with
      | None => Panic
      | Some selected =>
          if LocalItem.IsDir selected then
            (* Navigate into directory *)
            let newPath :=
              if String.eqb (LocalItem.Name selected) ".."
              then localParent (localPath m)
              else filepath_Join (localPath m) (LocalItem.Name selected) in
            Next m (loadLocalFiles m newPath)
          else
            (* Upload file (with confirmation) *)
            let fullPath := filepath_Join (localPath m) (LocalItem.Name selected) in
            let m := set_confirmAction "upload" m in
            let m := set_confirmTarget (LocalItem.Name selected) m in
            let m := set_confirmData (Some fullPath) m in
            let m := set_viewMode ViewConfirm m in
            let m := set_err None m in
            let m := set_statusMessage "" m in
            Next m CmdNone
      end
    else Next m CmdNone
  else if keyIs key ["backspace"; "h"] then
    (* Go back to parent directory *)
    Next m (loadLocalFiles m (localParent (localPath m)))
  else Next m CmdNone.

(** [calculatePreviewWidth]. *)
Definition calculatePreviewWidth (m : Model) : Z :=
  if GoInt.len (previewLines m) =? 0 then 80
  else
    let maxLineLength :=
      fold_left (fun acc line =>
                   let lineLength := utf8_RuneCountInString line +! 6 in
                   if lineLength >? acc then lineLength else acc)
                (previewLines m) 0 in
    let optimalWidth := maxLineLength +! 8 in
    let maxAllowedWidth :=
      let w := width m -! 10 in if w <? 40 then 40 else w in
    if optimalWidth >? maxAllowedWidth then maxAllowedWidth
    else if optimalWidth <? 60 then 60
    else optimalWidth.

(** [Update]. *)
Definition Update (m : Model) (msg : Msg) : Outcome :=
  match msg with
  | WindowSizeMsg w h => Next (set_height h (set_width w m)) CmdNone

  | KeyMsg key =>
      match viewMode m with
      | ViewBrowser => updateBrowser m key
      | ViewPreview => updatePreview m key
      | ViewHelp => updateHelp m key
      | ViewUpload => updateUpload m key
      | ViewRename => updateRename m key
      | ViewConfirm => updateConfirm m key
      end

  | objectsLoadedMsg objs e =>
      let m := set_loading false m in
      match e with
      | Some _ => Next (set_err e m) CmdNone
      | None =>
          let m := set_objects objs m in
          let m := set_cursor 0 m in
          let m := set_scrollOffset 0 m in
          let m := set_err None m in
          (* Trigger directory stats calculations for directories that
             don't have cached stats *)
          let cmds := statsCommands m in
          if GoInt.len cmds >? 0 then Next m (Batch cmds) else Next m CmdNone
      end

  | previewLoadedMsg content file e =>
      match e with
      | Some _ => Next (set_err e m) CmdNone
      | None =>
          let m := set_previewContent content m in
          let m := set_previewFileName file m in
          let m := set_previewLines (GoStrings.Split content GoStrings.newline) m in
          let m := set_previewScroll 0 m in
          let m := set_previewWidth (calculatePreviewWidth m) m in
          let m := set_viewMode ViewPreview m in
          Next (set_err None m) CmdNone
      end

  | fileDownloadedMsg filename e =>
      let m := set_loading false m in
      match e with
      | Some _ => Next (set_statusMessage "" (set_err e m)) CmdNone
      | None =>
          let m := set_err None m in
          Next (set_statusMessage
                  ("✓ Downloaded '" +:+ filename +:+ "' successfully") m)
               CmdNone
      end

  | fileUploadedMsg filename e =>
      let m := set_loading false m in
      match e with
      | Some _ => Next (set_statusMessage "" (set_err e m)) CmdNone
      | None =>
          let m := set_err None m in
          let m := set_statusMessage
                     ("✓ Uploaded '" +:+ filename +:+ "' successfully") m in
          (* Refresh the directory to show the new file *)
          Next m (loadObjects m)
      end

  | localFilesLoadedMsg items path e =>
      match e with
      | Some _ => Next (set_err e m) CmdNone
      | None =>
          let m := set_localItems items m in
          let m := set_localPath path m in
          let m := set_cursor 0 m in
          let m := set_viewMode ViewUpload m in
          Next (set_err None m) CmdNone
      end

  | fileDeletedMsg filename e =>
      let m := set_loading false m in
      match e with
      | Some _ => Next (set_statusMessage "" (set_err e m)) CmdNone
      | None =>
          let m := set_err None m in
          let m := set_statusMessage
                     ("✓ Deleted '" +:+ filename +:+ "' successfully") m in
          (* Refresh the directory to remove the deleted file *)
          Next m (loadObjects m)
      end

  | fileCopiedMsg sourceKey destKey e =>
      let m := set_loading false m in
      match e with
      | Some _ => Next (set_statusMessage "" (set_err e m)) CmdNone
      | None =>
          let m := set_err None m in
          (* Handle both single file and multiple file copy messages *)
          let m :=
            if GoStrings.Contains sourceKey "files"
            then set_statusMessage
                   ("✓ Copied " +:+ sourceKey +:+ " successfully") m
            else set_statusMessage
                   ("✓ Copied '" +:+ GoStrings.Base sourceKey +:+ "' to '"
                    +:+ GoStrings.Base destKey +:+ "' successfully") m in
          (* Refresh the directory to show the new file(s) *)
          Next m (loadObjects m)
      end

  | fileRenamedMsg oldKey newKey e =>
      let m := set_loading false m in
      match e with
      | Some _ => Next (set_statusMessage "" (set_err e m)) CmdNone
      | None =>
          let m := set_err None m in
          let m := set_statusMessage
                     ("✓ Renamed '" +:+ GoStrings.Base oldKey +:+ "' to '"
                      +:+ GoStrings.Base newKey +:+ "' successfully") m in
          (* Refresh the directory to show the renamed file *)
          Next m (loadObjects m)
      end

  | statusMsg message isError =>
      if isError
      then Next (set_statusMessage "" (set_err (Some (ErrText message)) m)) CmdNone
      else Next (set_statusMessage message (set_err None m)) CmdNone

  | errorMsg e => Next (set_loading false (set_err e m)) CmdNone

  | dirStatsMsg dirKey size lastModified sizeTimeout dateTimeout =>
      (* Update directory statistics cache *)
      let stats := DirStats.mk size lastModified sizeTimeout dateTimeout in
      Next (set_dirStatsCache (<[dirKey := stats]> (dirStatsCache m)) m) CmdNone

  | OtherMsg => Next m CmdNone
  end.

(** The model after a run of messages, [None] if a transition panicked. *)
Fixpoint runMsgs (m : Model) (msgs : list Msg) : option Model :=
  match msgs with
  | [] => Some m
  | msg :: rest =>
      match Update m msg with
      | Next m' _ => runMsgs m' rest
      | Panic => None
      end
  end.

End Machine.

(** What the browser view shows between the title and the list: the error
    if there is one, else the status message if there is one ([viewBrowser]).
    The other views show the error only. *)
Inductive Banner : Type :=
| ShowError (e : error)
| ShowStatus (text : string)
| ShowNothing.

Definition banner (m : Model) : Banner :=
  match viewMode m with
  | ViewBrowser =>
      match err m with
      | Some e => ShowError e
      | None =>
          if negb (String.eqb (statusMessage m) "")
          then ShowStatus (statusMessage m) else ShowNothing
      end
  | ViewHelp => ShowNothing
  | _ =>
      match err m with
      | Some e => ShowError e
      | None => ShowNothing
      end
  end.


(** ** The commands, run *)

(** The order of a remote listing and of a local listing: directories
    first, then by key or name. *)
Definition objectLess (a b : S3Object) : bool :=
  if negb (Bool.eqb (IsDir a) (IsDir b)) then IsDir a
  else String.ltb (Key a) (Key b).

Definition localLess (a b : LocalItem.t) : bool :=
  if negb (Bool.eqb (LocalItem.IsDir a) (LocalItem.IsDir b))
  then LocalItem.IsDir a
  else String.ltb (LocalItem.Name a) (LocalItem.Name b).

(** The prefix a listing is asked for: the path with a trailing
    separator, the root as the empty prefix. *)
Definition listingPrefix (path : string) : string :=
  if negb (String.eqb path "") && negb (GoStrings.HasSuffix path "/")
  then path +:+ "/" else path.

(** A key under the current path. *)
Definition keyUnder (currentPath filename : string) : string :=
  if negb (String.eqb currentPath "") then currentPath +:+ "/" +:+ filename
  else filename.

(** [obj.Key == key] for some [obj] of the listing. *)
Definition keyExists (objs : list S3Object) (key : string) : bool :=
  existsb (fun obj => String.eqb (Key obj) key) objs.

(** [fmt.Sprintf("%s_copy_%d%s", nameWithoutExt, counter, ext)]. *)
Definition copyName (filename : string) (counter : Z) : string :=
  let ext := GoStrings.Ext filename in
  let nameWithoutExt := GoStrings.TrimSuffix filename ext in
  nameWithoutExt +:+ "_copy_" +:+ GoStrings.fmt_d counter +:+ ext.

(** The loop of [pasteFiles] that looks for a unique name by adding
    numbers. It has no bound in the source; [fuel] counts the rounds it is
    given here, and [None] means they did not suffice. *)
Fixpoint findFree (fuel : nat) (currentPath : string) (objs : list S3Object)
                  (filename : string) (counter : Z) : option string :=
  match fuel with
  | O => None
  | S fuel' =>
      let destKey := keyUnder currentPath (copyName filename counter) in
      if keyExists objs destKey
      then findFree fuel' currentPath objs filename (counter +! 1)
      else Some destKey
  end.

(** The destination key [pasteFiles] chooses for one yanked key. One round
    more than the listing has entries is always enough. *)
Definition pasteDest (m : Model) (yankedFile : string) : option string :=
  let filename := GoStrings.Base yankedFile in
  let destKey := keyUnder (currentPath m) filename in
  if keyExists (objects m) destKey
  then findFree (S (length (objects m))) (currentPath m) (objects m) filename 1
  else Some destKey.

(** The key [renameFile] renames to: the old key with its last segment
    replaced. *)
Definition renamedKey (oldKey newFilename : string) : string :=
  if GoStrings.Contains oldKey "/" then
    let parts := GoStrings.Split oldKey GoStrings.slash in
    GoStrings.Join (take (length parts - 1) parts ++ [newFilename]) "/"
  else newFilename.

(** How one [select] of [calculateDirStats] settles: the worker's value
    arrives, its error arrives, or the deadline passes first. *)
Inductive Settled (A : Type) : Type :=
| Value (a : A)
| Failed (e : error)
| Deadline.
Arguments Value {A}.
Arguments Failed {A}.
Arguments Deadline {A}.

(** What the two workers of [calculateDirStats] compute from a listing. *)
Definition totalSize (objs : list S3Object) : Z :=
  fold_left (fun total obj => if negb (IsDir obj) then total +! Size obj else total)
            objs 0.

Definition latestDate (objs : list S3Object) : string :=
  let latest :=
    fold_left (fun latest obj =>
                 if negb (IsDir obj) &&
                    (String.eqb latest "" || String.ltb latest (LastModified obj))
                 then LastModified obj else latest)
              objs "" in
  if String.eqb latest "" then "N/A" else latest.

(** The message [calculateDirStats] returns once both selects have
    settled. *)
Definition dirStatsResult (dirKey : string) (sizeSel : Settled Z)
                          (dateSel : Settled string) : Msg :=
  let '(size, sizeTimeout) :=
    match sizeSel with
    | Value v => (v, false)
    | Failed _ => (0, true)
    | Deadline => (0, true)
    end in
  let '(lastModified, dateTimeout) :=
    match dateSel with
    | Value v => (v, false)
    | Failed _ => ("N/A", true)
    | Deadline => ("N/A", true)
    end in
  dirStatsMsg dirKey size lastModified sizeTimeout dateTimeout.

(** What [os.ReadDir] gives for one entry; [deInfo] is [None] when
    [entry.Info()] fails. *)
Record DirEntry : Type := mkDirEntry {
  deName : string;
  deIsDir : bool;
  deInfo : option Z
}.

Section Commands.

Context {Remote : Type} (svc : Service Remote).

(** [sort.Slice], taken as it is. *)
Variable sortSlice : forall A : Type, (A -> A -> bool) -> list A -> list A.

Local Notation "'run' x <- c ; k" := (bind c (fun x => k))
  (at level 10, x name, c at level 100, k at level 200).

(** [loadObjects]. *)
Definition runLoadObjects (m : Model) : M Remote Msg :=
  run result <- ListObjects svc (bucket m) (listingPrefix (currentPath m)) ;
  match result with
  | inl e => ret (objectsLoadedMsg [] (Some e))
  | inr objs =>
      (* Sort objects: directories first, then files, both alphabetically *)
      ret (objectsLoadedMsg (sortSlice _ objectLess objs) None)
  end.

(** [loadLocalFiles], given what [os.ReadDir(path)] answered. *)
Definition localItemsOf (entries : list DirEntry) : list LocalItem.t :=
  LocalItem.mk ".." true 0 ::
  omap (fun e =>
          if GoStrings.HasPrefix (deName e) "." then None
          else match deInfo e with
               | None => None
               | Some size => Some (LocalItem.mk (deName e) (deIsDir e) size)
               end)
       entries.

Definition runLoadLocalFiles (path : string) (readDir : error + list DirEntry)
  : Msg :=
  match readDir with
  | inl e => localFilesLoadedMsg [] "" (Some e)
  | inr entries =>
      (* Sort: directories first, then files *)
      localFilesLoadedMsg (sortSlice _ localLess (localItemsOf entries)) path None
  end.

(** [renameFile]. The closure also rewrites the yanked key in the slice it
    captured; that write is not part of the message it returns. *)
Definition runRenameFile (m : Model) (oldKey newFilename : string)
  : M Remote Msg :=
  let newKey := renamedKey oldKey newFilename in
  (* Check if the new name already exists *)
  if keyExists (objects m) newKey
  then ret (fileRenamedMsg "" ""
              (Some (ErrText ("file '" +:+ newFilename +:+ "' already exists"))))
  else
    (* Perform the rename operation (copy + delete) *)
    run e <- RenameObject svc (bucket m) oldKey newKey ;
    match e with
    | Some e => ret (fileRenamedMsg "" "" (Some e))
    | None => ret (fileRenamedMsg oldKey newKey None)
    end.

(** The loop of [pasteFiles] over the yanked keys; it gives the names
    copied and the failures, oldest first. *)
Fixpoint pasteLoop (m : Model) (yanked copiedFiles errors : list string)
  : M Remote (option (list string * list string)) :=
  match yanked with
  | [] => ret (Some (copiedFiles, errors))
  | yankedFile :: rest =>
      match pasteDest m yankedFile with
      | None => ret None
      | Some destKey =>
          (* Perform the copy operation *)
          run e <- CopyObject svc (bucket m) yankedFile destKey ;
          match e with
          | Some e =>
              pasteLoop m rest copiedFiles
                (errors ++ [GoStrings.Base yankedFile +:+ ": " +:+ Error e])
          | None =>
              pasteLoop m rest (copiedFiles ++ [GoStrings.Base destKey]) errors
          end
      end
  end.

(** [pasteFiles]; [None] if a search for a free name ran out of rounds. *)
Definition runPasteFiles (m : Model) : M Remote (option Msg) :=
  if GoInt.len (yankedFiles m) =? 0
  then ret (Some (fileCopiedMsg "" ""
                    (Some (ErrText "no files yanked for copying"))))
  else
    run r <- pasteLoop m (yankedFiles m) [] [] ;
    match r with
    | None => ret None
    | Some (copiedFiles, errors) =>
        (* Return result with summary *)
        if GoInt.len errors >? 0 then
          let errorMsg :=
            "Failed to copy " +:+ GoStrings.fmt_d (GoInt.len errors)
            +:+ " file(s): " +:+ GoStrings.Join errors ", " in
          let errorMsg :=
            if GoInt.len copiedFiles >? 0
            then errorMsg +:+ ". Successfully copied: "
                 +:+ GoStrings.Join copiedFiles ", "
            else errorMsg in
          ret (Some (fileCopiedMsg "" "" (Some (ErrText errorMsg))))
        else
          ret (Some (fileCopiedMsg
                       (GoStrings.fmt_d (GoInt.len (yankedFiles m)) +:+ " files")
                       (GoStrings.Join copiedFiles ", ") None))
    end.

End Commands.

End Tui.

(* ===================================================================== *)
(** * The earlier variant of the user interface                           *)
(* ===================================================================== *)

Module Legacy.
Import S3.

(** [ViewMode]. *)
Inductive ViewMode : Type :=
| ViewBrowser | ViewPreview | ViewHelp | ViewUpload.

(** [Model]: no statistics cache, no yanked keys, no dialogs. *)
Record Model : Type := mkModel {
  bucket : string;
  currentPath : string;
  objects : list S3Object;
  cursor : Z;
  viewMode : ViewMode;
  previewContent : string;
  previewFileName : string;
  previewLines : list string;
  previewScroll : Z;
  previewWidth : Z;
  localItems : list Tui.LocalItem.t;
  localPath : string;
  err : option error;
  statusMessage : string;
  loading : bool;
  width : Z;
  height : Z
}.

Definition set_currentPath (v : string) (m : Model) : Model :=
  mkModel (bucket m) v (objects m) (cursor m) (viewMode m) (previewContent m)
    (previewFileName m) (previewLines m) (previewScroll m) (previewWidth m)
    (localItems m) (localPath m) (err m) (statusMessage m) (loading m)
    (width m) (height m).

Definition set_cursor (v : Z) (m : Model) : Model :=
  mkModel (bucket m) (currentPath m) (objects m) v (viewMode m)
    (previewContent m) (previewFileName m) (previewLines m) (previewScroll m)
    (previewWidth m) (localItems m) (localPath m) (err m) (statusMessage m)
    (loading m) (width m) (height m).

Definition set_viewMode (v : ViewMode) (m : Model) : Model :=
  mkModel (bucket m) (currentPath m) (objects m) (cursor m) v
    (previewContent m) (previewFileName m) (previewLines m) (previewScroll m)
    (previewWidth m) (localItems m) (localPath m) (err m) (statusMessage m)
    (loading m) (width m) (height m).

Definition set_loading (v : bool) (m : Model) : Model :=
  mkModel (bucket m) (currentPath m) (objects m) (cursor m) (viewMode m)
    (previewContent m) (previewFileName m) (previewLines m) (previewScroll m)
    (previewWidth m) (localItems m) (localPath m) (err m) (statusMessage m) v
    (width m) (height m).

(** The commands of this variant. *)
Inductive Cmd : Type :=
| CmdNone
| Quit
| loadObjects (m : Model)
| previewFileContent (m : Model) (key : string)
| loadLocalFiles (m : Model) (path : string)
| uploadFile (m : Model) (fullPath : string)
| deleteFile (m : Model) (key : string)
| downloadFile (m : Model) (key : string).

Inductive Outcome : Type :=
| Next (m : Model) (cmd : Cmd)
| Panic.

(** [updateBrowser] of this variant. *)
Definition updateBrowser (m : Model) (key : string) : Outcome :=
  if Tui.keyIs key ["ctrl+c"; "q"] then Next m Quit
  else if Tui.keyIs key ["up"; "k"] then
    if cursor m >? 0 then Next (set_cursor (cursor m -! 1) m) CmdNone
    else Next m CmdNone
  else if Tui.keyIs key ["down"; "j"] then
    if cursor m <? GoInt.len (objects m) -! 1
    then Next (set_cursor (cursor m +! 1) m) CmdNone
    else Next m CmdNone
  else if Tui.keyIs key ["enter"; "l"; "o"] then
    if GoInt.len (objects m) >? 0 then
      match Tui.index (objects m) (cursor m) with
      | None => Panic
      | Some selected =>
          if IsDir selected then
            (* Navigate into directory *)
            let m := set_currentPath (Key selected) m in
            let m := set_loading true m in
            Next m (loadObjects m)
          else
            (* Preview file *)
            Next m (previewFileContent m (Key selected))
      end
    else Next m CmdNone
  else if Tui.keyIs key ["backspace"; "h"] then
    (* Go back to parent directory *)
    if negb (String.eqb (currentPath m) "") then
      let m := set_currentPath (Tui.parentPath (currentPath m)) m in
      let m := set_loading true m in
      Next m (loadObjects m)
    else Next m CmdNone
  else if Tui.keyIs key ["r"] then
    (* Refresh current directory *)
    let m := set_loading true m in
    Next m (loadObjects m)
  else if Tui.keyIs key ["d"] then
    (* Download selected file *)
    if GoInt.len (objects m) >? 0 then
      match Tui.index (objects m) (cursor m) with
      | None => Panic
      | Some selected =>
          if negb (IsDir selected) then Next m (downloadFile m (Key selected))
          else Next m CmdNone
      end
    else Next m CmdNone
  else if Tui.keyIs key ["u"] then
    (* Upload file from current directory *)
    Next m (loadLocalFiles m ".")
  else if Tui.keyIs key ["x"] then
    (* Delete selected file *)
    if GoInt.len (objects m) >? 0 then
      match Tui.index (objects m) (cursor m) with
      | None => Panic
      | Some selected =>
          if negb (IsDir selected) then Next m (deleteFile m (Key selected))
          else Next m CmdNone
      end
    else Next m CmdNone
  else if Tui.keyIs key ["?"] then Next (set_viewMode ViewHelp m) CmdNone
  else Next m CmdNone.

End Legacy.

(* ===================================================================== *)
(** * The vocabulary of the properties                                    *)
(* ===================================================================== *)

Import Tui.

(** The cursor is within the listing, or at zero when the listing is
    empty. *)
Definition cursorInRange (m : Model) : Prop :=
  (objects m = [] /\ cursor m = 0) \/
  (0 <= cursor m < GoInt.len (objects m)).

(** The visible window [scrollOffset, scrollOffset + visibleHeight) holds
    the cursor. *)
Definition windowHoldsCursor (m : Model) : Prop :=
  scrollOffset m <= cursor m < scrollOffset m + availableHeight m.

(** The keys that move the cursor in the browser; the last four move it
    by half a page or to an end of the listing. *)
Definition cursorMoveKeys : list string :=
  ["up"; "k"; "down"; "j"; "ctrl+u"; "ctrl+d"; "g"; "G"].

Definition jumpKeys : list string := ["ctrl+u"; "ctrl+d"; "g"; "G"].

(** The window's arithmetic stays within [int]. *)
Definition noOverflow (m : Model) : Prop :=
  scrollOffset m + availableHeight m <= GoInt.max_int /\
  GoInt.len (objects m) + availableHeight m <= GoInt.max_int.

(** A key that refreshes: from every model in the browser it dispatches
    the listing of the unchanged current path and empties the statistics
    cache. *)
Definition refreshes (key : string) : Prop :=
  forall m : Model,
    viewMode m = ViewBrowser ->
    exists m',
      updateBrowser m key = Next m' (loadObjects m') /\
      currentPath m' = currentPath m /\
      dirStatsCache m' = ∅.

(** The error a result message carries. *)
Definition errorOf (msg : Msg) : option error :=
  match msg with
  | objectsLoadedMsg _ e | previewLoadedMsg _ _ e | fileDownloadedMsg _ e
  | fileUploadedMsg _ e | fileDeletedMsg _ e | fileCopiedMsg _ _ e
  | fileRenamedMsg _ _ e | localFilesLoadedMsg _ _ e | errorMsg e => e
  | statusMsg message true => Some (ErrText message)
  | _ => None
  end.

(** The results of the file operations and [statusMsg]: the messages that
    bring a status message when they bring no error. *)
Definition bringsStatus (msg : Msg) : bool :=
  match msg with
  | fileDownloadedMsg _ _ | fileUploadedMsg _ _ | fileDeletedMsg _ _
  | fileCopiedMsg _ _ _ | fileRenamedMsg _ _ _ | statusMsg _ _ => true
  | _ => false
  end.

(** A cached record carries what one run of [calculateDirStats] returned
    after both of its selects had settled. *)
Definition bothResolved (stats : DirStats.t) : Prop :=
  exists (sizeSel : Settled Z) (dateSel : Settled string),
    forall dirKey,
      dirStatsResult dirKey sizeSel dateSel =
      dirStatsMsg dirKey (DirStats.Size stats) (DirStats.LastModified stats)
                  (DirStats.SizeTimeout stats) (DirStats.DateTimeout stats).

(** A statistics message is one that [calculateDirStats] returns; every
    other message is taken as it comes. *)
Definition fromAggregator (msg : Msg) : Prop :=
  match msg with
  | dirStatsMsg dirKey _ _ _ _ =>
      exists sizeSel dateSel, msg = dirStatsResult dirKey sizeSel dateSel
  | _ => True
  end.

(** Stand-ins for the three library functions, to run the machine on:
    exact on clean relative paths and on ASCII text. *)
Definition plainDir (path : string) : string :=
  let parts := GoStrings.Split path GoStrings.slash in
  if GoInt.len parts >? 1
  then GoStrings.Join (take (length parts - 1) parts) "/"
  else ".".

Definition plainJoin (dir name : string) : string :=
  if String.eqb dir "." then name else dir +:+ "/" +:+ name.

Definition plainRuneCount (s : string) : Z := GoInt.slen s.

Section Reachability.

Variable filepath_Dir : string -> string.
Variable filepath_Join : string -> string -> string.
Variable utf8_RuneCountInString : string -> Z.

(** The models the program can be in: the initial one, and those a
    transition leads to. *)
Inductive reachable : Model -> Prop :=
| reach_init bucket : reachable (NewModel bucket)
| reach_step m msg m' cmd :
    reachable m ->
    fromAggregator msg ->
    Update filepath_Dir filepath_Join utf8_RuneCountInString m msg = Next m' cmd ->
    reachable m'.

End Reachability.

(** The order a listing is in: no file before a directory, and keys in
    non-decreasing order among the directories and among the files. *)
Definition directoriesFirst {A} (isDir : A -> bool) (name : A -> string)
                            (l : list A) : Prop :=
  forall (i j : nat) (a b : A),
    (i < j)%nat -> l !! i = Some a -> l !! j = Some b ->
    (isDir b = true -> isDir a = true) /\
    (isDir a = isDir b -> String.leb (name a) (name b) = true).

(** What [sort.Slice] promises for a [less] that is a strict weak order:
    the slice is rearranged so that no element is less than one before
    it. *)
Definition strictWeakOrder {A} (less : A -> A -> bool) : Prop :=
  (forall a, less a a = false) /\
  (forall a b c, less a b = true -> less b c = true -> less a c = true) /\
  (forall a b c, less a b = false -> less b c = false -> less a c = false).

Definition sortsSlices
  (sortSlice : forall A : Type, (A -> A -> bool) -> list A -> list A) : Prop :=
  forall (A : Type) (less : A -> A -> bool) (l : list A),
    strictWeakOrder less ->
    Permutation (sortSlice A less l) l /\
    StronglySorted (fun a b => less b a = false) (sortSlice A less l).

(** A sort to run the commands with: insertion sort. *)
Fixpoint insertSorted {A} (less : A -> A -> bool) (x : A) (l : list A) : list A :=
  match l with
  | [] => [x]
  | y :: l' => if less x y then x :: l else y :: insertSorted less x l'
  end.

Definition insertionSort (A : Type) (less : A -> A -> bool) (l : list A)
  : list A :=
  fold_right (insertSorted less) [] l.

(** ** Runs of the machine *)

(** A file of the listing and two entries of a local directory. *)
Definition fileA : S3Object := mkS3Object "a.txt" 12 "2024-05-01 10:00:00" false.

Definition localEntries : list LocalItem.t :=
  [LocalItem.mk ".." true 0; LocalItem.mk "notes.txt" false 40;
   LocalItem.mk "todo.txt" false 7].

(** A file is listed, deleted after confirmation, and the deletion
    succeeds. *)
Definition deleteRun : list Msg :=
  [objectsLoadedMsg [fileA] None; KeyMsg "x"; KeyMsg "y";
   fileDeletedMsg "a.txt" None].

Definition afterDelete : Model :=
  Eval vm_compute in
    match runMsgs plainDir plainJoin plainRuneCount (NewModel "bucket") deleteRun with
    | Some m => m
    | None => NewModel "bucket"
    end.

(** One file is listed; the upload picker is opened on a directory of
    three entries, the cursor is moved down twice and the picker is left
    with [esc]. *)
Definition pickerRun : list Msg :=
  [WindowSizeMsg 80 24; objectsLoadedMsg [fileA] None; KeyMsg "u";
   localFilesLoadedMsg localEntries "." None;
   KeyMsg "down"; KeyMsg "down"; KeyMsg "esc"].

(** A listing of two files, one of them the copy of the other, with two
    keys yanked elsewhere. *)
Definition pasteModel : Model :=
  set_yankedFiles ["docs/a.txt"; "docs/b.txt"]
    (set_objects [mkS3Object "a.txt" 12 "2024-05-01 10:00:00" false;
                  mkS3Object "a_copy_1.txt" 12 "2024-05-02 10:00:00" false]
       (set_loading false (NewModel "bucket"))).

(** Twenty files on a screen of fifteen rows, the cursor on the eleventh
    file and the window from the seventh on. *)
Definition scrollModel : Model :=
  set_scrollOffset 6
    (set_cursor 10
       (set_height 15
          (set_objects
             (map (fun i => mkS3Object ("file" +:+ pretty i) 1 "" false)
                  (seq 0 20))
             (set_loading false (NewModel "bucket"))))).

(** A directory and a file, the cursor on the directory. *)
Definition dirModel : Model :=
  set_objects [mkS3Object "docs" 0 "" true; fileA]
    (set_loading false (NewModel "bucket")).

(** The rename dialog open on a file, its name not changed. *)
Definition renameModel : Model :=
  set_renameCursor 10
    (set_renameInput "report.txt"
       (set_renameOriginal "docs/report.txt"
          (set_viewMode ViewRename
             (set_currentPath "docs"
                (set_objects
                   [mkS3Object "docs/report.txt" 12 "2024-05-01 10:00:00" false;
                    mkS3Object "docs/summary.txt" 9 "2024-05-01 11:00:00" false]
                   (set_loading false (NewModel "bucket"))))))).

(** A bucket of three objects and one prefix that refuses to delete
    [old.txt]. *)
Definition memBucket : MemRemote :=
  mkMemRemote (<["old.txt" := "body"]> (<["b.txt" := "bb"]> (<["a.txt" := "a"]> ∅)))
              ["zoo/"; "docs/"] [] ["old.txt"].

Definition memWorld : World MemRemote := mkWorld memBucket [].

(** A directory is listed and its statistics arrive, the size in time and
    the date after its deadline. *)
Definition statsRun : list Msg :=
  [objectsLoadedMsg [mkS3Object "docs" 0 "" true] None;
   dirStatsResult "docs" (Value 2048) Deadline].

Definition afterStats : Model :=
  Eval vm_compute in
    match runMsgs plainDir plainJoin plainRuneCount (NewModel "bucket") statsRun with
    | Some m => m
    | None => NewModel "bucket"
    end.

(** What [os.ReadDir] gives for a directory with a hidden entry. *)
Definition someEntries : list DirEntry :=
  [mkDirEntry "zeta.txt" false (Some 3); mkDirEntry ".git" true (Some 0);
   mkDirEntry "src" true (Some 0); mkDirEntry "alpha.txt" false (Some 5);
   mkDirEntry "broken" false None].

(* ===================================================================== *)
(** * The views and the remaining commands                                *)
(* ===================================================================== *)

(** ** What [viewBrowser] lists *)

(** One line of the list: the position and the entry, the name shown,
    whether the cursor is on it, and whether the yank indicator is drawn.
    The size and the date of the line and its styles are left out. *)
Record Row : Type := mkRow {
  rowIndex : Z;
  rowObject : S3Object;
  rowName : string;
  rowSelected : bool;
  rowYanked : bool
}.

(** The width of the name column: the width of the terminal less the
    other columns and a margin, at least fifteen and at most sixty. *)
Definition maxNameWidth (m : Model) : Z :=
  let maxSizeWidth := 8 in
  let dateWidth := 19 in
  let usedWidth := 2 + 2 + 6 + maxSizeWidth + dateWidth in
  let availableWidth := width m -! usedWidth -! 10 in
  let maxNameWidth := availableWidth in
  let maxNameWidth := if maxNameWidth <? 15 then 15 else maxNameWidth in
  if maxNameWidth >? 60 then 60 else maxNameWidth.

(** The name a line shows: the base name of the key, a separator behind a
    directory, cut to the width of the column; [None] is a panic. *)
Definition displayName (maxNameWidth : Z) (obj : S3Object) : option string :=
  let name := GoStrings.Base (Key obj) in
  let name := if IsDir obj then name +:+ "/" else name in
  if GoInt.slen name >? maxNameWidth
  then cut ← sliceTo name (maxNameWidth -! 3); Some (cut +:+ "...")
  else Some name.

(** The visible range, [startIdx] and [endIdx], computed once
    [updateScroll] has run. *)
Definition visibleRange (m : Model) : Z * Z :=
  let m := updateScroll m in
  let availableHeight := availableHeight m in
  let startIdx := scrollOffset m in
  let endIdx := startIdx +! availableHeight in
  let endIdx :=
    if endIdx >? GoInt.len (objects m) then GoInt.len (objects m) else endIdx in
  (startIdx, endIdx).

(** The loop [for i := startIdx; i < endIdx; i++] over [m.objects[i]],
    entered with [i] and [n] rounds to go; [None] is a panic. *)
Fixpoint rowsLoop (m : Model) (i : Z) (n : nat) : option (list Row) :=
  match n with
  | O => Some []
  | S n' =>
      obj ← index (objects m) i;
      displayName ← displayName (maxNameWidth m) obj;
      let yanked :=
        negb (IsDir obj) && existsb (String.eqb (Key obj)) (yankedFiles m) in
      rest ← rowsLoop m (i +! 1) n';
      Some (mkRow i obj displayName (i =? cursor m) yanked :: rest)
  end.

(** The lines of the list in [viewBrowser]: none while loading and none
    for an empty listing. *)
Definition visibleRows (m : Model) : option (list Row) :=
  if loading m then Some []
  else if GoInt.len (objects m) =? 0 then Some []
  else
    let '(startIdx, endIdx) := visibleRange m in
    rowsLoop (updateScroll m) startIdx (Z.to_nat (endIdx - startIdx)).

(** ** What [viewPreview] shows *)

(** [xs[lo:hi]] of a slice whose capacity is its length; [None] is a
    panic. *)
Definition sliceList {A} (xs : list A) (lo hi : Z) : option (list A) :=
  if (0 <=? lo) && (lo <=? hi) && (hi <=? GoInt.len xs)
  then Some (take (Z.to_nat (hi - lo)) (drop (Z.to_nat lo) xs))
  else None.

(** The lines a page of the preview holds. *)
Definition visibleHeight (m : Model) : Z :=
  let h := height m -! 8 in
  if h <? 1 then 10 else h.

(** The visible lines of [viewPreview], computed when no error is set. *)
Definition visibleLines (m : Model) : option (list string) :=
  let visibleHeight := visibleHeight m in
  let totalLines := GoInt.len (previewLines m) in
  if totalLines =? 0 then Some ["[Empty file]"]
  else
    let start := previewScroll m in
    let end_ := start +! visibleHeight in
    let end_ := if end_ >? totalLines then totalLines else end_ in
    if start <? totalLines then sliceList (previewLines m) start end_
    else Some [].

(** ** What [viewRename] and [viewConfirm] show *)

Definition blockCursor : string := "█".

Section Rendering.

(** The style of the character under the cursor, as [lipgloss] renders
    it. *)
Variable highlight : string -> string.

(** [renderInputWithCursor]; [None] is a panic. *)
Definition renderInputWithCursor (m : Model) : option string :=
  if GoInt.slen (renameInput m) =? 0 then
    (* Empty input, show cursor at beginning *)
    Some blockCursor
  else
    (* Insert cursor character at cursor position *)
    before ← sliceTo (renameInput m) (renameCursor m);
    after ← sliceFrom (renameInput m) (renameCursor m);
    (* If cursor is at the end, append cursor *)
    if renameCursor m >=? GoInt.slen (renameInput m)
    then Some (renameInput m +:+ blockCursor)
    else if renameCursor m <? GoInt.slen (renameInput m) then
      charUnderCursor ← byteAt (renameInput m) (renameCursor m);
      rest ← sliceFrom after 1;
      Some (before +:+ highlight (String charUnderCursor "") +:+ rest)
    else Some (before +:+ blockCursor +:+ after).

End Rendering.

(** The title of the confirmation dialog and the question it asks. *)
Definition confirmPrompt (m : Model) : string * string :=
  let filename := GoStrings.Base (confirmTarget m) in
  if String.eqb (confirmAction m) "delete" then
    ("Confirm Delete",
     "Are you sure you want to delete '" +:+ filename +:+ "'?"
     +:+ String GoStrings.newline (String GoStrings.newline
           "This action cannot be undone."))
  else if String.eqb (confirmAction m) "download" then
    ("Confirm Download",
     "Download '" +:+ filename +:+ "' to current directory?")
  else if String.eqb (confirmAction m) "upload" then
    ("Confirm Upload",
     if negb (String.eqb (currentPath m) "")
     then "Upload '" +:+ filename +:+ "' to S3 path '/" +:+ currentPath m +:+ "'?"
     else "Upload '" +:+ filename +:+ "' to S3 root?")
  else ("Confirm Action", "Are you sure?").

(** ** [deleteFile], run *)

Section MoreCommands.

Context {Remote : Type} (svc : Service Remote).

(** [deleteFile]. *)
Definition runDeleteFile (m : Model) (key : string) : M Remote Msg :=
  bind (DeleteObject svc (bucket m) key) (fun e =>
  match e with
  | Some e => ret (fileDeletedMsg "" (Some e))
  | None =>
      (* Get just the filename for display *)
      let filename := GoStrings.Base key in
      ret (fileDeletedMsg filename None)
  end).

End MoreCommands.

(* ===================================================================== *)
(** * Further vocabulary                                                  *)
(* ===================================================================== *)

(** None of the bytes of a string is the separator. *)
Definition sepFree (sep : ascii) (s : string) : Prop :=
  Forall (fun c => c <> sep) (list_ascii_of_string s).

(** The commands a command stands for: a batch stands for its members,
    [nil] for none. *)
Fixpoint requests (cmd : Cmd) : list Cmd :=
  match cmd with
  | CmdNone => []
  | Batch cmds =>
      (fix all (l : list Cmd) : list Cmd :=
         match l with
         | [] => []
         | c :: l' => requests c ++ all l'
         end) cmds
  | _ => [cmd]
  end.

(** The commands that remove an object, or overwrite a local file or an
    object. *)
Definition needsConfirmation (cmd : Cmd) : bool :=
  match cmd with
  | deleteFile _ _ | downloadFile _ _ | uploadFile _ _ => true
  | _ => false
  end.

(** The cursor of the rename dialog is within its text. *)
Definition renameCursorInRange (m : Model) : Prop :=
  0 <= renameCursor m <= GoInt.slen (renameInput m).

(** The cursor of the upload picker is on one of its entries, or at zero
    when there is none. *)
Definition pickerCursorInRange (m : Model) : Prop :=
  (localItems m = [] /\ cursor m = 0) \/
  (0 <= cursor m < GoInt.len (localItems m)).

(** The preview is scrolled to a line between the first and the last it
    can scroll to. *)
Definition previewScrollInRange (m : Model) : Prop :=
  0 <= previewScroll m <= maxScroll m.

(** The confirmation dialog has something to confirm: a deletion, a
    download, or an upload with its path. *)
Definition confirmPending (m : Model) : Prop :=
  confirmAction m = "delete" \/ confirmAction m = "download" \/
  (confirmAction m = "upload" /\ exists fullPath, confirmData m = Some fullPath).

(** The sizes of the files of a listing, added up in [Z]. *)
Definition fileSizes (objs : list S3Object) : Z :=
  fold_right (fun obj acc => if IsDir obj then acc else Size obj + acc) 0 objs.

(** The entry of the upload picker that leads to the directory above. *)
Definition parentEntry : LocalItem.t := LocalItem.mk ".." true 0.

(** The cursor of the earlier variant is within its listing. *)
Definition legacyCursorInRange (m : Legacy.Model) : Prop :=
  (Legacy.objects m = [] /\ Legacy.cursor m = 0) \/
  (0 <= Legacy.cursor m < GoInt.len (Legacy.objects m)).

(** ** Further runs of the machine *)

(** The cursor on the file of [dirModel]. *)
Definition fileModel : Model := set_cursor 1 dirModel.

(** One file listed at the root, and two keys of the root yanked. *)
Definition yankModel : Model :=
  set_yankedFiles ["a.txt"; "b.txt"]
    (set_objects [fileA] (set_loading false (NewModel "bucket"))).

Definition runFrom (start : Model) (msgs : list Msg) : Model :=
  match runMsgs plainDir plainJoin plainRuneCount start msgs with
  | Some m => m
  | None => start
  end.

(** A file is listed and [x] is pressed on it. *)
Definition confirmRun : list Msg := [objectsLoadedMsg [fileA] None; KeyMsg "x"].

Definition inConfirm : Model :=
  Eval vm_compute in runFrom (NewModel "bucket") confirmRun.

(** A file is listed, [r] is pressed on it, and the cursor of the dialog
    is moved to the left twice. *)
Definition renameRun : list Msg :=
  [objectsLoadedMsg [fileA] None; KeyMsg "r"; KeyMsg "left"; KeyMsg "left"].

Definition inRename : Model :=
  Eval vm_compute in runFrom (NewModel "bucket") renameRun.

(** The upload picker is opened on a directory of three entries. *)
Definition pickerOpenRun : list Msg :=
  [objectsLoadedMsg [fileA] None; KeyMsg "u";
   localFilesLoadedMsg localEntries "." None].

Definition inPicker : Model :=
  Eval vm_compute in runFrom (NewModel "bucket") pickerOpenRun.

(** A text of ten lines is previewed on a terminal of twelve rows and
    scrolled down by one line. *)
Definition tenLines : string :=
  Eval vm_compute in
    GoStrings.Join ["one"; "two"; "three"; "four"; "five"; "six"; "seven";
                    "eight"; "nine"; "ten"] (String GoStrings.newline "").

Definition previewRun : list Msg :=
  [WindowSizeMsg 80 12; previewLoadedMsg tenLines "a.txt" None; KeyMsg "down"].

Definition inPreview : Model :=
  Eval vm_compute in runFrom (NewModel "bucket") previewRun.

(** A listing with a directory and three files. *)
Definition someObjects : list S3Object :=
  [mkS3Object "docs" 0 "" true;
   mkS3Object "a.txt" 12 "2024-05-01 10:00:00" false;
   mkS3Object "b.txt" 30 "2024-06-11 08:30:00" false;
   mkS3Object "c.txt" 0 "2023-01-01 00:00:00" false].

(** The earlier variant with a directory and a file listed, the cursor on
    the file. *)
Definition legacyModel : Legacy.Model :=
  Legacy.mkModel "bucket" "" [mkS3Object "docs" 0 "" true; fileA] 1
                 Legacy.ViewBrowser "" "" [] 0 0 [] "" None "" false 80 24.

(* ===================================================================== *)
(** * The configuration (config.go)                                       *)
(* ===================================================================== *)

Module Config.
Import S3.

(** [S3Config]. *)
Record S3Config : Type := mkS3Config {
  AccessKey : string;
  SecretKey : string;
  HostBase : string;
  HostBucket : string;
  UseHTTPS : bool;
  SignatureV2 : bool;
  Region : string
}.

(** [GetEndpointURL]. *)
Definition GetEndpointURL (c : S3Config) : string :=
  let protocol := if negb (UseHTTPS c) then "http" else "https" in
  protocol +:+ "://" +:+ HostBase c.

(** One section of an ini file as the library [ini] holds it: the values
    under their keys. *)
Definition IniSection : Type := gmap string string.

(** [section.Key(k).SetValue(v)]. *)
Definition SetValue (k v : string) (section : IniSection) : IniSection :=
  <[k := v]> section.

(** [section.Key(k).String()]: the value, empty for a key that is not
    there. *)
Definition KeyString (section : IniSection) (k : string) : string :=
  default "" (section !! k).

(** [section.Key(k).MustString(d)]: [d] for an empty value. *)
Definition MustString (section : IniSection) (k d : string) : string :=
  let v := KeyString section k in
  if String.eqb v "" then d else v.

(** The truth values the library reads. *)
Definition parseBool (str : string) : option bool :=
  if existsb (String.eqb str)
       ["1"; "t"; "T"; "true"; "TRUE"; "True"; "YES"; "yes"; "Yes"; "y";
        "ON"; "on"; "On"]
  then Some true
  else if existsb (String.eqb str)
            ["0"; "f"; "F"; "false"; "FALSE"; "False"; "NO"; "no"; "No"; "n";
             "OFF"; "off"; "Off"]
  then Some false
  else None.

(** [section.Key(k).MustBool(d)]: [d] for a value that is no truth
    value. *)
Definition MustBool (section : IniSection) (k : string) (d : bool) : bool :=
  match parseBool (KeyString section k) with
  | Some b => b
  | None => d
  end.

(** The section [default] that [saveS3Config] writes. *)
Definition savedSection (config : S3Config) : IniSection :=
  let section : IniSection := ∅ in
  let section := SetValue "access_key" (AccessKey config) section in
  let section := SetValue "secret_key" (SecretKey config) section in
  let section := SetValue "host_base" (HostBase config) section in
  let section := SetValue "host_bucket" (HostBucket config) section in
  let section :=
    if UseHTTPS config then SetValue "use_https" "True" section
    else SetValue "use_https" "False" section in
  let section :=
    if SignatureV2 config then SetValue "signature_v2" "True" section
    else SetValue "signature_v2" "False" section in
  SetValue "bucket_location" (Region config) section.

(** The configuration [LoadS3Config] reads from the section [default]. *)
Definition configOf (section : IniSection) : S3Config :=
  {| AccessKey := KeyString section "access_key";
     SecretKey := KeyString section "secret_key";
     HostBase := MustString section "host_base" "s3.amazonaws.com";
     HostBucket := MustString section "host_bucket" "%(bucket)s.s3.amazonaws.com";
     UseHTTPS := MustBool section "use_https" true;
     SignatureV2 := MustBool section "signature_v2" false;
     Region := MustString section "bucket_location" "us-east-1" |}.

Section Files.

(** The environment: [os.Getenv("HOME")], [os.UserHomeDir()],
    [filepath.Join], whether [os.Stat] finds a path, the section
    [default] of the file [ini.Load] reads, and [cfg.SaveTo] on a file
    system [FS]. [strings.TrimSpace] and [strings.ToLower] are taken as
    they are. *)
Variable HOME : string.
Variable os_UserHomeDir : error + string.
Variable filepath_Join : string -> string -> string.
Variable os_Stat : string -> bool.
Variable ini_Load : string -> error + IniSection.
Variable FS : Type.
Variable ini_SaveTo : IniSection -> string -> FS -> FS * option error.
Variable strings_TrimSpace : string -> string.
Variable strings_ToLower : string -> string.

(** The common locations of the file, in the order they are tried. *)
Definition configPaths : list string :=
  [".s3cfg"; filepath_Join HOME ".s3cfg"; "/etc/s3cfg"].

(** The first of the paths that is there, empty if none is. *)
Fixpoint firstFound (paths : list string) : string :=
  match paths with
  | [] => ""
  | path :: rest => if os_Stat path then path else firstFound rest
  end.

(** [LoadS3Config]. *)
Definition LoadS3Config : error + S3Config :=
  let configPath := firstFound configPaths in
  if String.eqb configPath "" then
    inl (ErrText ".s3cfg file not found in any of the standard locations")
  else
    match ini_Load configPath with
    | inl err => inl (ErrWrap "failed to load .s3cfg" err)
    | inr section =>
        let config := configOf section in
        if String.eqb (AccessKey config) "" || String.eqb (SecretKey config) ""
        then inl (ErrText "access_key and secret_key must be specified in .s3cfg")
        else inr config
    end.

(** [saveS3Config]. *)
Definition saveS3Config (config : S3Config) (path : string) (fs : FS)
  : FS * option error :=
  ini_SaveTo (savedSection config) path fs.

(** [scanner.Scan()] and [scanner.Text()] on the lines of the standard
    input that are left: the next line and the rest, or the failure. *)
Definition scanLine (failure : string) (stdin : list string)
  : error + (string * list string) :=
  match stdin with
  | [] => inl (ErrText failure)
  | line :: rest => inr (line, rest)
  end.

Local Notation "'scan' ( line , rest ) <- stdin 'or' failure ; k" :=
  (match scanLine failure stdin with
   | inl e => inl e
   | inr (line, rest) => k
   end)
  (at level 10, line name, rest name, stdin at level 9, failure at level 9,
   k at level 200).

(** The questions of [InteractiveS3Setup], answered from the standard
    input: the configuration and the path to save it to. What the
    function prints is left out. *)
Definition askConfiguration (stdin : list string) : error + (S3Config * string) :=
  scan (line, stdin) <- stdin or "failed to read input";
  let response := strings_ToLower (strings_TrimSpace line) in
  if negb (String.eqb response "y") && negb (String.eqb response "yes")
  then inl (ErrText "setup declined by user")
  else
  (* Get Access Key *)
  scan (line, stdin) <- stdin or "failed to read access key";
  let accessKey := strings_TrimSpace line in
  if String.eqb accessKey "" then inl (ErrText "access key cannot be empty")
  else
  (* Get Secret Key *)
  scan (line, stdin) <- stdin or "failed to read secret key";
  let secretKey := strings_TrimSpace line in
  if String.eqb secretKey "" then inl (ErrText "secret key cannot be empty")
  else
  (* Get Host Base *)
  scan (line, stdin) <- stdin or "failed to read endpoint";
  let hostBase := strings_TrimSpace line in
  let hostBase :=
    if String.eqb hostBase "" then "s3.amazonaws.com" else hostBase in
  (* Set host bucket based on endpoint *)
  let hostBucket :=
    if String.eqb hostBase "s3.amazonaws.com"
    then "%(bucket)s.s3.amazonaws.com"
    else hostBase +:+ "/%(bucket)s" in
  (* Get Region *)
  scan (line, stdin) <- stdin or "failed to read region";
  let region := strings_TrimSpace line in
  let region := if String.eqb region "" then "us-east-1" else region in
  (* Determine HTTPS usage *)
  let useHTTPS :=
    negb (GoStrings.Contains hostBase "localhost") &&
    negb (GoStrings.Contains hostBase "127.0.0.1") in
  let config := mkS3Config accessKey secretKey hostBase hostBucket useHTTPS
                           false region in
  (* Ask where to save *)
  scan (line, stdin) <- stdin or "failed to read save location";
  let choice := strings_TrimSpace line in
  if String.eqb choice "1" then inr (config, ".s3cfg")
  else if String.eqb choice "" || String.eqb choice "2" then
    match os_UserHomeDir with
    | inl err => inl (ErrWrap "failed to get home directory" err)
    | inr homeDir => inr (config, filepath_Join homeDir ".s3cfg")
    end
  else inl (ErrText "invalid choice").

(** [InteractiveS3Setup]. *)
Definition InteractiveS3Setup (stdin : list string) (fs : FS)
  : (error + S3Config) * FS :=
  match askConfiguration stdin with
  | inl e => (inl e, fs)
  | inr (config, configPath) =>
      (* Save configuration *)
      match saveS3Config config configPath fs with
      | (fs', Some err) => (inl (ErrWrap "failed to save configuration" err), fs')
      | (fs', None) => (inr config, fs')
      end
  end.

End Files.

End Config.

(** A configuration is complete: the five strings the client needs are
    not empty. *)
Definition complete (config : Config.S3Config) : Prop :=
  Config.AccessKey config <> "" /\ Config.SecretKey config <> "" /\
  Config.HostBase config <> "" /\ Config.HostBucket config <> "" /\
  Config.Region config <> "".

(** ** A file system to run the configuration on *)

(** Files as the sections they hold; answers without blanks around them
    and in lower case. *)
Definition MemFS : Type := gmap string Config.IniSection.

Definition memSaveTo (section : Config.IniSection) (path : string) (fs : MemFS)
  : MemFS * option S3.error :=
  (<[path := section]> fs, None).

Definition memStat (fs : MemFS) (path : string) : bool :=
  match fs !! path with
  | Some _ => true
  | None => false
  end.

Definition memLoad (fs : MemFS) (path : string) : S3.error + Config.IniSection :=
  match fs !! path with
  | Some section => inr section
  | None => inl (S3.ErrText "open: no such file or directory")
  end.

Definition plainTrimSpace (s : string) : string := s.
Definition plainToLower (s : string) : string := s.

(** The answers for a local MinIO, saved to the current directory. *)
Definition setupAnswers : list string :=
  ["y"; "minioadmin"; "minioadmin123"; "localhost:9000"; ""; "1"].

Definition minioConfig : Config.S3Config :=
  Config.mkS3Config "minioadmin" "minioadmin123" "localhost:9000"
                    "localhost:9000/%(bucket)s" false false "us-east-1".

Definition afterSetup : MemFS :=
  <[".s3cfg" := Config.savedSection minioConfig]> ∅.

(* ===================================================================== *)
(** * Properties                                                          *)
(* ===================================================================== *)


Section IntFacts.
Import GoInt.

Lemma wrap_small z : - 9223372036854775808 <= z <= 9223372036854775807 -> wrap z = z.
Proof.
  intros H. unfold wrap.
  change (2 ^ 63) with 9223372036854775808.
  change (2 ^ 64) with 18446744073709551616.
  rewrite Z.mod_small; lia.
Qed.

Lemma wrap_bounds z : - 9223372036854775808 <= wrap z <= 9223372036854775807.
Proof.
  unfold wrap.
  change (2 ^ 63) with 9223372036854775808.
  change (2 ^ 64) with 18446744073709551616.
  pose proof (Z.mod_pos_bound (z + 9223372036854775808) 18446744073709551616).
  lia.
Qed.

Lemma len_nonneg {A} (l : list A) : 0 <= len l.
Proof. unfold len. lia. Qed.

End IntFacts.

Arguments GoInt.wrap : simpl never.

Ltac wrap_facts :=
  repeat match goal with
  | |- context [GoInt.wrap ?z] =>
      lazymatch goal with
      | _ : _ -> GoInt.wrap z = z |- _ => fail
      | _ => pose proof (wrap_small z); pose proof (wrap_bounds z)
      end
  | _ : context [GoInt.wrap ?z] |- _ =>
      lazymatch goal with
      | _ : _ -> GoInt.wrap z = z |- _ => fail
      | _ => pose proof (wrap_small z); pose proof (wrap_bounds z)
      end
  end.

Ltac bool_to_prop :=
  repeat match goal with
  | H : (_ <? _) = true |- _ => apply Z.ltb_lt in H
  | H : (_ <? _) = false |- _ => apply Z.ltb_ge in H
  | H : (_ <=? _) = true |- _ => apply Z.leb_le in H
  | H : (_ <=? _) = false |- _ => apply Z.leb_gt in H
  | H : (_ >? _) = true |- _ => rewrite Z.gtb_ltb in H
  | H : (_ >? _) = false |- _ => rewrite Z.gtb_ltb in H
  | H : (_ >=? _) = true |- _ => rewrite Z.geb_leb in H
  | H : (_ >=? _) = false |- _ => rewrite Z.geb_leb in H
  | H : (_ =? _) = true |- _ => apply Z.eqb_eq in H
  | H : (_ =? _) = false |- _ => apply Z.eqb_neq in H
  end.

(** Case on a test whose condition holds no other test. *)
Ltac split_if :=
  match goal with
  | |- context [if ?b then _ else _] =>
      lazymatch b with
      | context [if _ then _ else _] => fail
      | _ => destruct b eqn:?
      end
  end.

Ltac int_unfold :=
  unfold GoInt.add, GoInt.sub, GoInt.quot, GoInt.max_int, GoInt.min_int,
         GoInt.in_range in *;
  change (2 ^ 63) with 9223372036854775808 in *.

(** Reduce the tests of a switch on a key that is known. *)
Ltac switch_on_key :=
  repeat match goal with
  | |- context [keyIs ?k ?l] =>
      let b := eval vm_compute in (keyIs k l) in
      change (keyIs k l) with b
  end;
  cbv iota.

Section Scroll.

Lemma availableHeight_bounds m : 5 <= availableHeight m <= 9223372036854775807.
Proof.
  unfold availableHeight. int_unfold.
  pose proof (wrap_bounds (height m - 8)).
  destruct (_ <? 5) eqn:E; bool_to_prop; lia.
Qed.

Lemma availableHeight_set_scrollOffset v m :
  availableHeight (set_scrollOffset v m) = availableHeight m.
Proof. reflexivity. Qed.
Lemma availableHeight_set_cursor v m :
  availableHeight (set_cursor v m) = availableHeight m.
Proof. reflexivity. Qed.

Lemma pageSize_bounds m : 1 <= pageSize m <= availableHeight m.
Proof.
  unfold pageSize. pose proof (availableHeight_bounds m) as Hb. int_unfold.
  assert (0 <= availableHeight m ÷ 2 <= availableHeight m).
  { rewrite Z.quot_div_nonneg by lia.
    split; [apply Z.div_pos; lia|].
    apply Z.div_le_upper_bound; lia. }
  rewrite wrap_small by lia.
  destruct (_ <? 1) eqn:E; bool_to_prop; lia.
Qed.

(** [updateScroll] changes the scroll offset only. *)
Lemma updateScroll_frame m :
  updateScroll m = set_scrollOffset (scrollOffset (updateScroll m)) m.
Proof.
  unfold updateScroll. cbv zeta.
  repeat (split_if; cbn [scrollOffset set_scrollOffset]);
  destruct m; reflexivity.
Qed.

Lemma updateScroll_cursor m : cursor (updateScroll m) = cursor m.
Proof. rewrite updateScroll_frame. reflexivity. Qed.

Lemma updateScroll_objects m : objects (updateScroll m) = objects m.
Proof. rewrite updateScroll_frame. reflexivity. Qed.

Lemma updateScroll_availableHeight m :
  availableHeight (updateScroll m) = availableHeight m.
Proof. rewrite updateScroll_frame. reflexivity. Qed.

Lemma updateScroll_window m :
  0 <= cursor m < GoInt.len (objects m) ->
  0 <= scrollOffset m ->
  noOverflow m ->
  0 <= scrollOffset (updateScroll m) <= GoInt.len (objects m) /\
  scrollOffset (updateScroll m) <= cursor m
    < scrollOffset (updateScroll m) + availableHeight m.
Proof.
  intros Hc Hs [Ho1 Ho2].
  pose proof (availableHeight_bounds m) as Hb.
  unfold updateScroll.
  int_unfold.
  destruct (_ =? 0) eqn:E0; bool_to_prop; [lia|].
  cbv zeta.
  repeat (split_if; cbn [scrollOffset set_scrollOffset cursor objects] in *);
  bool_to_prop; wrap_facts; lia.
Qed.

Lemma keyIs_In key cases : keyIs key cases = true <-> In key cases.
Proof.
  unfold keyIs. rewrite existsb_exists. split.
  - intros (x & Hx & E). apply String.eqb_eq in E. now subst.
  - intros H. exists key. split; [assumption | apply String.eqb_refl].
Qed.

(** [updateScroll] never leaves a negative offset, whatever it starts
    from. *)
Lemma updateScroll_nonneg m : 0 <= scrollOffset (updateScroll m).
Proof.
  pose proof (availableHeight_bounds m) as Hb.
  pose proof (len_nonneg (objects m)) as Hn.
  unfold updateScroll.
  destruct (_ =? 0) eqn:E0; [cbn; lia|].
  cbv zeta.
  repeat (split_if; cbn [scrollOffset set_scrollOffset cursor objects] in * );
  bool_to_prop; lia.
Qed.

(** The rows of the window: the height less eight, at least five. *)
Lemma availableHeight_floor m :
  GoInt.min_int + 8 <= height m <= GoInt.max_int ->
  availableHeight m = Z.max 5 (height m - 8).
Proof.
  intros H. unfold availableHeight. int_unfold.
  rewrite wrap_small by lia.
  destruct (_ <? 5) eqn:E; bool_to_prop; lia.
Qed.

(** The state a cursor move ends in once [updateScroll] has run. *)
Lemma moved_window m c :
  0 <= c < GoInt.len (objects m) ->
  0 <= scrollOffset m ->
  noOverflow m ->
  let m' := updateScroll (set_cursor c m) in
  0 <= scrollOffset m' /\ windowHoldsCursor m' /\ cursor m' = c /\
  objects m' = objects m.
Proof.
  intros Hc Hs Ho m'.
  destruct (updateScroll_window (set_cursor c m)) as [H1 H2]; try assumption.
  subst m'. unfold windowHoldsCursor.
  rewrite updateScroll_cursor, updateScroll_objects, updateScroll_availableHeight.
  cbn [cursor objects set_cursor] in *.
  rewrite availableHeight_set_cursor in *. repeat split; lia.
Qed.

(** A cursor move in the browser, from a model whose cursor is within the
    listing and whose sizes stay within [int]: the scroll offset is not
    negative afterwards, and the window holds the cursor when the listing
    has at least [availableHeight] entries. Up and down at an end of the
    listing move nothing and leave the model as it is, so there the window
    is the one it was. *)
Lemma cursor_move_window (m : Model) (key : string) :
  In key cursorMoveKeys ->
  cursorInRange m ->
  0 <= scrollOffset m ->
  noOverflow m ->
  exists m',
    updateBrowser m key = Next m' CmdNone /\
    0 <= scrollOffset m' /\
    (In key jumpKeys \/ cursor m' <> cursor m \/ windowHoldsCursor m ->
     GoInt.len (objects m') >= availableHeight m' ->
     windowHoldsCursor m').
Proof.
  intros Hk Hc Hs Ho.
  pose proof (availableHeight_bounds m) as Hb.
  pose proof (pageSize_bounds m) as Hp.
  pose proof (len_nonneg (objects m)) as Hn.
  assert (Hr : cursor m = 0 /\ GoInt.len (objects m) = 0 \/
               0 <= cursor m < GoInt.len (objects m)).
  { destruct Hc as [[E ->] | Hc]; [left; rewrite E; split; reflexivity | now right]. }
  clear Hc.
  set (Post := fun o : Outcome =>
    exists m', o = Next m' CmdNone /\ 0 <= scrollOffset m' /\
      (In key jumpKeys \/ cursor m' <> cursor m \/ windowHoldsCursor m ->
       GoInt.len (objects m') >= availableHeight m' -> windowHoldsCursor m')).
  assert (Hmove : forall c, 0 <= c < GoInt.len (objects m) ->
                  Post (Next (updateScroll (set_cursor c m)) CmdNone)).
  { intros c Hc. destruct (moved_window m c Hc Hs Ho) as (H1 & H2 & _).
    eexists. split; [reflexivity|]. split; [exact H1|]. intros _ _. exact H2. }
  assert (Hstay : ~ In key jumpKeys -> Post (Next m CmdNone)).
  { intros Hnj. exists m. split; [reflexivity|]. split; [assumption|].
    intros [Hj|[Hne|Hw]] _; [contradiction | congruence | exact Hw]. }
  assert (Hempty : GoInt.len (objects m) = 0 -> Post (Next m CmdNone)).
  { intros E. exists m. split; [reflexivity|]. split; [assumption|].
    intros _ Hge. lia. }
  destruct Ho as [Ho1 Ho2].
  unfold GoInt.max_int in Ho1, Ho2.
  change (2 ^ 63) with 9223372036854775808 in Ho1, Ho2.
  change (Post (updateBrowser m key)).
  unfold cursorMoveKeys in Hk. cbn [In] in Hk.
  assert (Hnj : key = "up" \/ key = "k" \/ key = "down" \/ key = "j" ->
                ~ In key jumpKeys).
  { intros [-> | [-> | [-> | ->]]]; cbn; intros H;
      repeat (destruct H as [H|H]; try discriminate H); contradiction. }
  repeat (destruct Hk as [<-|Hk]); try contradiction;
    try (assert (Hnj' := Hnj ltac:(tauto)); specialize (Hstay Hnj'));
    clear Hnj; clearbody Post;
    unfold updateBrowser; switch_on_key; int_unfold;
    repeat (split_if; cbn [cursor set_cursor objects] in * ); bool_to_prop;
    wrap_facts;
    first [ apply Hmove; lia | exact Hstay | apply Hempty; lia ].
Qed.

End Scroll.

Lemma index_Some_len {A} (l : list A) i x :
  index l i = Some x -> 0 <= i < GoInt.len l.
Proof.
  unfold index, GoInt.len. destruct (0 <=? i) eqn:E; [|discriminate].
  intros H. apply lookup_lt_Some in H. apply Z.leb_le in E. lia.
Qed.

Section BrowserKeys.

Variable filepath_Dir : string -> string.
Variable filepath_Join : string -> string -> string.
Variable utf8_RuneCountInString : string -> Z.

Local Abbreviation Update := (Update filepath_Dir filepath_Join utf8_RuneCountInString).

(** C10. In the browser, with a directory under the cursor, the keys for
    delete, download and rename leave the model as it is and dispatch no
    command. *)
Theorem directory_ignores_delete_download_rename
  (m : Model) (key : string) (selected : S3Object) :
  viewMode m = ViewBrowser ->
  In key ["x"; "d"; "r"] ->
  index (objects m) (cursor m) = Some selected ->
  IsDir selected = true ->
  Update m (KeyMsg key) = Next m CmdNone.
Proof.
  intros Hv Hk Hi Hd. cbn [Tui.Update]. rewrite Hv.
  pose proof (index_Some_len _ _ _ Hi) as Hl.
  assert (Hlen : (GoInt.len (objects m) >? 0) = true)
    by (rewrite Z.gtb_ltb; apply Z.ltb_lt; lia).
  cbn [In] in Hk.
  repeat (destruct Hk as [<- | Hk]); try contradiction;
    unfold updateBrowser; switch_on_key; rewrite Hlen, Hi, Hd; reflexivity.
Qed.

(** C7. Confirming the rename dialog dispatches the rename command exactly
    when the name typed is not empty and differs from the base name of the
    key being renamed; otherwise, so with the name unchanged, no command
    is dispatched. Either way the dialog closes to the browser with its
    buffers emptied. The command, run, answers with an error and sends no
    request when the key it would rename to is in the listing it
    captured. *)
Theorem rename_confirm_dispatch (m : Model) :
  viewMode m = ViewRename ->
  (renameInput m <> "" /\ renameInput m <> GoStrings.Base (renameOriginal m) ->
   let m1 := set_loading true (set_viewMode ViewBrowser m) in
   Update m (KeyMsg "enter") =
     Next (clearRename m1) (renameFile m1 (renameOriginal m) (renameInput m))) /\
  (renameInput m = "" \/ renameInput m = GoStrings.Base (renameOriginal m) ->
   Update m (KeyMsg "enter") =
     Next (clearRename (set_viewMode ViewBrowser m)) CmdNone) /\
  (forall m' cmd,
     Update m (KeyMsg "enter") = Next m' cmd ->
     viewMode m' = ViewBrowser /\ renameInput m' = "" /\
     renameOriginal m' = "" /\ renameCursor m' = 0) /\
  (forall (Remote : Type) (svc : Service Remote) (w : World Remote)
          (snapshot : Model) (oldKey newFilename : string),
     keyExists (objects snapshot) (renamedKey oldKey newFilename) = true ->
     runRenameFile svc snapshot oldKey newFilename w =
       (fileRenamedMsg "" ""
          (Some (ErrText ("file '" +:+ newFilename +:+ "' already exists"))),
        w)).
Proof.
  intros Hv. cbn [Tui.Update]. rewrite Hv.
  unfold updateRename. switch_on_key.
  split; [|split; [|split]].
  - intros [H1 H2].
    apply String.eqb_neq in H1, H2. rewrite H1, H2. reflexivity.
  - intros [H | H]; apply String.eqb_eq in H; rewrite H; cbn;
      rewrite ?andb_false_r; reflexivity.
  - destruct (_ && _); intros m' cmd [= <- <-]; repeat split.
  - intros Remote svc w snapshot oldKey newFilename H.
    unfold runRenameFile. rewrite H. reflexivity.
Qed.

End BrowserKeys.

(** C9 as stated does not hold: the current variant has no key that
    refreshes. With an empty listing at the root no key of the browser
    dispatches a listing. *)
Lemma no_refresh_key : ~ exists key, refreshes key.
Proof.
  intros [key H].
  destruct (H (set_loading false (NewModel "bucket")) eq_refl) as (m' & E & _).
  revert E. unfold updateBrowser.
  repeat match goal with
         | |- context [keyIs key ?l] => destruct (keyIs key l)
         end;
  cbn; discriminate.
Qed.

(** C9, as the code has it. In the current variant the key [r] dispatches
    no command and leaves the current path and the statistics cache as
    they are; on a file it opens the rename dialog. In the earlier
    variant, which has no statistics cache, [r] sets the loading flag and
    dispatches the listing of the current path. The current variant
    empties the cache when it enters a directory and when it goes back to
    the parent, the two keys that dispatch a listing. *)
Theorem r_key_in_both_variants :
  (forall m m' cmd,
     updateBrowser m "r" = Next m' cmd ->
     cmd = CmdNone /\ currentPath m' = currentPath m /\
     dirStatsCache m' = dirStatsCache m /\
     (forall selected,
        index (objects m) (cursor m) = Some selected ->
        IsDir selected = false ->
        viewMode m' = ViewRename /\
        renameOriginal m' = Key selected /\
        renameInput m' = GoStrings.Base (Key selected))) /\
  (forall m : Legacy.Model,
     Legacy.updateBrowser m "r" =
       Legacy.Next (Legacy.set_loading true m)
                   (Legacy.loadObjects (Legacy.set_loading true m)) /\
     Legacy.currentPath (Legacy.set_loading true m) = Legacy.currentPath m) /\
  (forall m key m' m'',
     updateBrowser m key = Next m' (loadObjects m'') ->
     m'' = m' /\ dirStatsCache m' = ∅ /\ In key ["enter"; "l"; "o"; "backspace"; "h"]).
Proof.
  split; [|split].
  - intros m m' cmd. unfold updateBrowser. switch_on_key.
    destruct (_ >? 0) eqn:El.
    + destruct (index _ _) as [sel|] eqn:Ei; [|discriminate].
      destruct (IsDir sel) eqn:Ed; cbn [negb]; cbv iota zeta;
        intros [= <- <-].
      * do 3 (split; [reflexivity|]). intros s Hs1 Hs2. congruence.
      * do 3 (split; [reflexivity|]). intros s Hs1 _.
        injection Hs1 as <-. repeat split.
    + intros [= <- <-]. do 3 (split; [reflexivity|]).
      intros s Hs _. apply index_Some_len in Hs. bool_to_prop.
      apply Z.ltb_ge in El. lia.
  - intros m. split; reflexivity.
  - intros m key m' m''. unfold updateBrowser.
    repeat match goal with
           | |- context [keyIs key ?l] => destruct (keyIs key l) eqn:?
           end;
    repeat (split_if || match goal with
            | |- context [match ?x with Some _ => _ | None => _ end] => destruct x
            end); cbv zeta; unfold uploadFilePrompt; try discriminate;
    intros [= <- <-]; (split; [reflexivity|]); (split; [reflexivity|]);
    repeat match goal with
           | H : keyIs _ _ = true |- _ => apply keyIs_In in H; cbn [In] in H
           | H : keyIs _ _ = false |- _ => clear H
           end; cbn [In]; tauto.
Qed.

Section Events.

Variable filepath_Dir : string -> string.
Variable filepath_Join : string -> string -> string.
Variable utf8_RuneCountInString : string -> Z.

Local Abbreviation Update := (Update filepath_Dir filepath_Join utf8_RuneCountInString).
Local Abbreviation reachable := (reachable filepath_Dir filepath_Join utf8_RuneCountInString).
Local Abbreviation runMsgs := (runMsgs filepath_Dir filepath_Join utf8_RuneCountInString).

Lemma updateScroll_dirStatsCache m :
  dirStatsCache (updateScroll m) = dirStatsCache m.
Proof. rewrite updateScroll_frame. reflexivity. Qed.

Lemma updateScroll_err m : err (updateScroll m) = err m.
Proof. rewrite updateScroll_frame. reflexivity. Qed.

Lemma updateScroll_statusMessage m :
  statusMessage (updateScroll m) = statusMessage m.
Proof. rewrite updateScroll_frame. reflexivity. Qed.

(** A run of admissible messages leads from a reachable model to a
    reachable model. *)
Lemma reachable_run m msgs m' :
  reachable m -> Forall fromAggregator msgs ->
  runMsgs m msgs = Some m' -> reachable m'.
Proof.
  intros Hr Hf. revert m Hr. induction Hf as [|msg msgs Hm _ IH]; intros m Hr.
  - intros [= <-]. exact Hr.
  - cbn [Tui.runMsgs]. destruct (Update m msg) as [m1 cmd|] eqn:E; [|discriminate].
    apply IH. eapply reach_step; eassumption.
Qed.

(** Take the tests of a transition apart. *)
Ltac split_transition :=
  repeat first
    [ split_if
    | match goal with
      | |- context [match ?x with Some _ => _ | None => _ end] =>
          lazymatch x with
          | context [if _ then _ else _] => fail
          | _ => destruct x eqn:?
          end
      end ].

(** The editor of the rename dialog changes the text and its cursor
    only. *)
Lemma renameEdit_frame m key m' :
  renameEdit m key = Some m' ->
  m' = set_renameCursor (renameCursor m') (set_renameInput (renameInput m') m).
Proof.
  unfold renameEdit. intros H.
  repeat case_match; simplify_option_eq;
    repeat match goal with x : Model |- _ => destruct x end; reflexivity.
Qed.

Lemma clampRenameCursor_frame m :
  clampRenameCursor m =
  set_renameCursor (renameCursor (clampRenameCursor m)) m.
Proof.
  unfold clampRenameCursor. cbv zeta.
  repeat (split_if; cbn [renameCursor set_renameCursor]); destruct m; reflexivity.
Qed.

(** A transition on a key writes no record into the statistics cache: it
    leaves the cache as it is or empties it. *)
Lemma key_keeps_or_empties_cache m key m' cmd :
  Update m (KeyMsg key) = Next m' cmd ->
  dirStatsCache m' = dirStatsCache m \/ dirStatsCache m' = ∅.
Proof.
  cbn [Tui.Update]. destruct (viewMode m).
  - unfold updateBrowser, uploadFilePrompt.
    repeat match goal with
           | |- context [keyIs key ?l] => destruct (keyIs key l)
           end;
    cbv zeta; split_transition; try discriminate; intros [= <- <-];
    rewrite ?updateScroll_dirStatsCache; cbn; auto.
  - unfold updatePreview.
    repeat match goal with
           | |- context [keyIs key ?l] => destruct (keyIs key l)
           end;
    cbv zeta; split_transition; intros [= <- <-]; cbn; auto.
  - unfold updateHelp.
    repeat match goal with
           | |- context [keyIs key ?l] => destruct (keyIs key l)
           end; intros [= <- <-]; cbn; auto.
  - unfold updateUpload.
    repeat match goal with
           | |- context [keyIs key ?l] => destruct (keyIs key l)
           end;
    cbv zeta; split_transition; try discriminate; intros [= <- <-]; cbn; auto.
  - unfold updateRename.
    repeat match goal with
           | |- context [keyIs key ?l] => destruct (keyIs key l)
           end;
    cbv zeta; split_transition; try discriminate; intros [= <- <-]; cbn; auto.
    match goal with H : renameEdit _ _ = Some _ |- _ =>
      apply renameEdit_frame in H; rewrite clampRenameCursor_frame, H end.
    cbn; auto.
  - unfold updateConfirm.
    repeat match goal with
           | |- context [keyIs key ?l] => destruct (keyIs key l)
           end; intros [= <- <-]; cbn; auto.
Qed.

(** A transition on a key that sets a new status message clears the
    error. *)
Lemma key_status_clears_error m key m' cmd :
  Update m (KeyMsg key) = Next m' cmd ->
  statusMessage m' <> statusMessage m -> statusMessage m' <> "" ->
  err m' = None.
Proof.
  cbn [Tui.Update]. destruct (viewMode m).
  - unfold updateBrowser, uploadFilePrompt.
    repeat match goal with
           | |- context [keyIs key ?l] => destruct (keyIs key l)
           end;
    cbv zeta; split_transition; try discriminate; intros [= <- <-];
    rewrite ?updateScroll_statusMessage, ?updateScroll_err; cbn; congruence.
  - unfold updatePreview.
    repeat match goal with
           | |- context [keyIs key ?l] => destruct (keyIs key l)
           end;
    cbv zeta; split_transition; intros [= <- <-]; cbn; congruence.
  - unfold updateHelp.
    repeat match goal with
           | |- context [keyIs key ?l] => destruct (keyIs key l)
           end; intros [= <- <-]; cbn; congruence.
  - unfold updateUpload.
    repeat match goal with
           | |- context [keyIs key ?l] => destruct (keyIs key l)
           end;
    cbv zeta; split_transition; try discriminate; intros [= <- <-]; cbn;
    congruence.
  - unfold updateRename.
    repeat match goal with
           | |- context [keyIs key ?l] => destruct (keyIs key l)
           end;
    cbv zeta; split_transition; try discriminate; intros [= <- <-]; cbn;
    try congruence.
    match goal with H : renameEdit _ _ = Some _ |- _ =>
      apply renameEdit_frame in H; rewrite clampRenameCursor_frame, H end.
    cbn; congruence.
  - unfold updateConfirm.
    repeat match goal with
           | |- context [keyIs key ?l] => destruct (keyIs key l)
           end; intros [= <- <-]; cbn; congruence.
Qed.

(** No transition on a key makes the scroll offset negative. *)
Lemma key_keeps_scroll_nonneg m key m' cmd :
  Update m (KeyMsg key) = Next m' cmd ->
  0 <= scrollOffset m -> 0 <= scrollOffset m'.
Proof.
  cbn [Tui.Update]. destruct (viewMode m).
  - unfold updateBrowser, uploadFilePrompt.
    repeat match goal with
           | |- context [keyIs key ?l] => destruct (keyIs key l)
           end;
    cbv zeta; split_transition; try discriminate; intros [= <- <-];
    intros Hs; try apply updateScroll_nonneg; cbn; auto.
  - unfold updatePreview.
    repeat match goal with
           | |- context [keyIs key ?l] => destruct (keyIs key l)
           end;
    cbv zeta; split_transition; intros [= <- <-]; cbn; auto.
  - unfold updateHelp.
    repeat match goal with
           | |- context [keyIs key ?l] => destruct (keyIs key l)
           end; intros [= <- <-]; cbn; auto.
  - unfold updateUpload.
    repeat match goal with
           | |- context [keyIs key ?l] => destruct (keyIs key l)
           end;
    cbv zeta; split_transition; try discriminate; intros [= <- <-]; cbn; auto.
  - unfold updateRename.
    repeat match goal with
           | |- context [keyIs key ?l] => destruct (keyIs key l)
           end;
    cbv zeta; split_transition; try discriminate; intros [= <- <-]; cbn; auto.
    match goal with H : renameEdit _ _ = Some _ |- _ =>
      apply renameEdit_frame in H; rewrite clampRenameCursor_frame, H end.
    cbn; auto.
  - unfold updateConfirm.
    repeat match goal with
           | |- context [keyIs key ?l] => destruct (keyIs key l)
           end; intros [= <- <-]; cbn; auto.
Qed.

(** The scroll offset of a reachable model is not negative. *)
Lemma reachable_scroll_nonneg m : reachable m -> 0 <= scrollOffset m.
Proof.
  induction 1 as [bucket | m msg m' cmd Hr IH _ E]; [cbn; lia|].
  destruct msg; try (eapply key_keeps_scroll_nonneg; eassumption);
    revert E; cbn [Tui.Update]; cbv zeta; split_transition;
    intros [= <- <-]; cbn; auto; lia.
Qed.



(** C8, as the code has it. The view shows at most one of the error and
    the status message: the error when there is one, the status message
    only when there is no error. Every transition that sets a new status
    message clears the error. Every result message that carries an error
    sets it, and the results of download, upload, delete, copy and rename
    and [statusMsg] clear the status message when they do. *)
Theorem error_and_status_events (m : Model) (msg : Msg) (m' : Model) (cmd : Cmd) :
  Update m msg = Next m' cmd ->
  match banner m' with
  | ShowError e => err m' = Some e
  | ShowStatus text => err m' = None /\ statusMessage m' = text /\ text <> ""
  | ShowNothing => True
  end /\
  (statusMessage m' <> statusMessage m -> statusMessage m' <> "" ->
   err m' = None) /\
  (forall e, errorOf msg = Some e -> err m' = Some e) /\
  (forall e, errorOf msg = Some e -> bringsStatus msg = true ->
             statusMessage m' = "").
Proof.
  intros E. split; [|split; [|split]].
  - unfold banner. destruct (viewMode m'); destruct (err m'); try exact I;
      try reflexivity.
    destruct (String.eqb _ _) eqn:Es; cbn [negb]; [exact I|].
    apply String.eqb_neq in Es. auto.
  - destruct msg; try (eapply key_status_clears_error; eassumption);
      revert E; cbn [Tui.Update]; cbv zeta; split_transition;
      intros [= <- <-]; cbn; congruence.
  - intros e He. destruct msg; try discriminate He; cbn in He; subst;
      revert E; cbn [Tui.Update]; cbv zeta; try (destruct isError; [|discriminate He]);
      try injection He as <-; intros [= <- <-]; reflexivity.
  - intros e He Hb. destruct msg; try discriminate Hb; cbn in He; subst;
      revert E; cbn [Tui.Update]; cbv zeta; try (destruct isError; [|discriminate He]);
      intros [= <- <-]; reflexivity.
Qed.

End Events.

(** C8 as stated does not hold: a result message that sets an error can
    leave the status message in place. A file is deleted, and the listing
    that follows fails. *)
Lemma failed_listing_keeps_status :
  let m := afterDelete in
  let e := ErrText "failed to list objects: timeout" in
  reachable plainDir plainJoin plainRuneCount m /\
  errorOf (objectsLoadedMsg [] (Some e)) = Some e /\
  exists m',
    Update plainDir plainJoin plainRuneCount m (objectsLoadedMsg [] (Some e))
      = Next m' CmdNone /\
    err m' = Some e /\
    statusMessage m' = "✓ Deleted 'a.txt' successfully".
Proof.
  cbv zeta. split; [|split; [reflexivity|]].
  - apply (reachable_run _ _ _ (NewModel "bucket") deleteRun).
    + apply reach_init.
    + unfold deleteRun. repeat constructor.
    + vm_compute. reflexivity.
  - eexists. split; [vm_compute; reflexivity|]. split; reflexivity.
Qed.

(** C3, on the code. Leaving the upload picker with [esc] returns to the
    browser with the cursor where the picker left it: beyond a listing
    that is shorter than the picker's. Up moves it, still beyond the
    listing; down leaves it; enter indexes the listing out of range. *)
Theorem cursor_beyond_listing_after_upload_picker :
  exists m,
    runMsgs plainDir plainJoin plainRuneCount (NewModel "bucket") pickerRun
      = Some m /\
    viewMode m = ViewBrowser /\
    GoInt.len (objects m) = 1 /\
    cursor m = 2 /\
    ~ cursorInRange m /\
    (exists m1, updateBrowser m "up" = Next m1 CmdNone /\ cursor m1 = 1 /\
                ~ cursorInRange m1) /\
    updateBrowser m "down" = Next m CmdNone /\
    updateBrowser m "enter" = Panic.
Proof.
  eexists. split; [vm_compute; reflexivity|].
  split; [reflexivity|]. split; [reflexivity|]. split; [reflexivity|].
  split; [|split; [|split]].
  - intros [[H _] | H]; [discriminate H | vm_compute in H; destruct H as [_ H]; discriminate H].
  - eexists. split; [vm_compute; reflexivity|]. split; [reflexivity|].
    intros [[H _] | H]; [discriminate H | vm_compute in H; destruct H as [_ H]; discriminate H].
  - vm_compute. reflexivity.
  - vm_compute. reflexivity.
Qed.


Section Rename.

Context {Remote : Type} (svc : Service Remote).

(** C6. [RenameObject] copies to the new key and then deletes the old
    key. If the copy fails, its error is reported and the copy is the only
    request sent: no delete is attempted. If the copy succeeds and the
    delete fails, the error of the delete is reported and the delete is the
    last request sent: the remote state is the one the copy made and the
    failed delete left, with nothing undone. *)
Theorem rename_is_copy_then_delete
  (w : World Remote) (bucket oldKey newKey : string) :
  let copyCall := CallCopy bucket (bucket +:+ "/" +:+ oldKey) newKey in
  let deleteCall := CallDelete bucket oldKey in
  (forall r1 e,
     sdkCopyObject svc (remote w) bucket (bucket +:+ "/" +:+ oldKey) newKey
       = (r1, Some e) ->
     RenameObject svc bucket oldKey newKey w =
       (Some (ErrWrap "failed to copy object during rename"
                (ErrWrap "failed to copy object" e)),
        mkWorld r1 (calls w ++ [copyCall]))) /\
  (forall r1 r2 e,
     sdkCopyObject svc (remote w) bucket (bucket +:+ "/" +:+ oldKey) newKey
       = (r1, None) ->
     sdkDeleteObject svc r1 bucket oldKey = (r2, Some e) ->
     RenameObject svc bucket oldKey newKey w =
       (Some (ErrWrap "failed to delete original object during rename"
                (ErrWrap "failed to delete object" e)),
        mkWorld r2 (calls w ++ [copyCall; deleteCall]))) /\
  (forall r1 r2,
     sdkCopyObject svc (remote w) bucket (bucket +:+ "/" +:+ oldKey) newKey
       = (r1, None) ->
     sdkDeleteObject svc r1 bucket oldKey = (r2, None) ->
     RenameObject svc bucket oldKey newKey w =
       (None, mkWorld r2 (calls w ++ [copyCall; deleteCall]))).
Proof.
  cbv zeta. unfold RenameObject, CopyObject, DeleteObject, bind, ret,
    callCopy, callDelete.
  split; [|split].
  - intros r1 e H. rewrite H. reflexivity.
  - intros r1 r2 e H1 H2. rewrite H1. cbn [remote calls]. rewrite H2.
    rewrite <- app_assoc. reflexivity.
  - intros r1 r2 H1 H2. rewrite H1. cbn [remote calls]. rewrite H2.
    rewrite <- app_assoc. reflexivity.
Qed.

End Rename.

Section StringFacts.

Local Abbreviation bytes := list_ascii_of_string.

Lemma bytes_inj a b : bytes a = bytes b -> a = b.
Proof.
  intros H. rewrite <- (string_of_list_ascii_of_string a),
    <- (string_of_list_ascii_of_string b), H. reflexivity.
Qed.

Lemma append_cons x a b : String x a +:+ b = String x (a +:+ b).
Proof. reflexivity. Qed.

Lemma append_nil_l b : "" +:+ b = b.
Proof. reflexivity. Qed.

Lemma bytes_append a b : bytes (a +:+ b) = bytes a ++ bytes b.
Proof.
  induction a as [|x a IH]; rewrite ?append_cons, ?append_nil_l; cbn [bytes app];
    [reflexivity | now rewrite IH].
Qed.

Lemma string_length_append a b :
  String.length (a +:+ b) = (String.length a + String.length b)%nat.
Proof.
  induction a as [|x a IH]; rewrite ?append_cons, ?append_nil_l;
    cbn [String.length Nat.add]; [reflexivity | now rewrite IH].
Qed.

Lemma append_inv_head a b c : a +:+ b = a +:+ c -> b = c.
Proof.
  induction a as [|x a IH]; rewrite ?append_cons, ?append_nil_l;
    [auto | intros [= H]; auto].
Qed.

Lemma append_inv_tail a b c : a +:+ c = b +:+ c -> a = b.
Proof.
  intros H. apply bytes_inj. apply (f_equal bytes) in H.
  rewrite !bytes_append in H. eapply app_inv_tail; eassumption.
Qed.

Lemma substring_whole s : String.substring 0 (String.length s) s = s.
Proof.
  induction s as [|x s IH]; cbn [String.length String.substring];
    [reflexivity | now rewrite IH].
Qed.

Lemma substring_head a b :
  String.substring 0 (String.length a) (a +:+ b) = a.
Proof.
  induction a as [|x a IH]; rewrite ?append_cons, ?append_nil_l;
    cbn [String.length String.substring];
    [destruct b; reflexivity | now rewrite IH].
Qed.

Lemma substring_tail a b :
  String.substring (String.length a) (String.length b) (a +:+ b) = b.
Proof.
  induction a as [|x a IH]; rewrite ?append_cons, ?append_nil_l;
    cbn [String.length String.substring];
    [apply substring_whole | exact IH].
Qed.

(** [TrimSuffix] takes off a suffix that is there. *)
Lemma TrimSuffix_append name ext :
  GoStrings.TrimSuffix (name +:+ ext) ext = name.
Proof.
  unfold GoStrings.TrimSuffix, GoStrings.HasSuffix.
  rewrite string_length_append.
  replace (String.length name + String.length ext - String.length ext)%nat
    with (String.length name) by lia.
  rewrite substring_tail, String.eqb_refl, substring_head.
  destruct (Nat.leb_spec (String.length ext)
              (String.length name + String.length ext)); [reflexivity | lia].
Qed.

(** What [ext_scan] gives is the end of what it walked. *)
Lemma ext_scan_suffix r acc :
  exists pre, rev r ++ acc = pre ++ GoStrings.ext_scan r acc.
Proof.
  revert acc. induction r as [|c r IH]; intros acc; cbn.
  - exists acc. now rewrite app_nil_r.
  - rewrite <- app_assoc. cbn.
    destruct (GoStrings.is_slash c).
    + exists (rev r ++ c :: acc). now rewrite app_nil_r.
    + destruct (Ascii.eqb c GoStrings.dot).
      * exists (rev r). reflexivity.
      * apply IH.
Qed.

(** The extension is the end of the name: the name is what [TrimSuffix]
    leaves, followed by the extension. *)
Lemma name_and_extension filename :
  filename =
  GoStrings.TrimSuffix filename (GoStrings.Ext filename)
    +:+ GoStrings.Ext filename.
Proof.
  destruct (ext_scan_suffix (rev (bytes filename)) []) as [pre H].
  rewrite rev_involutive, app_nil_r in H.
  assert (E : filename = string_of_list_ascii pre +:+ GoStrings.Ext filename).
  { apply bytes_inj. unfold GoStrings.Ext.
    rewrite bytes_append, !list_ascii_of_string_of_list_ascii. exact H. }
  rewrite E at 2. rewrite TrimSuffix_append. exact E.
Qed.

End StringFacts.

Section Paste.

(** The key the [counter]-th attempt tries. *)
Local Abbreviation attempt cp filename counter :=
  (keyUnder cp (copyName filename counter)).

Lemma keyUnder_inj cp a b : keyUnder cp a = keyUnder cp b -> a = b.
Proof.
  unfold keyUnder. destruct (negb _); [|auto].
  intros H. apply append_inv_head in H. now apply append_inv_head in H.
Qed.

Lemma attempt_inj cp filename i j :
  attempt cp filename i = attempt cp filename j -> i = j.
Proof.
  intros H. apply keyUnder_inj in H. unfold copyName in H. cbv zeta in H.
  apply append_inv_head in H. apply append_inv_head in H.
  apply append_inv_tail in H. unfold GoStrings.fmt_d in H.
  now apply (inj pretty) in H.
Qed.

Lemma keyExists_In objs key :
  keyExists objs key = true <-> In key (map Key objs).
Proof.
  unfold keyExists. rewrite existsb_exists, in_map_iff. split.
  - intros (o & Ho & E). apply String.eqb_eq in E. eauto.
  - intros (o & E & Ho). exists o. split; [assumption|].
    now apply String.eqb_eq.
Qed.

(** What the search gives when it gives a key: the first attempt from
    [counter] on that is not in the listing. *)
Lemma findFree_first fuel cp objs filename counter key :
  1 <= counter ->
  counter + Z.of_nat fuel <= GoInt.max_int + 1 ->
  findFree fuel cp objs filename counter = Some key ->
  exists n,
    counter <= n < counter + Z.of_nat fuel /\
    key = attempt cp filename n /\
    keyExists objs key = false /\
    forall j, counter <= j < n ->
              keyExists objs (attempt cp filename j) = true.
Proof.
  revert counter. induction fuel as [|fuel IH]; intros counter Hc Hb; [discriminate|].
  cbn [findFree]. cbv zeta.
  destruct (keyExists objs (attempt cp filename counter)) eqn:E.
  - destruct fuel as [|fuel']; [discriminate|].
    replace (counter +! 1) with (counter + 1)
      by (int_unfold; rewrite wrap_small; lia).
    intros H.
    destruct (IH (counter + 1) ltac:(lia) ltac:(lia) H) as (n & Hn & -> & Hf & Hall).
    exists n. split; [lia|]. split; [reflexivity|]. split; [assumption|].
    intros j Hj. destruct (decide (j = counter)) as [-> | Hne]; [assumption|].
    apply Hall. lia.
  - intros [= <-]. exists counter. split; [lia|]. split; [reflexivity|].
    split; [assumption|]. intros j Hj. lia.
Qed.

(** The search gives a key as soon as one of the attempts within its
    rounds is not in the listing. *)
Lemma findFree_finds fuel cp objs filename counter n :
  1 <= counter ->
  counter + Z.of_nat fuel <= GoInt.max_int + 1 ->
  counter <= n < counter + Z.of_nat fuel ->
  keyExists objs (attempt cp filename n) = false ->
  exists key, findFree fuel cp objs filename counter = Some key.
Proof.
  revert counter. induction fuel as [|fuel IH]; intros counter Hc Hb Hn Hfree; [lia|].
  cbn [findFree]. cbv zeta.
  destruct (keyExists objs (attempt cp filename counter)) eqn:E; [|eauto].
  assert (n <> counter) by congruence.
  destruct fuel as [|fuel']; [lia|].
  replace (counter +! 1) with (counter + 1)
    by (int_unfold; rewrite wrap_small; lia).
  apply IH; [lia | lia | lia | assumption].
Qed.

(** Of one attempt more than the listing has entries, one is not in the
    listing. *)
Lemma some_attempt_is_free cp objs filename :
  exists n, 1 <= n < 1 + Z.of_nat (S (length objs)) /\
            keyExists objs (attempt cp filename n) = false.
Proof.
  set (counters := map (fun i => Z.of_nat i) (seq 1 (S (length objs)))).
  set (tried := map (fun n => attempt cp filename n) counters).
  destruct (existsb (fun n => negb (keyExists objs (attempt cp filename n)))
                    counters) eqn:E.
  - apply existsb_exists in E as (n & Hn & Hfree).
    exists n. split; [|now apply negb_true_iff].
    apply in_map_iff in Hn as (i & <- & Hi). apply in_seq in Hi. lia.
  - exfalso.
    assert (Hall : incl tried (map Key objs)).
    { intros key Hk. apply in_map_iff in Hk as (n & <- & Hn).
      apply keyExists_In.
      destruct (keyExists objs (attempt cp filename n)) eqn:En; [reflexivity|].
      assert (existsb (fun n => negb (keyExists objs (attempt cp filename n)))
                      counters = true); [|congruence].
      apply existsb_exists. exists n. rewrite En. auto. }
    assert (Hnd : List.NoDup tried).
    { apply Injective_map_NoDup; [intros i j; cbv beta; apply attempt_inj|].
      apply Injective_map_NoDup; [intros i j; lia | apply seq_NoDup]. }
    pose proof (NoDup_incl_length Hnd Hall) as Hlen.
    unfold tried, counters in Hlen. rewrite !length_map, length_seq in Hlen.
    lia.
Qed.

(** What [pasteDest] gives. *)
Lemma pasteDest_chooses (m : Model) (yankedFile : string) :
  GoInt.len (objects m) < GoInt.max_int ->
  let filename := GoStrings.Base yankedFile in
  let plain := keyUnder (currentPath m) filename in
  (keyExists (objects m) plain = false ->
   pasteDest m yankedFile = Some plain) /\
  (keyExists (objects m) plain = true ->
   exists n,
     1 <= n /\
     pasteDest m yankedFile = Some (attempt (currentPath m) filename n) /\
     keyExists (objects m) (attempt (currentPath m) filename n) = false /\
     forall j, 1 <= j < n ->
       keyExists (objects m) (attempt (currentPath m) filename j) = true).
Proof.
  intros Hlen. cbv zeta.
  unfold pasteDest. cbv zeta. split; intros ->; [reflexivity|].
  assert (Hb : 1 + Z.of_nat (S (length (objects m))) <= GoInt.max_int + 1)
    by (unfold GoInt.len in Hlen; lia).
  destruct (some_attempt_is_free (currentPath m) (objects m)
              (GoStrings.Base yankedFile)) as (n0 & Hn0 & Hfree).
  destruct (findFree_finds _ _ _ _ 1 _ ltac:(lia) Hb Hn0 Hfree) as (key & E).
  destruct (findFree_first _ _ _ _ 1 _ ltac:(lia) Hb E) as (n & Hn & -> & Hf & Hall).
  exists n. split; [lia|]. split; [exact E|]. split; [exact Hf|]. exact Hall.
Qed.

(** The search of [pasteDest] always ends. *)
Lemma pasteDest_answers (m : Model) (yankedFile : string) :
  GoInt.len (objects m) < GoInt.max_int ->
  exists destKey, pasteDest m yankedFile = Some destKey.
Proof.
  intros Hlen. destruct (pasteDest_chooses m yankedFile Hlen) as [Hplain Hcopy].
  destruct (keyExists (objects m)
              (keyUnder (currentPath m) (GoStrings.Base yankedFile))) eqn:E.
  - destruct (Hcopy eq_refl) as (n & _ & H & _). eauto.
  - eauto.
Qed.

(** The loop of [pasteFiles] sends one copy request for each yanked key,
    in order, to the destination [pasteDest] chooses for it. *)
Lemma pasteLoop_requests {Remote : Type} (svc : Service Remote) (m : Model)
      (yanked copiedFiles errors : list string) (w : World Remote) :
  GoInt.len (objects m) < GoInt.max_int ->
  exists result w' sent,
    pasteLoop svc m yanked copiedFiles errors w = (Some result, w') /\
    calls w' = calls w ++ sent /\
    Forall2 (fun yankedFile request =>
               exists destKey,
                 pasteDest m yankedFile = Some destKey /\
                 request = CallCopy (bucket m)
                             (bucket m +:+ "/" +:+ yankedFile) destKey)
            yanked sent.
Proof.
  intros Hlen. revert copiedFiles errors w.
  induction yanked as [|yankedFile rest IH]; intros copiedFiles errors w.
  - exists (copiedFiles, errors), w, []. cbn. rewrite app_nil_r.
    repeat split. constructor.
  - cbn [pasteLoop].
    destruct (pasteDest_answers m yankedFile Hlen) as (destKey & E). rewrite E.
    unfold CopyObject, callCopy, bind, ret.
    destruct (sdkCopyObject svc (remote w) (bucket m)
                (bucket m +:+ "/" +:+ yankedFile) destKey) as [r e].
    set (w1 := mkWorld r (calls w ++ [CallCopy (bucket m)
                            (bucket m +:+ "/" +:+ yankedFile) destKey])).
    destruct e as [e|].
    + destruct (IH copiedFiles
                  (errors ++ [GoStrings.Base yankedFile +:+ ": "
                              +:+ Error (ErrWrap "failed to copy object" e)]) w1)
        as (result & w' & sent & H1 & H2 & H3).
      exists result, w', (CallCopy (bucket m)
                            (bucket m +:+ "/" +:+ yankedFile) destKey :: sent).
      split; [exact H1|]. split.
      * rewrite H2. subst w1. cbn [calls]. now rewrite <- app_assoc.
      * constructor; [eauto | assumption].
    + destruct (IH (copiedFiles ++ [GoStrings.Base destKey]) errors w1)
        as (result & w' & sent & H1 & H2 & H3).
      exists result, w', (CallCopy (bucket m)
                            (bucket m +:+ "/" +:+ yankedFile) destKey :: sent).
      split; [exact H1|]. split.
      * rewrite H2. subst w1. cbn [calls]. now rewrite <- app_assoc.
      * constructor; [eauto | assumption].
Qed.

(** C1. The destination [pasteFiles] chooses for a yanked key. If the plain
    destination (the current path and the base name) is not in the
    listing, it is chosen as it is, without a suffix. If it is in the
    listing, the destination is the name with [_copy_N] put in before the
    extension, for the smallest [N >= 1] whose key is not in the listing.
    The search always ends, and the command, run, answers and has sent one
    copy request for each yanked key, in order, to the destination so
    chosen. *)
Theorem paste_destination (m : Model) :
  GoInt.len (objects m) < GoInt.max_int ->
  (forall yankedFile : string,
     let filename := GoStrings.Base yankedFile in
     let ext := GoStrings.Ext filename in
     let name := GoStrings.TrimSuffix filename ext in
     let plain := keyUnder (currentPath m) filename in
     let suffixed n :=
       keyUnder (currentPath m)
                (name +:+ "_copy_" +:+ GoStrings.fmt_d n +:+ ext) in
     filename = name +:+ ext /\
     (keyExists (objects m) plain = false ->
      pasteDest m yankedFile = Some plain) /\
     (keyExists (objects m) plain = true ->
      exists n,
        1 <= n /\
        pasteDest m yankedFile = Some (suffixed n) /\
        keyExists (objects m) (suffixed n) = false /\
        forall j, 1 <= j < n -> keyExists (objects m) (suffixed j) = true)) /\
  (forall (Remote : Type) (svc : Service Remote) (w : World Remote),
     exists msg w' sent,
       runPasteFiles svc m w = (Some msg, w') /\
       calls w' = calls w ++ sent /\
       (yankedFiles m <> [] ->
        Forall2 (fun yankedFile request =>
                   exists destKey,
                     pasteDest m yankedFile = Some destKey /\
                     request = CallCopy (bucket m)
                                 (bucket m +:+ "/" +:+ yankedFile) destKey)
                (yankedFiles m) sent)).
Proof.
  intros Hlen. split.
  - intros yankedFile. cbv zeta. split; [apply name_and_extension|].
    exact (pasteDest_chooses m yankedFile Hlen).
  - intros Remote svc w. unfold runPasteFiles.
    destruct (GoInt.len (yankedFiles m) =? 0) eqn:E0.
    + eexists _, w, []. unfold ret. rewrite app_nil_r.
      split; [reflexivity|]. split; [reflexivity|].
      intros Hne. exfalso. apply Hne. apply Z.eqb_eq in E0.
      unfold GoInt.len in E0. destruct (yankedFiles m); [reflexivity | discriminate].
    + destruct (pasteLoop_requests svc m (yankedFiles m) [] [] w Hlen)
        as ([copiedFiles errors] & w' & sent & H1 & H2 & H3).
      unfold bind. rewrite H1. unfold ret.
      destruct (GoInt.len errors >? 0);
        eexists _, w', sent; (split; [reflexivity|]); split; auto.
Qed.

End Paste.

Section Ordering.

(** The order of strings, [<] against [<=]. *)
Lemma ltb_negb_leb a b : String.ltb a b = negb (String.leb b a).
Proof.
  unfold String.ltb, String.leb. rewrite (String.compare_antisym b a).
  destruct (String.compare a b); reflexivity.
Qed.

Lemma leb_refl a : String.leb a a = true.
Proof. destruct (String.leb_total a a); assumption. Qed.

Lemma leb_trans a b c :
  String.leb a b = true -> String.leb b c = true -> String.leb a c = true.
Proof.
  intros H1 H2. apply Is_true_true. apply Is_true_true in H1, H2.
  exact (transitivity (R := String.le) H1 H2).
Qed.

(** A comparison that puts directories first and then compares names is a
    strict weak order. *)
Lemma directories_first_order {A} (isDir : A -> bool) (name : A -> string)
                              (less : A -> A -> bool) :
  (forall a b, less a b =
     if negb (Bool.eqb (isDir a) (isDir b)) then isDir a
     else String.ltb (name a) (name b)) ->
  strictWeakOrder less.
Proof.
  intros Hless. split; [|split].
  - intros a. rewrite Hless, Bool.eqb_reflx, ltb_negb_leb, leb_refl. reflexivity.
  - intros a b c. rewrite !Hless, !ltb_negb_leb.
    destruct (isDir a), (isDir b), (isDir c); cbn; try congruence;
      rewrite !negb_true_iff; intros H1 H2;
      destruct (String.leb (name c) (name a)) eqn:E; try reflexivity;
      destruct (String.leb_total (name a) (name b)) as [H | H]; try congruence;
      rewrite (leb_trans _ _ _ E H) in H2; discriminate.
  - intros a b c. rewrite !Hless, !ltb_negb_leb.
    destruct (isDir a), (isDir b), (isDir c); cbn; try congruence;
      rewrite !negb_false_iff; intros H1 H2; eapply leb_trans; eassumption.
Qed.

Lemma objectLess_order : strictWeakOrder objectLess.
Proof. apply (directories_first_order IsDir Key). reflexivity. Qed.

Lemma localLess_order : strictWeakOrder localLess.
Proof.
  apply (directories_first_order LocalItem.IsDir LocalItem.Name). reflexivity.
Qed.

(** In a sorted list the relation holds between any two positions. *)
Lemma StronglySorted_lookup {A} (R : A -> A -> Prop) (l : list A) :
  StronglySorted R l ->
  forall (i j : nat) (a b : A),
    (i < j)%nat -> l !! i = Some a -> l !! j = Some b -> R a b.
Proof.
  induction 1 as [|x l Hs IH Hx]; intros i j a b Hij Ha Hb.
  - rewrite lookup_nil in Ha. discriminate.
  - destruct j as [|j]; [lia|]. cbn in Hb. destruct i as [|i]; cbn in Ha.
    + injection Ha as <-. rewrite List.Forall_forall in Hx. apply Hx.
      apply list_elem_of_In. eapply list_elem_of_lookup_2. eassumption.
    + eapply IH; [|eassumption..]. lia.
Qed.

(** A list sorted by such a comparison has its directories first and its
    names in order within each group. *)
Lemma sorted_directories_first {A} (isDir : A -> bool) (name : A -> string)
                               (less : A -> A -> bool) (l : list A) :
  (forall a b, less a b =
     if negb (Bool.eqb (isDir a) (isDir b)) then isDir a
     else String.ltb (name a) (name b)) ->
  StronglySorted (fun a b => less b a = false) l ->
  directoriesFirst isDir name l.
Proof.
  intros Hless Hs i j a b Hij Ha Hb.
  pose proof (StronglySorted_lookup _ _ Hs i j a b Hij Ha Hb) as H.
  cbv beta in H. rewrite Hless, ltb_negb_leb in H.
  destruct (isDir a), (isDir b); cbn in H; try discriminate;
    split; try congruence; intros _; now apply negb_false_iff.
Qed.

(** Insertion sort does what [sort.Slice] promises. *)
Lemma insertSorted_perm {A} (less : A -> A -> bool) x l :
  Permutation (insertSorted less x l) (x :: l).
Proof.
  induction l as [|y l IH]; cbn; [reflexivity|].
  destruct (less x y); [reflexivity|].
  rewrite IH. apply perm_swap.
Qed.

Lemma insertSorted_sorted {A} (less : A -> A -> bool) x l :
  strictWeakOrder less ->
  StronglySorted (fun a b => less b a = false) l ->
  StronglySorted (fun a b => less b a = false) (insertSorted less x l).
Proof.
  intros (Hirr & Htr & Hnt) Hs. induction Hs as [|y l Hs IH Hy]; cbn.
  - repeat constructor.
  - destruct (less x y) eqn:E.
    + constructor; [constructor; assumption|].
      assert (Hyx : less y x = false).
      { destruct (less y x) eqn:E'; [|reflexivity].
        rewrite <- (Hirr x). symmetry. eapply Htr; eassumption. }
      constructor; [assumption|].
      rewrite List.Forall_forall in *. intros z Hz. eapply Hnt; eauto.
    + constructor; [assumption|].
      rewrite List.Forall_forall in *. intros z Hz.
      apply (Permutation_in _ (insertSorted_perm less x l)) in Hz.
      destruct Hz as [<- | Hz]; auto.
Qed.

Lemma insertionSort_sorts : sortsSlices insertionSort.
Proof.
  intros A less l Ho. unfold insertionSort. induction l as [|x l [IHp IHs]]; cbn.
  - split; [reflexivity | constructor].
  - split.
    + rewrite insertSorted_perm. now constructor.
    + now apply insertSorted_sorted.
Qed.

Variable sortSlice : forall A : Type, (A -> A -> bool) -> list A -> list A.
Hypothesis sortSlice_sorts : sortsSlices sortSlice.

(** C4. Every remote listing and every local listing that the core is
    given is in order: no file comes before a directory, and among the
    directories and among the files the keys (the names, for local
    entries) do not decrease. The listing holds the entries that were
    listed, the local one with the parent entry added and the hidden and
    unreadable entries left out. *)
Theorem listings_directories_first :
  (forall (Remote : Type) (svc : Service Remote) (m : Model) (w w' : World Remote)
          (objs : list S3Object) (e : option error),
     runLoadObjects svc sortSlice m w = (objectsLoadedMsg objs e, w') ->
     directoriesFirst IsDir Key objs /\
     (e = None ->
      exists listed,
        ListObjects svc (bucket m) (listingPrefix (currentPath m)) w
          = (inr listed, w') /\
        Permutation objs listed)) /\
  (forall (path : string) (entries : list DirEntry) (items : list LocalItem.t)
          (p : string) (e : option error),
     runLoadLocalFiles sortSlice path (inr entries)
       = localFilesLoadedMsg items p e ->
     directoriesFirst LocalItem.IsDir LocalItem.Name items /\
     Permutation items (localItemsOf entries)).
Proof.
  split.
  - intros Remote svc m w w' objs e. unfold runLoadObjects, bind, ret.
    destruct (ListObjects svc _ _ w) as [[err | listed] w1].
    + intros [= <- <- <-]. split; [|discriminate].
      intros i j a b _ Ha. rewrite lookup_nil in Ha. discriminate.
    + intros [= <- <- <-].
      destruct (sortSlice_sorts _ objectLess listed objectLess_order) as [Hp Hs].
      split.
      * apply (sorted_directories_first IsDir Key objectLess);
          [reflexivity | assumption].
      * intros _. eauto.
  - intros path entries items p e. unfold runLoadLocalFiles.
    intros [= <- <- <-].
    destruct (sortSlice_sorts _ localLess (localItemsOf entries) localLess_order)
      as [Hp Hs].
    split; [|assumption].
    apply (sorted_directories_first LocalItem.IsDir LocalItem.Name localLess);
      [reflexivity | assumption].
Qed.

End Ordering.

(** ** The properties at work *)

(** Decide a closed comparison of integers. *)
Ltac by_computation :=
  vm_compute; first [reflexivity | discriminate | intros; discriminate].

(** C1 at work: [a.txt] is pasted next to [a.txt] and [a_copy_1.txt]. *)
Lemma paste_destination_witness :
  GoInt.len (objects pasteModel) < GoInt.max_int /\
  exists n,
    1 <= n /\
    pasteDest pasteModel "docs/a.txt" =
      Some ("a" +:+ "_copy_" +:+ GoStrings.fmt_d n +:+ ".txt") /\
    keyExists (objects pasteModel)
      ("a" +:+ "_copy_" +:+ GoStrings.fmt_d n +:+ ".txt") = false /\
    forall j, 1 <= j < n ->
      keyExists (objects pasteModel)
        ("a" +:+ "_copy_" +:+ GoStrings.fmt_d j +:+ ".txt") = true.
Proof.
  assert (H : GoInt.len (objects pasteModel) < GoInt.max_int) by reflexivity.
  split; [exact H|].
  destruct (paste_destination pasteModel H) as (Hdest & _).
  destruct (Hdest "docs/a.txt") as (_ & _ & Hex).
  exact (Hex eq_refl).
Defined.


(** C4 at work: a bucket and a local directory, listed with insertion
    sort. *)
Lemma listings_directories_first_witness :
  let objs := [mkS3Object "docs" 0 "" true; mkS3Object "zoo" 0 "" true;
               mkS3Object "a.txt" 1 "" false; mkS3Object "b.txt" 2 "" false;
               mkS3Object "old.txt" 4 "" false] in
  let items := [LocalItem.mk ".." true 0; LocalItem.mk "src" true 0;
                LocalItem.mk "alpha.txt" false 5;
                LocalItem.mk "zeta.txt" false 3] in
  sortsSlices insertionSort /\
  runLoadObjects memService insertionSort dirModel memWorld
    = (objectsLoadedMsg objs None,
       mkWorld memBucket [CallList "bucket" "" "/"]) /\
  directoriesFirst IsDir Key objs /\
  runLoadLocalFiles insertionSort "." (inr someEntries)
    = localFilesLoadedMsg items "." None /\
  directoriesFirst LocalItem.IsDir LocalItem.Name items.
Proof.
  cbv zeta.
  destruct (listings_directories_first insertionSort insertionSort_sorts)
    as [Hremote Hlocal].
  split; [exact insertionSort_sorts|].
  assert (E1 : runLoadObjects memService insertionSort dirModel memWorld
    = (objectsLoadedMsg
         [mkS3Object "docs" 0 "" true; mkS3Object "zoo" 0 "" true;
          mkS3Object "a.txt" 1 "" false; mkS3Object "b.txt" 2 "" false;
          mkS3Object "old.txt" 4 "" false] None,
       mkWorld memBucket [CallList "bucket" "" "/"]))
    by (vm_compute; reflexivity).
  assert (E2 : runLoadLocalFiles insertionSort "." (inr someEntries)
    = localFilesLoadedMsg
        [LocalItem.mk ".." true 0; LocalItem.mk "src" true 0;
         LocalItem.mk "alpha.txt" false 5; LocalItem.mk "zeta.txt" false 3]
        "." None)
    by (vm_compute; reflexivity).
  split; [exact E1|]. split; [exact (proj1 (Hremote _ _ _ _ _ _ _ E1))|].
  split; [exact E2|]. exact (proj1 (Hlocal _ _ _ _ _ E2)).
Defined.


(** C6 at work: the bucket refuses the delete; the copy stays. *)
Lemma rename_is_copy_then_delete_witness :
  exists r1 r2 e,
    sdkCopyObject memService (remote memWorld) "bucket" "bucket/old.txt" "new.txt"
      = (r1, None) /\
    sdkDeleteObject memService r1 "bucket" "old.txt" = (r2, Some e) /\
    RenameObject memService "bucket" "old.txt" "new.txt" memWorld =
      (Some (ErrWrap "failed to delete original object during rename"
               (ErrWrap "failed to delete object" e)),
       mkWorld r2 [CallCopy "bucket" "bucket/old.txt" "new.txt";
                   CallDelete "bucket" "old.txt"]) /\
    objectsOf r2 !! "new.txt" = Some "body" /\
    objectsOf r2 !! "old.txt" = Some "body".
Proof.
  destruct (rename_is_copy_then_delete memService memWorld
              "bucket" "old.txt" "new.txt") as (_ & Hdelete & _).
  eexists _, _, _.
  assert (H1 : sdkCopyObject memService (remote memWorld) "bucket"
                 "bucket/old.txt" "new.txt"
               = (mkMemRemote (<["new.txt" := "body"]> (objectsOf memBucket))
                    (prefixesOf memBucket) (copyFaults memBucket)
                    (deleteFaults memBucket), None))
    by (vm_compute; reflexivity).
  split; [exact H1|].
  assert (H2 : sdkDeleteObject memService
                 (mkMemRemote (<["new.txt" := "body"]> (objectsOf memBucket))
                    (prefixesOf memBucket) (copyFaults memBucket)
                    (deleteFaults memBucket)) "bucket" "old.txt"
               = (mkMemRemote (<["new.txt" := "body"]> (objectsOf memBucket))
                    (prefixesOf memBucket) (copyFaults memBucket)
                    (deleteFaults memBucket), Some (ErrText "AccessDenied")))
    by (vm_compute; reflexivity).
  split; [exact H2|].
  split; [exact (Hdelete _ _ _ H1 H2)|].
  split; vm_compute; reflexivity.
Defined.

(** C7 at work: the name is confirmed unchanged; and a rename onto a key
    of the listing is refused. *)
Lemma rename_confirm_witness :
  viewMode renameModel = ViewRename /\
  Update plainDir plainJoin plainRuneCount renameModel (KeyMsg "enter") =
    Next (clearRename (set_viewMode ViewBrowser renameModel)) CmdNone /\
  runRenameFile memService renameModel "docs/report.txt" "summary.txt" memWorld =
    (fileRenamedMsg "" ""
       (Some (ErrText "file 'summary.txt' already exists")), memWorld).
Proof.
  destruct (rename_confirm_dispatch plainDir plainJoin plainRuneCount
              renameModel eq_refl) as (_ & Hsame & _ & Hdup).
  split; [reflexivity|]. split.
  - apply Hsame. right. reflexivity.
  - apply (Hdup _ memService memWorld renameModel "docs/report.txt" "summary.txt").
    reflexivity.
Defined.

(** C8 at work: a failed rename after a successful delete. *)
Lemma error_and_status_witness :
  let e := ErrText "failed to copy object during rename: timeout" in
  exists m',
    Update plainDir plainJoin plainRuneCount afterDelete
           (fileRenamedMsg "" "" (Some e)) = Next m' CmdNone /\
    statusMessage afterDelete = "✓ Deleted 'a.txt' successfully" /\
    err m' = Some e /\ statusMessage m' = "" /\ banner m' = ShowError e.
Proof.
  cbv zeta. eexists.
  assert (E : Update plainDir plainJoin plainRuneCount afterDelete
                (fileRenamedMsg "" ""
                   (Some (ErrText "failed to copy object during rename: timeout")))
              = Next (set_statusMessage ""
                        (set_err (Some (ErrText
                           "failed to copy object during rename: timeout"))
                           (set_loading false afterDelete))) CmdNone)
    by reflexivity.
  split; [exact E|]. split; [reflexivity|].
  destruct (error_and_status_events plainDir plainJoin plainRuneCount _ _ _ _ E)
    as (_ & _ & Herr & Hclear).
  split; [apply Herr; reflexivity|].
  split; [eapply Hclear; reflexivity | reflexivity].
Defined.

(** C9 at work: [r] on a file of the current variant. *)
Lemma r_key_witness :
  let m := set_cursor 1 dirModel in
  exists m',
    updateBrowser m "r" = Next m' CmdNone /\
    currentPath m' = currentPath m /\
    dirStatsCache m' = dirStatsCache m /\
    viewMode m' = ViewRename /\ renameInput m' = "a.txt".
Proof.
  cbv zeta.
  destruct r_key_in_both_variants as (Hcurrent & _ & _).
  eexists.
  assert (E : updateBrowser (set_cursor 1 dirModel) "r" =
              Next (set_statusMessage ""
                     (set_err None
                        (set_viewMode ViewRename
                           (set_renameCursor 5
                              (set_renameInput "a.txt"
                                 (set_renameOriginal "a.txt"
                                    (set_cursor 1 dirModel))))))) CmdNone)
    by reflexivity.
  split; [exact E|].
  destruct (Hcurrent _ _ _ E) as (_ & Hp & Hc & Hfile).
  split; [exact Hp|]. split; [exact Hc|].
  destruct (Hfile fileA eq_refl eq_refl) as (Hv & _ & Hi).
  split; [exact Hv | exact Hi].
Defined.

(** C10 at work: [x] on a directory. *)
Lemma directory_ignores_keys_witness :
  viewMode dirModel = ViewBrowser /\
  In "x" ["x"; "d"; "r"] /\
  index (objects dirModel) (cursor dirModel)
    = Some (mkS3Object "docs" 0 "" true) /\
  Update plainDir plainJoin plainRuneCount dirModel (KeyMsg "x")
    = Next dirModel CmdNone.
Proof.
  assert (Hk : In "x" ["x"; "d"; "r"]) by (left; reflexivity).
  split; [reflexivity|]. split; [exact Hk|]. split; [reflexivity|].
  exact (directory_ignores_delete_download_rename plainDir plainJoin
           plainRuneCount dirModel "x" _ eq_refl Hk eq_refl eq_refl).
Defined.

(** ** The functions on small inputs *)

Example Base_of_key : GoStrings.Base "a/b/report.txt" = "report.txt".
Proof. reflexivity. Qed.

Example Base_trailing_separator : GoStrings.Base "a/b/" = "b".
Proof. reflexivity. Qed.

Example Base_separators_only : GoStrings.Base "///" = "/".
Proof. reflexivity. Qed.

Example Ext_last_dot : GoStrings.Ext "report.tar.gz" = ".gz".
Proof. reflexivity. Qed.

Example Ext_dot_in_directory : GoStrings.Ext "a.b/report" = "".
Proof. reflexivity. Qed.

Example Split_path : GoStrings.Split "a/b/c" GoStrings.slash = ["a"; "b"; "c"].
Proof. reflexivity. Qed.

Example Split_trailing : GoStrings.Split "a/" GoStrings.slash = ["a"; ""].
Proof. reflexivity. Qed.

Example parentPath_nested : parentPath "a/b" = "a".
Proof. reflexivity. Qed.

Example parentPath_top : parentPath "a" = "".
Proof. reflexivity. Qed.

Example wrap_at_the_edge : GoInt.max_int +! 1 = GoInt.min_int.
Proof. reflexivity. Qed.

(** The scenario of the specification: [a.txt] and [b.txt] are pasted
    next to an [a.txt]. *)
Example paste_next_to_a :
  let m := set_objects [fileA] pasteModel in
  pasteDest m "docs/a.txt" = Some "a_copy_1.txt" /\
  pasteDest m "docs/b.txt" = Some "b.txt".
Proof. split; reflexivity. Qed.

Example paste_skips_taken_copies :
  pasteDest pasteModel "docs/a.txt" = Some "a_copy_2.txt".
Proof. reflexivity. Qed.

Example paste_into_directory :
  pasteDest (set_currentPath "docs" pasteModel) "a.txt" = Some "docs/a.txt".
Proof. reflexivity. Qed.

Example paste_hidden_file :
  pasteDest (set_objects [mkS3Object ".profile" 1 "" false] pasteModel)
            "home/.profile" = Some "_copy_1.profile".
Proof. reflexivity. Qed.

(** The whole of [pasteFiles] on the in-memory bucket. *)
Example paste_copies_both :
  let m := set_yankedFiles ["old.txt"; "b.txt"] (set_objects [fileA] pasteModel) in
  exists w',
    runPasteFiles memService m memWorld =
      (Some (fileCopiedMsg "2 files" "old.txt, b.txt" None), w') /\
    calls w' = [CallCopy "bucket" "bucket/old.txt" "old.txt";
                CallCopy "bucket" "bucket/b.txt" "b.txt"].
Proof. eexists. split; [vm_compute; reflexivity | reflexivity]. Qed.

(* ===================================================================== *)
(** * Further properties: paths and keys                                  *)
(* ===================================================================== *)

Section PathFacts.

Local Abbreviation bytes := list_ascii_of_string.

Lemma Split_nonempty s sep : GoStrings.Split s sep <> [].
Proof.
  destruct s as [|c s]; cbn; [discriminate|].
  destruct (Ascii.eqb c sep); [discriminate|].
  destruct (GoStrings.Split s sep); discriminate.
Qed.

(** Joining what was split gives the string back. *)
Lemma Join_Split s sep :
  GoStrings.Join (GoStrings.Split s sep) (String sep "") = s.
Proof.
  induction s as [|c s IH]; [reflexivity|].
  cbn [GoStrings.Split].
  pose proof (Split_nonempty s sep) as Hne.
  destruct (Ascii.eqb c sep) eqn:E.
  - apply Ascii.eqb_eq in E. subst c.
    destruct (GoStrings.Split s sep) as [|p ps] eqn:Es; [contradiction|].
    cbn [GoStrings.Join] in *. rewrite IH. reflexivity.
  - destruct (GoStrings.Split s sep) as [|p ps] eqn:Es; [contradiction|].
    destruct ps as [|q ps]; cbn [GoStrings.Join] in *.
    + now rewrite IH.
    + rewrite append_cons, IH. reflexivity.
Qed.

(** Splitting at a separator splits both sides. *)
Lemma Split_append a b sep :
  GoStrings.Split (a +:+ String sep b) sep =
  GoStrings.Split a sep ++ GoStrings.Split b sep.
Proof.
  induction a as [|c a IH]; rewrite ?append_cons, ?append_nil_l;
    cbn [GoStrings.Split].
  - rewrite Ascii.eqb_refl. reflexivity.
  - destruct (Ascii.eqb c sep); [now rewrite IH|].
    rewrite IH. pose proof (Split_nonempty a sep).
    destruct (GoStrings.Split a sep); [contradiction | reflexivity].
Qed.

Lemma Split_sepFree s sep : sepFree sep s -> GoStrings.Split s sep = [s].
Proof.
  unfold sepFree. induction s as [|c s IH]; [reflexivity|].
  cbn [bytes GoStrings.Split]. intros H. inversion H as [|? ? Hc Hs]; subst.
  destruct (Ascii.eqb_spec c sep); [contradiction|].
  now rewrite IH.
Qed.

Lemma Split_single s sep p : GoStrings.Split s sep = [p] -> sepFree sep s.
Proof.
  unfold sepFree. revert p. induction s as [|c s IH]; intros p; [constructor|].
  cbn [GoStrings.Split bytes].
  pose proof (Split_nonempty s sep) as Hne.
  destruct (Ascii.eqb_spec c sep).
  - destruct (GoStrings.Split s sep); [contradiction | discriminate].
  - destruct (GoStrings.Split s sep) as [|q [|q' qs]] eqn:Es;
      [contradiction | | discriminate].
    intros _. constructor; [assumption | now apply (IH q)].
Qed.

Lemma Contains_sep s sep :
  GoStrings.Contains s (String sep "") = false <-> sepFree sep s.
Proof.
  unfold sepFree. induction s as [|c s IH]; cbn [GoStrings.Contains bytes].
  - cbn. split; [constructor | reflexivity].
  - cbn [String.prefix]. destruct (ascii_dec sep c) as [<- | Hne].
    + destruct s; cbn; (split; [discriminate|]); intros H;
        inversion H; congruence.
    + cbn [orb]. rewrite IH. split.
      * intros H. constructor; [congruence | assumption].
      * intros H. now inversion H.
Qed.

Lemma Join_snoc l x sep :
  l <> [] ->
  GoStrings.Join (l ++ [x]) sep = GoStrings.Join l sep +:+ sep +:+ x.
Proof.
  induction l as [|a l IH]; [contradiction|]. intros _.
  destruct l as [|b l]; [reflexivity|].
  change ((a :: b :: l) ++ [x]) with (a :: (b :: l) ++ [x]).
  cbn [GoStrings.Join app]. cbn [GoStrings.Join app] in IH.
  rewrite IH by discriminate.
  destruct (l ++ [x]) eqn:E; [destruct l; discriminate|].
  apply bytes_inj. rewrite !bytes_append, <- !app_assoc. reflexivity.
Qed.

(** The path above [dir/name] is [dir]. *)
Lemma parentPath_child dir name :
  sepFree GoStrings.slash name ->
  parentPath (dir +:+ "/" +:+ name) = dir.
Proof.
  intros Hn. unfold parentPath. cbv zeta.
  change ("/" +:+ name) with (String GoStrings.slash name).
  rewrite Split_append, (Split_sepFree name) by assumption.
  pose proof (Split_nonempty dir GoStrings.slash) as Hne.
  unfold GoInt.len. rewrite length_app. cbn [length].
  destruct (GoStrings.Split dir GoStrings.slash) as [|p ps] eqn:E; [contradiction|].
  replace (_ >? 1) with true.
  2:{ symmetry. cbn [length]. apply Z.gtb_lt. lia. }
  replace (length (p :: ps) + 1 - 1)%nat with (length (p :: ps)) by lia.
  rewrite take_app_length. rewrite <- E. apply Join_Split.
Qed.

Lemma parentPath_root name :
  sepFree GoStrings.slash name -> parentPath name = "".
Proof.
  intros Hn. unfold parentPath. rewrite Split_sepFree by assumption.
  reflexivity.
Qed.

Lemma parentPath_keyUnder cp name :
  sepFree GoStrings.slash name -> parentPath (keyUnder cp name) = cp.
Proof.
  intros Hn. unfold keyUnder.
  destruct (String.eqb_spec cp ""); cbn [negb].
  - subst. now apply parentPath_root.
  - now apply parentPath_child.
Qed.

Lemma take_element_app r rest :
  Forall (fun c => c <> GoStrings.slash) r ->
  GoStrings.take_element (r ++ GoStrings.slash :: rest) = r.
Proof.
  induction 1 as [|c r Hc _ IH]; cbn.
  - reflexivity.
  - unfold GoStrings.is_slash. destruct (Ascii.eqb_spec c GoStrings.slash);
      [contradiction|]. now rewrite IH.
Qed.

Lemma take_element_all r :
  Forall (fun c => c <> GoStrings.slash) r -> GoStrings.take_element r = r.
Proof.
  induction 1 as [|c r Hc _ IH]; cbn; [reflexivity|].
  unfold GoStrings.is_slash. destruct (Ascii.eqb_spec c GoStrings.slash);
    [contradiction|]. now rewrite IH.
Qed.

Lemma drop_slashes_head c r :
  c <> GoStrings.slash -> GoStrings.drop_slashes (c :: r) = c :: r.
Proof.
  intros H. cbn. unfold GoStrings.is_slash.
  destruct (Ascii.eqb_spec c GoStrings.slash); [contradiction | reflexivity].
Qed.

(** The base name of a key that ends with a name. *)
Lemma Base_name name :
  name <> "" -> sepFree GoStrings.slash name -> GoStrings.Base name = name.
Proof.
  intros Hne Hs. unfold GoStrings.Base. destruct name as [|c s]; [contradiction|].
  unfold sepFree in Hs. apply Forall_rev in Hs.
  destruct (rev (bytes (String c s))) as [|x r] eqn:E.
  { apply (f_equal (@length _)) in E. rewrite length_rev in E. discriminate. }
  rewrite drop_slashes_head by (now inversion Hs).
  rewrite take_element_all by assumption.
  rewrite <- E, rev_involutive.
  apply string_of_list_ascii_of_string.
Qed.

Lemma Base_child dir name :
  name <> "" -> sepFree GoStrings.slash name ->
  GoStrings.Base (dir +:+ "/" +:+ name) = name.
Proof.
  intros Hne Hs. unfold GoStrings.Base.
  destruct (dir +:+ "/" +:+ name) as [|c0 s0] eqn:Ed.
  { apply (f_equal String.length) in Ed. rewrite !string_length_append in Ed.
    cbn in Ed. lia. }
  rewrite <- Ed. clear Ed c0 s0.
  rewrite !bytes_append, !rev_app_distr. cbn [bytes rev app].
  rewrite <- app_assoc. cbn [app].
  unfold sepFree in Hs. apply Forall_rev in Hs.
  destruct (rev (bytes name)) as [|x r] eqn:E.
  { apply (f_equal (@length _)) in E. rewrite length_rev in E.
    destruct name; [contradiction | discriminate]. }
  change ((x :: r) ++ "/"%char :: rev (bytes dir))
    with (x :: (r ++ "/"%char :: rev (bytes dir))).
  rewrite drop_slashes_head by (now inversion Hs).
  change (x :: (r ++ "/"%char :: rev (bytes dir)))
    with ((x :: r) ++ GoStrings.slash :: rev (bytes dir)).
  rewrite take_element_app by assumption.
  rewrite <- E, rev_involutive.
  apply string_of_list_ascii_of_string.
Qed.

(** The key [renameFile] renames to, written out. *)
Lemma renamedKey_unfold oldKey newFilename :
  renamedKey oldKey newFilename =
  if GoStrings.Contains oldKey "/"
  then parentPath oldKey +:+ "/" +:+ newFilename
  else newFilename.
Proof.
  unfold renamedKey. destruct (GoStrings.Contains oldKey "/") eqn:E; [|reflexivity].
  cbv zeta. unfold parentPath. cbv zeta.
  assert (Hlen : (2 <= length (GoStrings.Split oldKey GoStrings.slash))%nat).
  { destruct (GoStrings.Split oldKey GoStrings.slash) as [|p [|q ps]] eqn:Es.
    - now apply Split_nonempty in Es.
    - apply Split_single, Contains_sep in Es.
      change (String GoStrings.slash "") with "/" in Es. congruence.
    - cbn. lia. }
  replace (GoInt.len _ >? 1) with true
    by (symmetry; apply Z.gtb_lt; unfold GoInt.len; lia).
  apply Join_snoc.
  intros Ht. apply (f_equal (@length _)) in Ht. rewrite length_take in Ht.
  cbn in Ht. lia.
Qed.

End PathFacts.

Section Navigation.

Lemma index_Some_pos {A} (xs : list A) i x :
  index xs i = Some x -> (GoInt.len xs >? 0) = true.
Proof.
  intros H. apply index_Some_len in H. apply Z.gtb_lt. lia.
Qed.

Lemma keyUnder_nonempty cp name : name <> "" -> keyUnder cp name <> "".
Proof.
  unfold keyUnder. destruct (String.eqb_spec cp ""); cbn [negb]; [auto|].
  intros _ H. apply (f_equal String.length) in H.
  rewrite !string_length_append in H. cbn in H. lia.
Qed.

(** X1. Entering a directory and going back returns to where one was.
    With the cursor on a directory whose key is its name under the
    current path, [enter] makes that key the current path and lists it,
    and [backspace] from there makes the path the earlier one again and
    lists it; both empty the statistics cache. *)
Theorem enter_then_back (m : Model) (d : S3Object) (name : string) :
  index (objects m) (cursor m) = Some d ->
  IsDir d = true ->
  Key d = keyUnder (currentPath m) name ->
  name <> "" ->
  GoStrings.Contains name "/" = false ->
  exists m1 m2,
    updateBrowser m "enter" = Next m1 (loadObjects m1) /\
    currentPath m1 = Key d /\ dirStatsCache m1 = ∅ /\
    updateBrowser m1 "backspace" = Next m2 (loadObjects m2) /\
    currentPath m2 = currentPath m /\ dirStatsCache m2 = ∅ /\
    objects m2 = objects m /\ cursor m2 = cursor m.
Proof.
  intros Hi Hd Hk Hne Hs.
  apply (Contains_sep name GoStrings.slash) in Hs.
  eexists _, _. unfold updateBrowser at 1. switch_on_key.
  rewrite (index_Some_pos _ _ _ Hi), Hi, Hd. cbv zeta.
  split; [reflexivity|]. split; [reflexivity|]. split; [reflexivity|].
  unfold updateBrowser. switch_on_key.
  cbn [currentPath set_currentPath set_loading set_dirStatsCache].
  destruct (String.eqb_spec (Key d) "") as [E|_].
  { exfalso. rewrite Hk in E. now apply keyUnder_nonempty in E. }
  cbn [negb]. cbv zeta.
  split; [reflexivity|]. split; [|split; [reflexivity|split; reflexivity]].
  cbn [currentPath set_currentPath set_loading set_dirStatsCache].
  rewrite Hk. now apply parentPath_keyUnder.
Qed.

(** X2. A rename keeps the file in its directory. The key [renameFile]
    renames to lies in the directory of the old key and its base name is
    the name entered, when that name is not empty and holds no
    separator. *)
Theorem rename_keeps_directory (oldKey newFilename : string) :
  newFilename <> "" ->
  GoStrings.Contains newFilename "/" = false ->
  parentPath (renamedKey oldKey newFilename) = parentPath oldKey /\
  GoStrings.Base (renamedKey oldKey newFilename) = newFilename.
Proof.
  intros Hne Hs. apply (Contains_sep newFilename GoStrings.slash) in Hs.
  rewrite renamedKey_unfold.
  destruct (GoStrings.Contains oldKey "/") eqn:E.
  - split; [now apply parentPath_child | now apply Base_child].
  - apply (Contains_sep oldKey GoStrings.slash) in E.
    rewrite !parentPath_root by assumption.
    split; [reflexivity | now apply Base_name].
Qed.

End Navigation.

(* ===================================================================== *)
(** * Further properties: the storage client and its commands             *)
(* ===================================================================== *)

Section ClientFacts.

Context {Remote : Type} (svc : Service Remote).

Lemma HasSuffix_append a b : GoStrings.HasSuffix (a +:+ b) b = true.
Proof.
  unfold GoStrings.HasSuffix. rewrite string_length_append.
  replace (String.length a + String.length b - String.length b)%nat
    with (String.length a) by lia.
  rewrite substring_tail, String.eqb_refl.
  destruct (Nat.leb_spec (String.length b) (String.length a + String.length b));
    [reflexivity | lia].
Qed.

Lemma ListObjects_logs (bucket prefix : string) (w : World Remote) :
  calls (ListObjects svc bucket prefix w).2 =
  calls w ++ [CallList bucket prefix "/"].
Proof.
  unfold ListObjects, callList, bind, ret.
  destruct (sdkListObjectsV2 svc (remote w) bucket prefix "/") as [r [e|out]];
    reflexivity.
Qed.

Lemma directories_spec prefixes o :
  In o (directories prefixes) <->
  exists p, In p prefixes /\ GoStrings.TrimSuffix p "/" <> "" /\
            o = mkS3Object (GoStrings.TrimSuffix p "/") 0 "" true.
Proof.
  induction prefixes as [|p ps IH]; cbn [directories In].
  - split; [contradiction | intros (? & [] & _)].
  - cbv zeta. destruct (String.eqb_spec (GoStrings.TrimSuffix p "/") "") as [E|E].
    + rewrite IH. split.
      * intros (q & Hq & H). exists q. auto.
      * intros (q & [<- | Hq] & Hne & ->); [contradiction|]. eauto.
    + cbn [In]. rewrite IH. split.
      * intros [<- | (q & Hq & H)]; [exists p; auto | exists q; auto].
      * intros (q & [<- | Hq] & Hne & ->); [now left | right; eauto].
Qed.

Lemma files_spec contents o :
  In o (files contents) <->
  exists c, In c contents /\ GoStrings.HasSuffix (cKey c) "/" = false /\
            o = mkS3Object (cKey c) (cSize c) (cLastModified c) false.
Proof.
  induction contents as [|c cs IH]; cbn [files In].
  - split; [contradiction | intros (? & [] & _)].
  - destruct (GoStrings.HasSuffix (cKey c) "/") eqn:E.
    + rewrite IH. split.
      * intros (q & Hq & H). exists q. auto.
      * intros (q & [<- | Hq] & Hne & ->); [congruence|]. eauto.
    + cbn [In]. rewrite IH. split.
      * intros [<- | (q & Hq & H)]; [exists c; auto | exists q; auto].
      * intros (q & [<- | Hq] & Hne & ->); [now left | right; eauto].
Qed.

(** X3. [ListObjects] sends one request, for the bucket and the prefix
    with the delimiter ["/"]. When the service fails, the error is wrapped
    and no object is returned. Otherwise the directories come first: those
    of the common prefixes that are more than a separator, each under its
    prefix less the trailing separator, and no other; the files follow:
    those of the objects whose key does not end in a separator, and no
    other. A directory marker is never listed as a file, and no directory
    has an empty key. *)
Theorem ListObjects_result (bucket prefix : string) (w : World Remote) :
  let '(result, w') := ListObjects svc bucket prefix w in
  calls w' = calls w ++ [CallList bucket prefix "/"] /\
  match result with
  | inl e => exists cause, e = ErrWrap "failed to list objects" cause
  | inr objs =>
      exists out dirs fs,
        sdkListObjectsV2 svc (remote w) bucket prefix "/" = (remote w', inr out) /\
        objs = dirs ++ fs /\
        (forall o, In o dirs <->
           exists p, In p (CommonPrefixes out) /\
                     GoStrings.TrimSuffix p "/" <> "" /\
                     o = mkS3Object (GoStrings.TrimSuffix p "/") 0 "" true) /\
        (forall o, In o fs <->
           exists c, In c (Contents out) /\
                     GoStrings.HasSuffix (cKey c) "/" = false /\
                     o = mkS3Object (cKey c) (cSize c) (cLastModified c) false)
  end.
Proof.
  unfold ListObjects, callList, bind, ret.
  destruct (sdkListObjectsV2 svc (remote w) bucket prefix "/") as [r [e|out]] eqn:E.
  - split; [reflexivity|]. eauto.
  - split; [reflexivity|]. exists out, (directories (CommonPrefixes out)),
      (files (Contents out)).
    split; [reflexivity|]. split; [reflexivity|].
    split; [apply directories_spec | apply files_spec].
Qed.

End ClientFacts.

Section CommandFacts.

Context {Remote : Type} (svc : Service Remote).
Variable sortSlice : forall A : Type, (A -> A -> bool) -> list A -> list A.
Variable filepath_Dir : string -> string.
Variable filepath_Join : string -> string -> string.
Variable utf8_RuneCountInString : string -> Z.

Local Abbreviation Update :=
  (Update filepath_Dir filepath_Join utf8_RuneCountInString).

Lemma prefix_append a b : String.prefix a (a +:+ b) = true.
Proof. apply String.prefix_correct, substring_head. Qed.

Lemma listingPrefix_shape path :
  String.prefix path (listingPrefix path) = true /\
  (path = "" /\ listingPrefix path = "" \/
   path <> "" /\ GoStrings.HasSuffix (listingPrefix path) "/" = true).
Proof.
  unfold listingPrefix.
  destruct (String.eqb_spec path "") as [-> | Hne]; cbn [negb andb].
  - split; [reflexivity | now left].
  - destruct (GoStrings.HasSuffix path "/") eqn:E; cbn [negb].
    + split; [|now right].
      rewrite <- (substring_whole path) at 1.
      apply String.prefix_correct.
      now rewrite substring_whole, substring_whole.
    + split; [apply prefix_append | right; split; [assumption|]].
      apply HasSuffix_append.
Qed.

(** X4. [loadObjects] sends one request: a listing of the bucket with the
    delimiter ["/"] under the current path closed by one separator, or
    under the empty prefix at the root. Its message carries the entries
    [ListObjects] returned, every one of them once, or the error and no
    entry. *)
Theorem loadObjects_request (m : Model) (w : World Remote) :
  sortsSlices sortSlice ->
  let prefix := listingPrefix (currentPath m) in
  let '(msg, w') := runLoadObjects svc sortSlice m w in
  calls w' = calls w ++ [CallList (bucket m) prefix "/"] /\
  String.prefix (currentPath m) prefix = true /\
  (currentPath m = "" /\ prefix = "" \/
   currentPath m <> "" /\ GoStrings.HasSuffix prefix "/" = true) /\
  exists result,
    ListObjects svc (bucket m) prefix w = (result, w') /\
    match result with
    | inl e => msg = objectsLoadedMsg [] (Some e)
    | inr listed =>
        exists objs, msg = objectsLoadedMsg objs None /\ Permutation objs listed
    end.
Proof.
  intros Hsort prefix.
  destruct (listingPrefix_shape (currentPath m)) as [Hp Hs].
  unfold runLoadObjects, bind. fold prefix.
  pose proof (ListObjects_logs svc (bucket m) prefix w) as Hc.
  destruct (ListObjects svc (bucket m) prefix w) as [result w'] eqn:E.
  cbn [snd] in Hc.
  destruct result as [e | listed]; unfold ret.
  - split; [assumption|]. split; [assumption|]. split; [assumption|].
    eexists. split; reflexivity.
  - split; [assumption|]. split; [assumption|]. split; [assumption|].
    eexists. split; [reflexivity|]. eexists. split; [reflexivity|].
    apply Hsort, objectLess_order.
Qed.

Lemma append_assoc a b c : (a +:+ b) +:+ c = a +:+ (b +:+ c).
Proof.
  apply bytes_inj. rewrite !bytes_append. symmetry. apply app_assoc.
Qed.

Lemma Contains_append_r a b sub :
  GoStrings.Contains b sub = true -> GoStrings.Contains (a +:+ b) sub = true.
Proof.
  intros H. induction a as [|c a IH]; rewrite ?append_cons, ?append_nil_l;
    [assumption|].
  cbn [GoStrings.Contains]. rewrite IH. apply orb_true_r.
Qed.


(** X6. A delete from the key to the listing. With the cursor on a file,
    [x] opens the confirmation and sends nothing; [y] there dispatches
    [deleteFile] for the key of that file. The command sends one request,
    the deletion of that key in the bucket. When it succeeds, [Update]
    shows the base name as deleted and lists the path again; when it
    fails, [Update] sets the wrapped error, shows no status message and
    does not list again. *)
Theorem delete_end_to_end (m : Model) (f : S3Object) (w : World Remote) :
  viewMode m = ViewBrowser ->
  index (objects m) (cursor m) = Some f ->
  IsDir f = false ->
  exists m1 m2 mc,
    Update m (KeyMsg "x") = Next m1 CmdNone /\
    viewMode m1 = ViewConfirm /\
    Update m1 (KeyMsg "y") = Next m2 (deleteFile mc (Key f)) /\
    viewMode m2 = ViewBrowser /\ bucket mc = bucket m /\
    let '(msg, w') := runDeleteFile svc mc (Key f) w in
    calls w' = calls w ++ [CallDelete (bucket m) (Key f)] /\
    exists m3 cmd,
      Update m2 msg = Next m3 cmd /\
      match sdkDeleteObject svc (remote w) (bucket m) (Key f) with
      | (_, None) =>
          err m3 = None /\
          statusMessage m3 =
            "✓ Deleted '" +:+ GoStrings.Base (Key f) +:+ "' successfully" /\
          cmd = loadObjects m3
      | (_, Some cause) =>
          err m3 = Some (ErrWrap "failed to delete object" cause) /\
          statusMessage m3 = "" /\ cmd = CmdNone
      end.
Proof.
  intros Hv Hi Hf.
  eexists _, _, _. cbn [Tui.Update]. rewrite Hv.
  unfold updateBrowser. switch_on_key.
  rewrite (index_Some_pos _ _ _ Hi), Hi, Hf. cbn [negb]. cbv zeta.
  split; [reflexivity|]. split; [reflexivity|].
  cbn [viewMode set_viewMode set_statusMessage set_err].
  unfold updateConfirm. switch_on_key. cbv zeta.
  cbn [confirmAction confirmTarget set_confirmAction set_confirmTarget
       set_viewMode set_loading set_statusMessage set_err].
  change (String.eqb "delete" "delete") with true. cbv iota.
  split; [reflexivity|]. split; [reflexivity|]. split; [reflexivity|].
  unfold runDeleteFile, DeleteObject, callDelete, bind, ret.
  cbn [bucket set_viewMode set_loading set_statusMessage set_err
       set_confirmAction set_confirmTarget].
  destruct (sdkDeleteObject svc (remote w) (bucket m) (Key f)) as [r [cause|]].
  - split; [reflexivity|]. eexists _, _. split; [reflexivity|].
    split; [reflexivity|]. split; reflexivity.
  - split; [reflexivity|]. eexists _, _. split; [reflexivity|].
    split; [reflexivity|]. split; reflexivity.
Qed.

End CommandFacts.

(* ===================================================================== *)
(** * Further properties: the browser and its dialogs                     *)
(* ===================================================================== *)

(** Take the tests of a transition apart. *)
Ltac take_apart :=
  repeat first
    [ split_if
    | match goal with
      | |- context [match ?x with Some _ => _ | None => _ end] =>
          lazymatch x with
          | context [if _ then _ else _] => fail
          | _ => destruct x eqn:?
          end
      end ].

(** Case on every test of a switch on a key that is not known. *)
Ltac any_key key :=
  repeat match goal with
         | |- context [keyIs key ?l] => destruct (keyIs key l) eqn:?
         end.

(** Read the fields of a model that was built by assignments. *)
Ltac fields :=
  cbn [bucket currentPath objects cursor viewMode previewContent
       previewFileName previewLines previewScroll previewWidth localItems
       localPath err statusMessage loading width height yankedFiles
       renameInput renameOriginal renameCursor scrollOffset confirmAction
       confirmTarget confirmData dirStatsCache
       set_bucket set_currentPath set_objects set_cursor set_viewMode
       set_previewContent set_previewFileName set_previewLines
       set_previewScroll set_previewWidth set_localItems set_localPath
       set_err set_statusMessage set_loading set_width set_height
       set_yankedFiles set_renameInput set_renameOriginal set_renameCursor
       set_scrollOffset set_confirmAction set_confirmTarget set_confirmData
       set_dirStatsCache] in *.

Section BrowserFacts.

Variable filepath_Dir : string -> string.
Variable filepath_Join : string -> string -> string.
Variable utf8_RuneCountInString : string -> Z.

Local Abbreviation Update :=
  (Update filepath_Dir filepath_Join utf8_RuneCountInString).
Local Abbreviation reachable :=
  (reachable filepath_Dir filepath_Join utf8_RuneCountInString).

Lemma cursorInRange_arith m :
  cursorInRange m <->
  (GoInt.len (objects m) = 0 /\ cursor m = 0) \/
  0 <= cursor m < GoInt.len (objects m).
Proof.
  unfold cursorInRange, GoInt.len. split.
  - intros [[-> ->] | H]; [left; split; reflexivity | now right].
  - intros [[H ->] | H]; [left | now right].
    destruct (objects m); [split; reflexivity | cbn in H; lia].
Qed.

Lemma index_in_range {A} (xs : list A) i :
  0 <= i < GoInt.len xs -> exists x, index xs i = Some x.
Proof.
  intros H. unfold index. destruct (Z.leb_spec 0 i); [|lia].
  apply lookup_lt_is_Some_2. unfold GoInt.len in H. lia.
Qed.

Lemma zero_in_range {A} (xs : list A) :
  xs = [] /\ 0 = 0 \/ 0 <= 0 < GoInt.len xs.
Proof.
  destruct xs; [left; split; reflexivity | right].
  unfold GoInt.len. cbn [length]. lia.
Qed.

(** A key in the browser, from a model whose cursor is within the
    listing. *)
Lemma browser_key_in_range m key :
  cursorInRange m ->
  GoInt.len (objects m) + availableHeight m <= GoInt.max_int ->
  exists m' cmd,
    updateBrowser m key = Next m' cmd /\ cursorInRange m' /\
    objects m' = objects m.
Proof.
  intros Hc Ho. apply cursorInRange_arith in Hc.
  pose proof (availableHeight_bounds m) as Hb.
  pose proof (pageSize_bounds m) as Hp.
  pose proof (len_nonneg (objects m)) as Hn.
  assert (Hidx : (GoInt.len (objects m) >? 0) = true ->
                 exists x, index (objects m) (cursor m) = Some x).
  { intros H. apply index_in_range. apply Z.gtb_lt in H. lia. }
  assert (Hdone : forall m1 cmd,
            objects m1 = objects m ->
            (GoInt.len (objects m) = 0 /\ cursor m1 = 0 \/
             0 <= cursor m1 < GoInt.len (objects m)) ->
            exists m' cmd',
              Next m1 cmd = Next m' cmd' /\ cursorInRange m' /\
              objects m' = objects m).
  { intros m1 cmd E H. exists m1, cmd. split; [reflexivity|].
    split; [|assumption]. apply cursorInRange_arith. now rewrite E. }
  unfold GoInt.max_int in Ho. change (2 ^ 63) with 9223372036854775808 in Ho.
  unfold updateBrowser, uploadFilePrompt. any_key key; cbv zeta;
    try (destruct (GoInt.len (objects m) >? 0) eqn:Hpos;
         [destruct (Hidx eq_refl) as [sel Hsel]; rewrite ?Hsel | ]);
    take_apart;
    (apply Hdone;
     [ rewrite ?updateScroll_objects; reflexivity
     | rewrite ?updateScroll_cursor; fields; int_unfold; bool_to_prop;
       wrap_facts; lia ]).
Qed.

(** X7. In the browser the cursor stays within the listing. From a model
    in the browser whose cursor is on an entry of the listing, or at zero
    when the listing is empty, no message makes [Update] panic, and the
    cursor is within the listing afterwards. (The listing is shorter than
    the largest [int] by a screen.) *)
Theorem browser_cursor_stays_in_range (m : Model) (msg : Msg) :
  viewMode m = ViewBrowser ->
  cursorInRange m ->
  GoInt.len (objects m) + availableHeight m <= GoInt.max_int ->
  exists m' cmd, Update m msg = Next m' cmd /\ cursorInRange m'.
Proof.
  intros Hv Hc Ho.
  destruct msg; cbn [Tui.Update]; cbv zeta;
    try (rewrite Hv;
         destruct (browser_key_in_range m key Hc Ho) as (m' & cmd & E & H & _);
         eauto);
    take_apart; eexists _, _; (split; [reflexivity|]);
    try exact Hc.
  all: unfold cursorInRange; fields; apply zero_in_range.
Qed.

End BrowserFacts.

Section YankFacts.

Lemma updateScroll_yankedFiles m :
  yankedFiles (updateScroll m) = yankedFiles m.
Proof. rewrite updateScroll_frame. reflexivity. Qed.

Lemma yankedIndex_None key ys :
  yankedIndex key ys = None <-> ~ In key ys.
Proof.
  induction ys as [|y ys IH]; cbn [yankedIndex In]; [tauto|].
  destruct (String.eqb_spec y key) as [-> | Hne].
  - split; [discriminate | tauto].
  - destruct (yankedIndex key ys); cbn [option_map].
    + split; [discriminate|]. intros H. exfalso. apply H. right.
      destruct IH as [IH1 IH2].
      destruct (in_dec string_dec key ys) as [Hin | Hn]; [assumption|].
      now specialize (IH2 Hn).
    + split; [|reflexivity]. intros _ [E | Hin]; [congruence|].
      now apply IH in Hin.
Qed.

Lemma yankedIndex_Some key ys i :
  yankedIndex key ys = Some i ->
  ys = take i ys ++ key :: drop (S i) ys.
Proof.
  revert i. induction ys as [|y ys IH]; intros i; cbn [yankedIndex];
    [discriminate|].
  destruct (String.eqb_spec y key) as [-> | Hne].
  - intros [= <-]. cbn. now rewrite drop_0.
  - destruct (yankedIndex key ys) as [j|]; cbn [option_map]; [|discriminate].
    intros [= <-]. cbn [take drop app]. f_equal. now apply IH.
Qed.

(** X8. [y] toggles the mark on a file. With the cursor on a file whose
    key is not yanked, the key is yanked afterwards; with the cursor on a
    file whose key is yanked, it is not yanked afterwards; the mark of no
    other key changes, and no key is yanked twice. The cursor moves to the
    next entry unless it is on the last. Nothing is dispatched. On a
    directory [y] changes nothing. *)
Theorem yank_toggles (m : Model) (f : S3Object) :
  index (objects m) (cursor m) = Some f ->
  NoDup (yankedFiles m) ->
  GoInt.len (objects m) <= GoInt.max_int ->
  if IsDir f then (updateBrowser m "y" = Next m CmdNone)
  else
    (exists m',
       updateBrowser m "y" = Next m' CmdNone /\
       (In (Key f) (yankedFiles m') <-> ~ In (Key f) (yankedFiles m)) /\
       (forall k, k <> Key f ->
                  In k (yankedFiles m') <-> In k (yankedFiles m)) /\
       NoDup (yankedFiles m') /\
       objects m' = objects m /\
       cursor m' = Z.min (cursor m + 1) (GoInt.len (objects m) - 1)).
Proof.
  intros Hi Hnd Hlen.
  pose proof (index_Some_len _ _ _ Hi) as Hc.
  unfold updateBrowser. switch_on_key.
  rewrite (index_Some_pos _ _ _ Hi), Hi.
  destruct (IsDir f); cbn [negb]; [reflexivity|]. cbv zeta.
  set (m1 := match yankedIndex (Key f) (yankedFiles m) with
             | Some i => set_yankedFiles (removeAt i (yankedFiles m)) m
             | None => set_yankedFiles (yankedFiles m ++ [Key f]) m
             end).
  assert (H1 : objects m1 = objects m /\ cursor m1 = cursor m).
  { subst m1. destruct (yankedIndex _ _); split; reflexivity. }
  destruct H1 as [Eo Ec].
  assert (Hy : (In (Key f) (yankedFiles m1) <-> ~ In (Key f) (yankedFiles m)) /\
               (forall k, k <> Key f ->
                          In k (yankedFiles m1) <-> In k (yankedFiles m)) /\
               NoDup (yankedFiles m1)).
  { subst m1. destruct (yankedIndex (Key f) (yankedFiles m)) as [i|] eqn:Ey.
    - apply yankedIndex_Some in Ey. cbn [yankedFiles set_yankedFiles].
      unfold removeAt. rewrite Ey in Hnd.
      apply NoDup_ListNoDup, List.NoDup_remove in Hnd.
      destruct Hnd as [Hnd Hnot]. apply NoDup_ListNoDup in Hnd.
      split; [|split; [|exact Hnd]].
      + split; [contradiction|]. intros Hn. exfalso. apply Hn.
        rewrite Ey. apply in_elt.
      + intros k Hk. rewrite Ey at 3. rewrite !in_app_iff. cbn [In].
        intuition congruence.
    - apply yankedIndex_None in Ey. cbn [yankedFiles set_yankedFiles].
      split; [|split].
      + rewrite in_app_iff. cbn. tauto.
      + intros k Hk. rewrite in_app_iff. cbn. intuition congruence.
      + apply NoDup_app. split; [assumption|].
        split; [|apply NoDup_singleton].
        intros k Hk Hin. apply list_elem_of_singleton in Hin. subst k.
        apply Ey. now apply list_elem_of_In. }
  clearbody m1.
  unfold GoInt.max_int in Hlen. change (2 ^ 63) with 9223372036854775808 in Hlen.
  cbn [cursor objects set_err]. rewrite Eo, Ec.
  destruct (cursor m <? GoInt.len (objects m) -! 1) eqn:E;
    eexists; (split; [reflexivity|]);
    rewrite ?updateScroll_yankedFiles, ?updateScroll_objects,
      ?updateScroll_cursor; fields; rewrite ?Eo, ?Ec;
    (split; [apply Hy|]); (split; [apply Hy|]); (split; [apply Hy|]);
    (split; [reflexivity|]);
    int_unfold; bool_to_prop; wrap_facts; lia.
Qed.

End YankFacts.

Section DispatchFacts.

Variable filepath_Dir : string -> string.
Variable filepath_Join : string -> string -> string.
Variable utf8_RuneCountInString : string -> Z.

Local Abbreviation Update :=
  (Update filepath_Dir filepath_Join utf8_RuneCountInString).
Local Abbreviation reachable :=
  (reachable filepath_Dir filepath_Join utf8_RuneCountInString).

Lemma statsCommands_spec m c :
  In c (statsCommands m) <->
  exists o, In o (objects m) /\ IsDir o = true /\
            dirStatsCache m !! Key o = None /\
            c = calculateDirStats m (Key o).
Proof.
  unfold statsCommands. rewrite <- list_elem_of_In, list_elem_of_omap.
  split.
  - intros (o & Ho & E). exists o. apply list_elem_of_In in Ho.
    destruct (IsDir o); [|discriminate].
    destruct (dirStatsCache m !! Key o); [discriminate|].
    injection E as <-. auto.
  - intros (o & Ho & Hd & Hn & ->). exists o. apply list_elem_of_In in Ho.
    now rewrite Hd, Hn.
Qed.

Lemma requests_Batch l :
  (forall c, In c l -> requests c = [c]) -> requests (Batch l) = l.
Proof.
  cbn [requests]. induction l as [|c l IH]; intros H; [reflexivity|].
  rewrite (H c) by now left. cbn [app]. f_equal. apply IH.
  intros c' Hc'. apply H. now right.
Qed.

Lemma requests_stats m c :
  In c (requests (Batch (statsCommands m))) <-> In c (statsCommands m).
Proof.
  rewrite requests_Batch; [reflexivity|].
  intros c' Hc'. apply statsCommands_spec in Hc'.
  destruct Hc' as (o & _ & _ & _ & ->). reflexivity.
Qed.

(** X9. A fresh listing asks for the statistics that are missing. When a
    listing arrives, [Update] takes it as the listing, puts the cursor and
    the window at its start, and dispatches [calculateDirStats] for each
    directory of the listing that has no record in the statistics cache,
    and nothing else: none for a file, none for a directory whose record
    is cached. *)
Theorem listing_asks_for_missing_stats (m : Model) (objs : list S3Object) :
  exists m' cmd,
    Update m (objectsLoadedMsg objs None) = Next m' cmd /\
    objects m' = objs /\ cursor m' = 0 /\ scrollOffset m' = 0 /\
    loading m' = false /\ err m' = None /\
    dirStatsCache m' = dirStatsCache m /\
    forall c,
      In c (requests cmd) <->
      exists o, In o objs /\ IsDir o = true /\
                dirStatsCache m !! Key o = None /\
                c = calculateDirStats m' (Key o).
Proof.
  cbn [Tui.Update]. cbv zeta.
  set (m1 := set_err None (set_scrollOffset 0 (set_cursor 0
               (set_objects objs (set_loading false m))))).
  destruct (GoInt.len (statsCommands m1) >? 0) eqn:E;
    eexists _, _; (split; [reflexivity|]); do 6 (split; [reflexivity|]);
    intros c.
  - rewrite requests_stats. exact (statsCommands_spec m1 c).
  - etransitivity; [|exact (statsCommands_spec m1 c)].
    destruct (statsCommands m1); [reflexivity|].
    unfold GoInt.len in E. cbn [length] in E. rewrite Z.gtb_ltb in E.
    apply Z.ltb_ge in E. lia.
Qed.

Lemma requests_leaf cmd c :
  In c (requests cmd) -> needsConfirmation c = true ->
  (forall l, cmd <> Batch l) -> cmd = c.
Proof.
  destruct cmd; cbn [requests In]; try tauto; try (intros [H|[]]; auto).
  intros _ _ H. exfalso. eapply H. reflexivity.
Qed.

(** X10. Nothing is deleted, downloaded or uploaded without a
    confirmation. Whenever [Update] dispatches [deleteFile],
    [downloadFile] or [uploadFile], alone or in a batch, the model was in
    the confirmation dialog, the message was one of its accepting keys,
    and the command is the one the dialog was opened for, on its
    target. *)
Theorem destructive_commands_are_confirmed
    (m : Model) (msg : Msg) (m' : Model) (cmd c : Cmd) :
  Update m msg = Next m' cmd ->
  In c (requests cmd) ->
  needsConfirmation c = true ->
  viewMode m = ViewConfirm /\
  exists key,
    msg = KeyMsg key /\ keyIs key ["y"; "Y"; "enter"] = true /\ cmd = c /\
    let mc := set_loading true (set_viewMode ViewBrowser m) in
    (confirmAction m = "delete" /\ c = deleteFile mc (confirmTarget m) \/
     confirmAction m = "download" /\ c = downloadFile mc (confirmTarget m) \/
     confirmAction m = "upload" /\
       exists fullPath, confirmData m = Some fullPath /\
                        c = uploadFile mc fullPath).
Proof.
  intros E Hin Hc.
  assert (Hstats : forall m1, In c (requests (Batch (statsCommands m1))) -> False).
  { intros m1 H. apply requests_stats, statsCommands_spec in H.
    destruct H as (o & _ & _ & _ & ->). discriminate Hc. }
  assert (Hleaf : forall x, In c (requests x) -> (forall l, x <> Batch l) ->
                            x = c).
  { intros x H Hx. now apply requests_leaf. }
  destruct msg; revert E; cbn [Tui.Update]; cbv zeta;
    try (take_apart; intros [= <- <-];
         solve [ destruct Hin | discriminate Hc
               | exfalso; eapply Hstats; eassumption
               | apply Hleaf in Hin; [subst c; discriminate Hc | discriminate] ]).
  destruct (viewMode m) eqn:Hv.
  - unfold updateBrowser, uploadFilePrompt. any_key key; cbv zeta; take_apart;
      try discriminate; intros [= <- <-];
      solve [ destruct Hin
            | apply Hleaf in Hin; [subst c; discriminate Hc | discriminate] ].
  - unfold updatePreview. any_key key; cbv zeta; take_apart;
      intros [= <- <-];
      solve [ destruct Hin
            | apply Hleaf in Hin; [subst c; discriminate Hc | discriminate] ].
  - unfold updateHelp. any_key key; intros [= <- <-];
      solve [ destruct Hin
            | apply Hleaf in Hin; [subst c; discriminate Hc | discriminate] ].
  - unfold updateUpload. any_key key; cbv zeta; take_apart;
      try discriminate; intros [= <- <-];
      solve [ destruct Hin
            | apply Hleaf in Hin; [subst c; discriminate Hc | discriminate] ].
  - unfold updateRename. any_key key; cbv zeta; take_apart;
      try discriminate; intros [= <- <-];
      solve [ destruct Hin
            | apply Hleaf in Hin; [subst c; discriminate Hc | discriminate] ].
  - intros E. split; [reflexivity|]. exists key. split; [reflexivity|].
    revert E Hin. unfold updateConfirm. any_key key; cbv zeta;
      try (intros [= <- <-] Hin;
           solve [ destruct Hin
                 | apply Hleaf in Hin; [subst c; discriminate Hc | discriminate] ]).
    fields.
    destruct (String.eqb_spec (confirmAction m) "delete") as [Ea|_];
      [|destruct (String.eqb_spec (confirmAction m) "download") as [Ea|_];
        [|destruct (String.eqb_spec (confirmAction m) "upload") as [Ea|_];
          [destruct (confirmData m) as [p|] eqn:Ed|]]];
      intros [= <- <-] Hin; try (destruct Hin; fail);
      destruct Hin as [<- | []]; (split; [reflexivity|]);
      (split; [reflexivity|]); eauto 10.
Qed.

Lemma updateScroll_confirm m :
  viewMode (updateScroll m) = viewMode m /\
  confirmAction (updateScroll m) = confirmAction m /\
  confirmData (updateScroll m) = confirmData m.
Proof. rewrite updateScroll_frame. repeat split. Qed.

(** A transition leaves the confirmation dialog with something to
    confirm, or leaves it. *)
Lemma step_keeps_confirmPending m msg m' cmd :
  Update m msg = Next m' cmd ->
  (viewMode m = ViewConfirm -> confirmPending m) ->
  viewMode m' = ViewConfirm -> confirmPending m'.
Proof.
  unfold confirmPending.
  destruct msg; cbn [Tui.Update]; cbv zeta;
    try (take_apart; intros [= <- <-]; fields; (tauto || discriminate)).
  destruct (viewMode m) eqn:Hv.
  - unfold updateBrowser, uploadFilePrompt. any_key key; cbv zeta; take_apart;
      try discriminate; intros [= <- <-];
      rewrite ?(proj1 (updateScroll_confirm _)); fields; rewrite ?Hv;
      first [ discriminate | intros _ _; left; reflexivity
            | intros _ _; right; left; reflexivity ].
  - unfold updatePreview. any_key key; cbv zeta; take_apart;
      intros [= <- <-]; fields; rewrite ?Hv; discriminate.
  - unfold updateHelp. any_key key; intros [= <- <-]; fields; rewrite ?Hv;
      discriminate.
  - unfold updateUpload. any_key key; cbv zeta; take_apart;
      try discriminate; intros [= <- <-]; fields; rewrite ?Hv;
      first [ discriminate | intros _ _; right; right; eauto ].
  - unfold updateRename. any_key key; cbv zeta; take_apart;
      try discriminate; intros [= <- <-]; fields; rewrite ?Hv;
      try discriminate.
    match goal with H : renameEdit _ _ = Some _ |- _ =>
      apply renameEdit_frame in H; rewrite clampRenameCursor_frame, H end.
    fields. rewrite Hv. discriminate.
  - unfold updateConfirm. any_key key; intros [= <- <-]; fields;
      first [ discriminate | tauto ].
Qed.

Lemma reachable_confirmPending m :
  reachable m -> viewMode m = ViewConfirm -> confirmPending m.
Proof.
  induction 1 as [bucket | m msg m' cmd Hr IH _ E]; [discriminate|].
  eapply step_keeps_confirmPending; eassumption.
Qed.

(** X11. The confirmation dialog always has something to confirm. In
    every reachable model that shows the dialog, the dialog was opened for
    a deletion, a download or an upload with its path: its title names
    that action, and each accepting key dispatches the one command for it,
    closes the dialog and empties its state. *)
Theorem confirm_dialog_is_never_idle (m : Model) (key : string) :
  reachable m ->
  viewMode m = ViewConfirm ->
  keyIs key ["y"; "Y"; "enter"] = true ->
  confirmPending m /\
  In (fst (confirmPrompt m))
     ["Confirm Delete"; "Confirm Download"; "Confirm Upload"] /\
  exists m' c,
    Update m (KeyMsg key) = Next m' c /\
    needsConfirmation c = true /\
    viewMode m' = ViewBrowser /\ loading m' = true /\
    confirmAction m' = "" /\ confirmTarget m' = "" /\ confirmData m' = None.
Proof.
  intros Hr Hv Hk.
  pose proof (reachable_confirmPending m Hr Hv) as Hp.
  split; [exact Hp|].
  assert (Hq : keyIs key ["ctrl+c"; "q"] = false /\
               keyIs key ["esc"; "n"; "N"] = false).
  { apply keyIs_In in Hk. cbn [In] in Hk.
    repeat (destruct Hk as [<- | Hk]; [split; reflexivity|]). destruct Hk. }
  destruct Hq as [Hq1 Hq2].
  cbn [Tui.Update]. rewrite Hv. unfold updateConfirm, confirmPrompt.
  rewrite Hq1, Hq2, Hk. cbv zeta. fields.
  destruct Hp as [E | [E | [E (p & Ep)]]]; rewrite E; cbn [String.eqb fst];
    change (String.eqb "delete" "delete") with true;
    change (String.eqb "download" "delete") with false;
    change (String.eqb "download" "download") with true;
    change (String.eqb "upload" "delete") with false;
    change (String.eqb "upload" "download") with false;
    change (String.eqb "upload" "upload") with true;
    cbv iota; cbn [fst In]; rewrite ?Ep.
  - split; [auto|]. eexists _, _. split; [reflexivity|]. repeat split.
  - split; [auto|]. eexists _, _. split; [reflexivity|]. repeat split.
  - split; [auto|]. eexists _, _. split; [reflexivity|]. repeat split.
Qed.

End DispatchFacts.

(* ===================================================================== *)
(** * Further properties: the preview                                     *)
(* ===================================================================== *)

Section PreviewFacts.

Variable filepath_Dir : string -> string.
Variable filepath_Join : string -> string -> string.
Variable utf8_RuneCountInString : string -> Z.

Local Abbreviation Update :=
  (Update filepath_Dir filepath_Join utf8_RuneCountInString).

Lemma maxScroll_nonneg m : 0 <= maxScroll m.
Proof.
  unfold maxScroll. cbv zeta. destruct (_ <? 0) eqn:E; bool_to_prop; lia.
Qed.

Lemma maxScroll_set_previewScroll v m :
  maxScroll (set_previewScroll v m) = maxScroll m.
Proof. reflexivity. Qed.

(** X12. Scrolling keeps the preview within its text. From a preview
    scrolled to a line between the first and the last it can scroll to,
    every key leaves it between the two; no key makes [updatePreview]
    panic, and no key but [q] and [ctrl+c] dispatches a command.
    (The last line it can scroll to is short of the largest [int] by a
    page of ten lines.) *)
Theorem preview_scroll_stays_in_range (m : Model) (key : string) :
  previewScrollInRange m ->
  maxScroll m + 10 <= GoInt.max_int ->
  exists m' cmd,
    updatePreview m key = Next m' cmd /\
    previewScrollInRange m' /\
    (cmd = CmdNone \/ cmd = Quit /\ keyIs key ["ctrl+c"; "q"] = true).
Proof.
  unfold previewScrollInRange. intros Hr Ho.
  pose proof (maxScroll_nonneg m) as Hn.
  unfold GoInt.max_int in Ho. change (2 ^ 63) with 9223372036854775808 in Ho.
  unfold updatePreview. any_key key; cbv zeta;
    repeat (split_if; cbn [previewScroll set_previewScroll] in * );
    eexists _, _; (split; [reflexivity|]); (split; [|auto]);
    rewrite ?maxScroll_set_previewScroll;
    cbn [previewScroll set_previewScroll set_previewWidth set_previewLines
         set_previewFileName set_previewContent set_viewMode];
    try (split; [reflexivity | apply maxScroll_nonneg]);
    int_unfold; bool_to_prop; wrap_facts; lia.
Qed.


Lemma length_take_drop {A} (l : list A) (a n : nat) :
  length (take n (drop a l)) = Nat.min n (length l - a).
Proof. now rewrite length_take, length_drop. Qed.

(** X14. A preview scrolled within its text shows a full page. On a
    terminal of at least nine rows, from a preview scrolled to a line
    between the first and the last it can scroll to, [viewPreview] takes
    its lines without a panic: for a text with lines, the lines from the
    one scrolled to, as many as the page holds or as the text has if it
    is shorter. *)
Theorem preview_shows_full_page (m : Model) :
  previewScrollInRange m ->
  9 <= height m ->
  GoInt.len (previewLines m) + height m <= GoInt.max_int ->
  previewLines m <> [] ->
  exists lines,
    visibleLines m = Some lines /\
    lines = take (Z.to_nat (height m - 8))
                 (drop (Z.to_nat (previewScroll m)) (previewLines m)) /\
    GoInt.len lines = Z.min (height m - 8) (GoInt.len (previewLines m)).
Proof.
  unfold previewScrollInRange, maxScroll. cbv zeta.
  intros Hr Hh Ho Hne.
  assert (Hpos : 0 < GoInt.len (previewLines m)).
  { destruct (previewLines m); [contradiction|]. unfold GoInt.len. cbn. lia. }
  unfold visibleLines, visibleHeight, sliceList. cbv zeta.
  unfold GoInt.len in *. int_unfold.
  rewrite (wrap_small (height m - 8)) in * by lia.
  destruct (_ =? 0) eqn:E0; bool_to_prop; [exfalso; lia|].
  destruct (height m - 8 <? 1) eqn:E1; bool_to_prop; [exfalso; lia|].
  revert Hr. destruct (_ <? 0) eqn:E2; bool_to_prop; intros Hr.
  - (* the text is shorter than a page *)
    assert (Hps : previewScroll m = 0) by lia. rewrite Hps in *.
    rewrite (wrap_small (0 + (height m - 8))) by lia.
    wrap_facts.
    destruct (_ >? _) eqn:E3; bool_to_prop; [|exfalso; lia].
    destruct (0 <? _) eqn:E4; bool_to_prop; [|exfalso; lia].
    replace ((0 <=? 0) && (0 <=? Z.of_nat (length (previewLines m))) &&
             (Z.of_nat (length (previewLines m)) <=?
              Z.of_nat (length (previewLines m)))) with true
      by (symmetry; rewrite !andb_true_iff, !Z.leb_le; lia).
    eexists. split; [reflexivity|].
    change (Z.to_nat 0) with 0%nat. rewrite !drop_0, Z.sub_0_r, Nat2Z.id.
    rewrite !take_ge by lia. split; [reflexivity | lia].
  - (* the text fills a page *)
    wrap_facts.
    rewrite (wrap_small (previewScroll m + (height m - 8))) by lia.
    destruct (_ >? _) eqn:E3; bool_to_prop; [exfalso; lia|].
    destruct (_ <? _) eqn:E4; bool_to_prop; [|exfalso; lia].
    replace ((0 <=? previewScroll m) &&
             (previewScroll m <=? previewScroll m + (height m - 8)) &&
             (previewScroll m + (height m - 8) <=?
              Z.of_nat (length (previewLines m)))) with true
      by (symmetry; rewrite !andb_true_iff, !Z.leb_le; lia).
    eexists. split; [reflexivity|].
    replace (previewScroll m + (height m - 8) - previewScroll m)
      with (height m - 8) by lia.
    split; [reflexivity|]. rewrite length_take_drop. lia.
Qed.

End PreviewFacts.

(* ===================================================================== *)
(** * Further properties: the rename dialog                               *)
(* ===================================================================== *)

Section RenameFacts.

Variable filepath_Dir : string -> string.
Variable filepath_Join : string -> string -> string.
Variable utf8_RuneCountInString : string -> Z.

Local Abbreviation Update :=
  (Update filepath_Dir filepath_Join utf8_RuneCountInString).
Local Abbreviation reachable :=
  (reachable filepath_Dir filepath_Join utf8_RuneCountInString).

Lemma slen_nonneg s : 0 <= GoInt.slen s.
Proof. unfold GoInt.slen. lia. Qed.

Lemma sliceTo_Some s i :
  0 <= i <= GoInt.slen s ->
  sliceTo s i = Some (String.substring 0 (Z.to_nat i) s).
Proof.
  intros H. unfold sliceTo.
  destruct (Z.leb_spec 0 i); [|lia].
  destruct (Z.leb_spec i (GoInt.slen s)); [reflexivity | lia].
Qed.

Lemma sliceFrom_Some s i :
  0 <= i <= GoInt.slen s ->
  sliceFrom s i =
  Some (String.substring (Z.to_nat i) (String.length s - Z.to_nat i) s).
Proof.
  intros H. unfold sliceFrom.
  destruct (Z.leb_spec 0 i); [|lia].
  destruct (Z.leb_spec i (GoInt.slen s)); [reflexivity | lia].
Qed.

Lemma get_Some s k : (k < String.length s)%nat -> exists c, String.get k s = Some c.
Proof.
  revert k. induction s as [|x s IH]; intros k H; cbn in H; [lia|].
  destruct k as [|k]; cbn; [eauto|]. apply IH. lia.
Qed.

(** The backward scan ends, at an index below where it began. *)
Lemma scanBack_bounds p s n :
  (n <= String.length s)%nat ->
  exists z, scanBack p s n = Some z /\ -1 <= z < Z.of_nat n.
Proof.
  induction n as [|k IH]; intros H; cbn [scanBack].
  - exists (-1). split; [reflexivity | lia].
  - destruct (get_Some s k ltac:(lia)) as [c ->].
    destruct (p c).
    + destruct IH as (z & -> & Hz); [lia|]. exists z. split; [reflexivity | lia].
    + exists (Z.of_nat k). split; [reflexivity | lia].
Qed.

(** After the check that closes [updateRename] the cursor is within the
    text, whatever it was. *)
Lemma clampRenameCursor_in_range m : renameCursorInRange (clampRenameCursor m).
Proof.
  unfold renameCursorInRange, clampRenameCursor. cbv zeta.
  pose proof (slen_nonneg (renameInput m)).
  repeat (split_if; cbn [renameCursor renameInput set_renameCursor] in * );
    bool_to_prop; lia.
Qed.

Lemma clampRenameCursor_id m :
  renameCursorInRange m -> clampRenameCursor m = m.
Proof.
  unfold renameCursorInRange, clampRenameCursor. cbv zeta. intros H.
  destruct (Z.ltb_spec (renameCursor m) 0); [lia|].
  destruct (renameCursor m >? GoInt.slen (renameInput m)) eqn:E;
    bool_to_prop; [lia | reflexivity].
Qed.

Ltac split_andb :=
  repeat match goal with
         | H : (_ && _) = true |- _ =>
             apply andb_true_iff in H; destruct H
         end.

(** The editing keys do not panic when the cursor is within the text. *)
Lemma renameEdit_total m key :
  renameCursorInRange m ->
  GoInt.slen (renameInput m) <= GoInt.max_int ->
  exists m', renameEdit m key = Some m'.
Proof.
  unfold renameCursorInRange. intros Hr Hl.
  unfold GoInt.max_int in Hl. change (2 ^ 63) with 9223372036854775808 in Hl.
  unfold renameEdit. any_key key; cbv zeta.
  - (* backspace *)
    split_if; [|eauto]. split_andb. bool_to_prop.
    rewrite sliceTo_Some, sliceFrom_Some
      by (int_unfold; wrap_facts; lia).
    cbn [mbind option_bind]. eauto.
  - (* delete *)
    split_if; [|eauto]. bool_to_prop.
    rewrite sliceTo_Some, sliceFrom_Some
      by (int_unfold; wrap_facts; lia).
    cbn [mbind option_bind]. eauto.
  - split_if; eauto.
  - split_if; eauto.
  - eauto.
  - eauto.
  - (* ctrl+u *)
    rewrite sliceFrom_Some by lia. cbn [mbind option_bind]. eauto.
  - (* ctrl+w *)
    split_if; [|eauto]. bool_to_prop.
    assert (E : renameCursor m -! 1 = renameCursor m - 1)
      by (int_unfold; apply wrap_small; lia).
    rewrite E.
    destruct (scanBack_bounds isSpace (renameInput m)
                (Z.to_nat (renameCursor m - 1 + 1)))
      as (z1 & -> & Hz1); [unfold GoInt.slen in *; lia|].
    cbn [mbind option_bind].
    destruct (scanBack_bounds (fun c => negb (isSpace c)) (renameInput m)
                (Z.to_nat (z1 + 1)))
      as (z2 & -> & Hz2); [unfold GoInt.slen in *; lia|].
    cbn [mbind option_bind].
    rewrite sliceTo_Some, sliceFrom_Some
      by (int_unfold; wrap_facts; lia).
    cbn [mbind option_bind]. eauto.
  - (* a printable character *)
    split_if; [|eauto].
    rewrite sliceTo_Some, sliceFrom_Some by lia.
    cbn [mbind option_bind]. eauto.
Qed.

(** X15. The rename dialog does not panic. With the cursor within the
    text, every key gives a next model, and the cursor is within the text
    there. (The text is no longer than the largest [int], as every string
    is.) *)
Theorem rename_dialog_never_panics (m : Model) (key : string) :
  renameCursorInRange m ->
  GoInt.slen (renameInput m) <= GoInt.max_int ->
  exists m' cmd, updateRename m key = Next m' cmd /\ renameCursorInRange m'.
Proof.
  intros Hr Hl. unfold updateRename.
  destruct (renameEdit_total m key Hr Hl) as [m1 E]. rewrite E.
  any_key key; cbv zeta; take_apart; eexists _, _; (split; [reflexivity|]);
    try exact Hr; try apply clampRenameCursor_in_range;
    unfold renameCursorInRange, GoInt.slen; cbn; lia.
Qed.

Lemma updateScroll_rename m :
  renameCursor (updateScroll m) = renameCursor m /\
  renameInput (updateScroll m) = renameInput m.
Proof. rewrite updateScroll_frame. split; reflexivity. Qed.

Lemma step_keeps_renameCursor m msg m' cmd :
  Update m msg = Next m' cmd ->
  renameCursorInRange m -> renameCursorInRange m'.
Proof.
  unfold renameCursorInRange.
  destruct msg; cbn [Tui.Update]; cbv zeta;
    try (take_apart; intros [= <- <-]; fields; tauto).
  destruct (viewMode m) eqn:Hv.
  - unfold updateBrowser, uploadFilePrompt. any_key key; cbv zeta; take_apart;
      try discriminate; intros [= <- <-];
      rewrite ?(proj1 (updateScroll_rename _)), ?(proj2 (updateScroll_rename _));
      fields; try tauto; intros _; pose proof (slen_nonneg (GoStrings.Base (Key s)));
      lia.
  - unfold updatePreview. any_key key; cbv zeta; take_apart;
      intros [= <- <-]; fields; tauto.
  - unfold updateHelp. any_key key; intros [= <- <-]; fields; tauto.
  - unfold updateUpload. any_key key; cbv zeta; take_apart;
      try discriminate; intros [= <- <-]; fields; tauto.
  - unfold updateRename. any_key key; cbv zeta; take_apart;
      try discriminate; intros [= <- <-];
      first [ tauto
            | intros _; apply clampRenameCursor_in_range
            | intros _; unfold GoInt.slen; cbn; lia ].
  - unfold updateConfirm. any_key key; intros [= <- <-]; fields; tauto.
Qed.

(** X16. The cursor of the rename dialog is always within its text: in
    every reachable model it is between zero and the length of the
    text. *)
Theorem rename_cursor_within_text (m : Model) :
  reachable m -> renameCursorInRange m.
Proof.
  induction 1 as [bucket | m msg m' cmd Hr IH _ E].
  - unfold renameCursorInRange, GoInt.slen. cbn. lia.
  - eapply step_keeps_renameCursor; eassumption.
Qed.

Lemma substring_prefix_length n s :
  (n <= String.length s)%nat -> String.length (String.substring 0 n s) = n.
Proof.
  revert n. induction s as [|x s IH]; intros n H; cbn in H.
  - replace n with 0%nat by lia. reflexivity.
  - destruct n as [|n]; cbn [String.substring String.length]; [reflexivity|].
    rewrite IH by lia. reflexivity.
Qed.

Lemma substring_split n s :
  (n <= String.length s)%nat ->
  String.substring 0 n s +:+ String.substring n (String.length s - n) s = s.
Proof.
  revert n. induction s as [|x s IH]; intros n H; cbn in H.
  - replace n with 0%nat by lia. reflexivity.
  - destruct n as [|n].
    + rewrite Nat.sub_0_r, substring_whole. destruct s; reflexivity.
    + cbn [String.substring String.length Nat.sub].
      rewrite append_cons, IH by lia. reflexivity.
Qed.

Lemma substring_at n s :
  (n < String.length s)%nat ->
  exists c,
    String.get n s = Some c /\
    String.substring n (String.length s - n) s =
      String c (String.substring (S n) (String.length s - S n) s).
Proof.
  revert n. induction s as [|x s IH]; intros n H; cbn in H; [lia|].
  destruct n as [|n].
  - exists x. split; [reflexivity|].
    cbn [String.length String.substring Nat.sub].
    rewrite !Nat.sub_0_r, substring_whole. reflexivity.
  - destruct (IH n ltac:(lia)) as (c & Hg & Hs). exists c.
    split; [exact Hg|]. cbn [String.length String.substring Nat.sub].
    exact Hs.
Qed.

(** A key of one byte is none of the keys with longer names. *)
Lemma keyIs_long c cases :
  forallb (fun k => negb (String.length k =? 1)%nat) cases = true ->
  keyIs (String c "") cases = false.
Proof.
  unfold keyIs. induction cases as [|k ks IH]; cbn [forallb existsb];
    [reflexivity|].
  intros H. apply andb_true_iff in H. destruct H as [Hk Hks].
  rewrite IH by assumption. rewrite orb_false_r.
  apply String.eqb_neq. intros <-. discriminate Hk.
Qed.

Lemma keyIs_q c : keyIs (String c "") ["ctrl+c"; "q"] = Ascii.eqb c "q".
Proof.
  destruct (Ascii.eqb_spec c "q") as [-> | Hne]; [reflexivity|].
  unfold keyIs. cbn [existsb].
  rewrite !(proj2 (String.eqb_neq _ _)); [reflexivity | congruence | discriminate].
Qed.

(** X17. Typing in the rename dialog. A key of one printable byte other
    than [q] is inserted into the text at the cursor and the cursor moves
    behind it; [backspace] right after takes it out again and gives the
    model back as it was. The key [q] is not inserted: it quits the
    program, in this dialog as everywhere. *)
Theorem rename_typing_and_backspace (m : Model) (c : ascii) :
  printable (String c "") = true ->
  renameCursorInRange m ->
  GoInt.slen (renameInput m) < GoInt.max_int ->
  if Ascii.eqb c "q" then (updateRename m (String c "") = Next m Quit)
  else
    (exists m1,
       updateRename m (String c "") = Next m1 CmdNone /\
       renameInput m1 =
         String.substring 0 (Z.to_nat (renameCursor m)) (renameInput m)
         +:+ String c
               (String.substring (Z.to_nat (renameCursor m))
                  (String.length (renameInput m) - Z.to_nat (renameCursor m))
                  (renameInput m)) /\
       renameCursor m1 = renameCursor m + 1 /\
       updateRename m1 "backspace" = Next m CmdNone).
Proof.
  intros Hp Hr Hl. unfold renameCursorInRange in Hr.
  unfold GoInt.max_int in Hl. change (2 ^ 63) with 9223372036854775808 in Hl.
  destruct (Ascii.eqb c "q") eqn:Eq;
    [unfold updateRename; now rewrite keyIs_q, Eq|].
  unfold updateRename at 1. rewrite keyIs_q, Eq.
  rewrite !(keyIs_long c) by reflexivity.
  unfold renameEdit. rewrite !(keyIs_long c) by reflexivity. rewrite Hp.
  rewrite sliceTo_Some, sliceFrom_Some by lia.
  cbn [mbind option_bind]. cbv zeta.
  set (before := String.substring 0 (Z.to_nat (renameCursor m)) (renameInput m)).
  set (after := String.substring (Z.to_nat (renameCursor m))
                  (String.length (renameInput m) - Z.to_nat (renameCursor m))
                  (renameInput m)).
  assert (Hcur : (Z.to_nat (renameCursor m) <= String.length (renameInput m))%nat)
    by (unfold GoInt.slen in Hr; lia).
  assert (Hsplit : before +:+ after = renameInput m)
    by (apply substring_split; assumption).
  assert (Hb : String.length before = Z.to_nat (renameCursor m))
    by (apply substring_prefix_length; assumption).
  assert (Hlen : GoInt.slen (before +:+ String c "" +:+ after)
                 = GoInt.slen (renameInput m) + 1).
  { unfold GoInt.slen. rewrite <- Hsplit, !string_length_append.
    cbn [String.length]. lia. }
  assert (Hadd : renameCursor m +! 1 = renameCursor m + 1)
    by (int_unfold; apply wrap_small; lia).
  fields. rewrite Hadd.
  rewrite clampRenameCursor_id
    by (unfold renameCursorInRange; fields; rewrite Hlen; lia).
  eexists. split; [reflexivity|]. fields.
  split; [reflexivity|]. split; [reflexivity|].
  unfold updateRename. switch_on_key. unfold renameEdit. switch_on_key.
  fields. rewrite Hlen.
  replace ((renameCursor m + 1 >? 0) && (GoInt.slen (renameInput m) + 1 >? 0))
    with true.
  2:{ symmetry. apply andb_true_iff.
      pose proof (slen_nonneg (renameInput m)).
      split; apply Z.gtb_lt; lia. }
  assert (Hsub : renameCursor m + 1 -! 1 = renameCursor m)
    by (int_unfold; rewrite wrap_small; lia).
  rewrite Hsub.
  rewrite sliceTo_Some, sliceFrom_Some by (rewrite Hlen; lia).
  cbn [mbind option_bind]. cbv zeta. fields.
  (* the text before the cursor and the text behind the inserted byte *)
  replace (String.substring 0 (Z.to_nat (renameCursor m))
             (before +:+ String c "" +:+ after)) with before.
  2:{ rewrite <- Hb. symmetry. apply substring_head. }
  replace (String.substring (Z.to_nat (renameCursor m + 1))
             (String.length (before +:+ String c "" +:+ after)
              - Z.to_nat (renameCursor m + 1))
             (before +:+ String c "" +:+ after)) with after.
  2:{ rewrite <- append_assoc.
      set (pre := before +:+ String c "").
      assert (Hn : Z.to_nat (renameCursor m + 1) = String.length pre)
        by (subst pre; rewrite string_length_append, Hb; cbn [String.length];
            lia).
      rewrite Hn, (string_length_append pre after).
      replace (String.length pre + String.length after - String.length pre)%nat
        with (String.length after) by lia.
      symmetry. apply substring_tail. }
  rewrite Hsplit.
  rewrite clampRenameCursor_id by (unfold renameCursorInRange; fields; lia).
  destruct m; reflexivity.
Qed.


End RenameFacts.

(* ===================================================================== *)
(** * Further properties: the upload picker and the statistics            *)
(* ===================================================================== *)

Section PickerFacts.

Variable filepath_Dir : string -> string.
Variable filepath_Join : string -> string -> string.
Variable utf8_RuneCountInString : string -> Z.
Variable sortSlice : forall A : Type, (A -> A -> bool) -> list A -> list A.

Local Abbreviation Update :=
  (Update filepath_Dir filepath_Join utf8_RuneCountInString).
Local Abbreviation updateUpload := (updateUpload filepath_Dir filepath_Join).

Lemma pickerCursorInRange_arith m :
  pickerCursorInRange m <->
  (GoInt.len (localItems m) = 0 /\ cursor m = 0) \/
  0 <= cursor m < GoInt.len (localItems m).
Proof.
  unfold pickerCursorInRange, GoInt.len. split.
  - intros [[-> ->] | H]; [left; split; reflexivity | now right].
  - intros [[H ->] | H]; [left | now right].
    destruct (localItems m); [split; reflexivity | cbn in H; lia].
Qed.

(** A key in the upload picker, from a model whose cursor is on an
    entry. *)
Lemma picker_key_in_range m key :
  pickerCursorInRange m ->
  GoInt.len (localItems m) <= GoInt.max_int ->
  exists m' cmd,
    updateUpload m key = Next m' cmd /\
    localItems m' = localItems m /\
    (GoInt.len (localItems m) = 0 /\ cursor m' = 0 \/
     0 <= cursor m' < GoInt.len (localItems m)).
Proof.
  intros Hc Ho. apply pickerCursorInRange_arith in Hc.
  pose proof (len_nonneg (localItems m)) as Hn.
  unfold GoInt.max_int in Ho. change (2 ^ 63) with 9223372036854775808 in Ho.
  assert (Hidx : (GoInt.len (localItems m) >? 0) = true ->
                 exists x, index (localItems m) (cursor m) = Some x).
  { intros H. apply index_in_range. apply Z.gtb_lt in H. lia. }
  unfold Tui.updateUpload. any_key key; cbv zeta;
    try (destruct (GoInt.len (localItems m) >? 0) eqn:Hpos;
         [destruct (Hidx eq_refl) as [sel Hsel]; rewrite ?Hsel | ]);
    take_apart; eexists _, _; (split; [reflexivity|]); fields;
    (split; [reflexivity|]);
    int_unfold; bool_to_prop; wrap_facts; lia.
Qed.

(** X19. In the upload picker the cursor stays on an entry. From a model
    in the picker whose cursor is on one of its entries, or at zero when
    it has none, no message makes [Update] panic, and as long as the
    picker stays open the cursor is on one of its entries: [up] and [down]
    stop at the first and at the last entry, and a directory that arrives
    is entered at its first entry. *)
Theorem picker_cursor_stays_on_entry (m : Model) (msg : Msg) :
  viewMode m = ViewUpload ->
  pickerCursorInRange m ->
  GoInt.len (localItems m) <= GoInt.max_int ->
  exists m' cmd,
    Update m msg = Next m' cmd /\
    (viewMode m' = ViewUpload -> pickerCursorInRange m').
Proof.
  intros Hv Hc Ho.
  destruct msg; cbn [Tui.Update]; cbv zeta.
  2:{ rewrite Hv.
      destruct (picker_key_in_range m key Hc Ho) as (m' & cmd & E & Hit & Hcur).
      exists m', cmd. split; [exact E|]. intros _.
      apply pickerCursorInRange_arith. now rewrite Hit. }
  all: take_apart; eexists _, _; (split; [reflexivity|]); fields;
    try (intros _; exact Hc); try discriminate;
    intros _; unfold pickerCursorInRange; fields; apply zero_in_range.
Qed.

Lemma length_omap_le {A B} (f : A -> option B) (l : list A) :
  (length (omap f l) <= length l)%nat.
Proof.
  induction l as [|a l IH]; [reflexivity|].
  change (omap f (a :: l))
    with (match f a with Some y => y :: omap f l | None => omap f l end).
  destruct (f a); cbn [length]; lia.
Qed.

Lemma localItemsOf_spec entries it :
  In it (localItemsOf entries) <->
  it = parentEntry \/
  exists e size,
    In e entries /\ GoStrings.HasPrefix (deName e) "." = false /\
    deInfo e = Some size /\ it = LocalItem.mk (deName e) (deIsDir e) size.
Proof.
  unfold localItemsOf. cbn [In]. rewrite <- list_elem_of_In, list_elem_of_omap.
  split.
  - intros [<- | (e & He & E)]; [now left | right].
    apply list_elem_of_In in He.
    destruct (GoStrings.HasPrefix (deName e) ".") eqn:Eh; [discriminate|].
    destruct (deInfo e) as [size|] eqn:Ei; [|discriminate].
    injection E as <-. eauto 10.
  - intros [-> | (e & size & He & Eh & Ei & ->)]; [now left | right].
    exists e. apply list_elem_of_In in He. now rewrite Eh, Ei.
Qed.

(** X20. What the upload picker offers. [loadLocalFiles] always offers
    the entry [..], a directory; beside it, it offers the entries of the
    directory whose name does not begin with a dot and whose information
    could be read, each under its name with its kind and size, and no
    other entry. An error of the read is passed on with an empty list. *)
Theorem picker_offers_visible_entries
    (path : string) (readDir : error + list DirEntry) :
  sortsSlices sortSlice ->
  match readDir with
  | inl e =>
      runLoadLocalFiles sortSlice path readDir = localFilesLoadedMsg [] "" (Some e)
  | inr entries =>
      exists items,
        runLoadLocalFiles sortSlice path readDir =
          localFilesLoadedMsg items path None /\
        In parentEntry items /\
        (forall it, In it items -> it <> parentEntry ->
                    GoStrings.HasPrefix (LocalItem.Name it) "." = false) /\
        (forall e size,
           In e entries -> GoStrings.HasPrefix (deName e) "." = false ->
           deInfo e = Some size ->
           In (LocalItem.mk (deName e) (deIsDir e) size) items) /\
        (forall it, In it items -> it <> parentEntry ->
                    exists e, In e entries /\ deName e = LocalItem.Name it /\
                              deIsDir e = LocalItem.IsDir it /\
                              deInfo e = Some (LocalItem.Size it)) /\
        (length items <= 1 + length entries)%nat
  end.
Proof.
  intros Hsort. destruct readDir as [e | entries]; [reflexivity|].
  cbn [runLoadLocalFiles].
  destruct (Hsort _ localLess (localItemsOf entries) localLess_order)
    as [Hperm _].
  set (items := sortSlice LocalItem.t localLess (localItemsOf entries)) in *.
  assert (Hin : forall it, In it items <-> In it (localItemsOf entries)).
  { intros it. split; apply Permutation_in;
      [assumption | now apply Permutation_sym]. }
  exists items. split; [reflexivity|]. split; [|split; [|split; [|split]]].
  - apply Hin, localItemsOf_spec. now left.
  - intros it Hit Hne. apply Hin, localItemsOf_spec in Hit.
    destruct Hit as [-> | (e & size & _ & Eh & _ & ->)]; [contradiction|].
    exact Eh.
  - intros e size He Eh Ei. apply Hin, localItemsOf_spec. right. eauto 10.
  - intros it Hit Hne. apply Hin, localItemsOf_spec in Hit.
    destruct Hit as [-> | (e & size & He & _ & Ei & ->)]; [contradiction|].
    exists e. auto.
  - rewrite (Permutation_length Hperm). unfold localItemsOf. cbn [length].
    apply le_n_S, length_omap_le.
Qed.

End PickerFacts.

Section StatisticsFacts.

Lemma fileSizes_cons o objs :
  fileSizes (o :: objs) =
  if IsDir o then fileSizes objs else Size o + fileSizes objs.
Proof. reflexivity. Qed.

Lemma fileSizes_nonneg objs :
  Forall (fun obj => 0 <= Size obj) objs -> 0 <= fileSizes objs.
Proof.
  induction 1 as [|o objs Ho _ IH]; [reflexivity|].
  rewrite fileSizes_cons. destruct (IsDir o); lia.
Qed.

Lemma totalSize_fold objs acc :
  Forall (fun obj => 0 <= Size obj) objs ->
  0 <= acc -> acc + fileSizes objs <= GoInt.max_int ->
  fold_left (fun total obj =>
               if negb (IsDir obj) then total +! Size obj else total)
            objs acc
  = acc + fileSizes objs.
Proof.
  unfold GoInt.max_int. change (2 ^ 63) with 9223372036854775808.
  intros H. revert acc. induction H as [|o objs Ho Hobjs IH]; intros acc Ha Hb.
  - cbn. lia.
  - pose proof (fileSizes_nonneg objs Hobjs) as Hs.
    rewrite fileSizes_cons in *. cbn [fold_left].
    destruct (IsDir o); cbn [negb].
    + apply IH; lia.
    + replace (acc +! Size o) with (acc + Size o)
        by (int_unfold; rewrite wrap_small; lia).
      rewrite IH by lia. lia.
Qed.

(** X21. The size of a directory is the sum of the sizes of its files.
    What the size worker of [calculateDirStats] adds up from a listing is
    the sum of the sizes of its files, the directories left out, as long
    as that sum is within [int]. *)
Theorem totalSize_is_sum (objs : list S3Object) :
  Forall (fun obj => 0 <= Size obj) objs ->
  fileSizes objs <= GoInt.max_int ->
  totalSize objs = fileSizes objs.
Proof.
  intros H Hb. unfold totalSize. rewrite totalSize_fold by (assumption || lia).
  lia.
Qed.

Lemma leb_empty s : String.leb "" s = true.
Proof. destruct s; reflexivity. Qed.

Lemma ltb_empty s : String.ltb s "" = false.
Proof. destruct s; reflexivity. Qed.

Lemma latest_fold objs acc :
  let r :=
    fold_left (fun latest obj =>
                 if negb (IsDir obj) &&
                    (String.eqb latest "" || String.ltb latest (LastModified obj))
                 then LastModified obj else latest)
              objs acc in
  (r = "" ->
   acc = "" /\
   forall o, In o objs -> IsDir o = false -> LastModified o = "") /\
  (r = acc \/ exists o, In o objs /\ IsDir o = false /\ LastModified o = r) /\
  String.leb acc r = true /\
  (forall o, In o objs -> IsDir o = false ->
             String.leb (LastModified o) r = true).
Proof.
  revert acc. induction objs as [|o objs IH]; intros acc; cbn [fold_left].
  - cbv zeta. split; [|split; [|split]].
    + intros ->. split; [reflexivity | intros o []].
    + now left.
    + apply leb_refl.
    + intros o [].
  - set (acc' := if negb (IsDir o) &&
                    (String.eqb acc "" || String.ltb acc (LastModified o))
                 then LastModified o else acc).
    specialize (IH acc'). cbv zeta in *.
    set (r := fold_left _ objs acc') in *.
    destruct IH as (IHa & IHb & IHc & IHd).
    assert (Hacc : (acc' = acc /\
                    (IsDir o = false -> String.leb (LastModified o) acc = true /\
                                        acc <> "")) \/
                   (acc' = LastModified o /\ IsDir o = false /\
                    (acc = "" \/ String.ltb acc (LastModified o) = true))).
    { unfold acc'. clear. destruct (IsDir o); cbn [negb andb].
      - left. split; [reflexivity | discriminate].
      - destruct (String.eqb_spec acc "") as [Ea | Hne]; cbn [orb].
        + right. auto.
        + destruct (String.ltb acc (LastModified o)) eqn:El.
          * right. auto.
          * left. split; [reflexivity|]. intros _. split; [|assumption].
            rewrite ltb_negb_leb in El. now apply negb_false_iff in El. }
    split; [|split; [|split]].
    + intros Hr. destruct (IHa Hr) as [Ea Hall].
      destruct Hacc as [[E Hf] | (E & Hf & Hlt)].
      * rewrite E in Ea. split; [assumption|].
        intros o' [<- | Hin] Hd; [|auto].
        destruct (Hf Hd) as [_ Hne]. contradiction.
      * rewrite E in Ea. destruct Hlt as [-> | Hlt].
        -- split; [reflexivity|]. intros o' [<- | Hin] Hd; auto.
        -- rewrite Ea, ltb_empty in Hlt. discriminate.
    + destruct IHb as [Er | (o' & Hin & Hd & E)].
      * destruct Hacc as [[E _] | (E & Hf & _)].
        -- left. congruence.
        -- right. exists o. split; [now left|]. split; [assumption | congruence].
      * right. exists o'. split; [now right | auto].
    + destruct Hacc as [[E _] | (E & Hf & [-> | Hlt])].
      * now rewrite <- E.
      * apply leb_empty.
      * rewrite E in IHc. eapply leb_trans; [|exact IHc].
        rewrite ltb_negb_leb in Hlt. apply negb_true_iff in Hlt.
        destruct (String.leb_total acc (LastModified o)); congruence.
    + intros o' [<- | Hin] Hd; [|auto].
      destruct Hacc as [[E Hf] | (E & _ & _)].
      * destruct (Hf Hd) as [Hle _]. rewrite E in IHc.
        eapply leb_trans; eassumption.
      * now rewrite <- E.
Qed.

(** X22. The date of a directory is the latest of its files. What the
    date worker of [calculateDirStats] gives for a listing is the
    modification time of one of its files, and no file of the listing has
    a later one; it is ["N/A"] when the listing has no file with a
    modification time. Directories are left out. *)
Theorem latestDate_is_latest (objs : list S3Object) :
  (latestDate objs = "N/A" /\
   forall o, In o objs -> IsDir o = false -> LastModified o = "") \/
  ((exists o, In o objs /\ IsDir o = false /\
              LastModified o = latestDate objs) /\
   latestDate objs <> "" /\
   forall o, In o objs -> IsDir o = false ->
             String.leb (LastModified o) (latestDate objs) = true).
Proof.
  unfold latestDate. cbv zeta.
  destruct (latest_fold objs "") as (Ha & Hb & _ & Hd). cbv zeta in *.
  set (r := fold_left _ objs "") in *.
  destruct (String.eqb_spec r "") as [E | Hne].
  - left. split; [reflexivity|]. now apply Ha.
  - right. split; [|split; assumption].
    destruct Hb as [E | H]; [congruence | exact H].
Qed.

End StatisticsFacts.

(* ===================================================================== *)
(** * Further properties: the list on the screen                          *)
(* ===================================================================== *)

Section ViewFacts.

Lemma maxNameWidth_bounds m : 15 <= maxNameWidth m <= 60.
Proof.
  unfold maxNameWidth. cbv zeta.
  repeat split_if; bool_to_prop; lia.
Qed.

(** A name is cut without a panic, to the width of its column. *)
Lemma displayName_fits w obj :
  15 <= w <= 60 ->
  exists name, displayName w obj = Some name /\ GoInt.slen name <= w.
Proof.
  intros Hw. unfold displayName. cbv zeta.
  set (name := if IsDir obj then _ else _).
  destruct (GoInt.slen name >? w) eqn:E; bool_to_prop; [|eauto].
  assert (E3 : w -! 3 = w - 3) by (int_unfold; apply wrap_small; lia).
  rewrite E3, sliceTo_Some by lia. cbn [mbind option_bind].
  eexists. split; [reflexivity|].
  unfold GoInt.slen in *. rewrite string_length_append.
  rewrite substring_prefix_length by lia. cbn [String.length]. lia.
Qed.

Lemma rowsLoop_rows m n : forall i,
  0 <= i ->
  i + Z.of_nat n <= GoInt.len (objects m) ->
  i + Z.of_nat n <= GoInt.max_int ->
  exists rows,
    rowsLoop m i n = Some rows /\
    length rows = n /\
    (forall r, In r rows ->
       i <= rowIndex r < i + Z.of_nat n /\
       index (objects m) (rowIndex r) = Some (rowObject r) /\
       rowSelected r = (rowIndex r =? cursor m) /\
       rowYanked r =
         negb (IsDir (rowObject r)) &&
         existsb (String.eqb (Key (rowObject r))) (yankedFiles m) /\
       GoInt.slen (rowName r) <= maxNameWidth m) /\
    (forall j, i <= j < i + Z.of_nat n ->
               exists r, In r rows /\ rowIndex r = j).
Proof.
  unfold GoInt.max_int. change (2 ^ 63) with 9223372036854775808.
  induction n as [|n IH]; intros i Hi Hlen Hmax; cbn [rowsLoop].
  - exists []. split; [reflexivity|]. split; [reflexivity|].
    split; [intros r [] | intros j Hj; lia].
  - destruct (index_in_range (objects m) i ltac:(lia)) as [obj Ho].
    rewrite Ho. cbn [mbind option_bind].
    destruct (displayName_fits (maxNameWidth m) obj (maxNameWidth_bounds m))
      as (name & -> & Hname).
    cbn [mbind option_bind]. cbv zeta.
    replace (i +! 1) with (i + 1) by (int_unfold; rewrite wrap_small; lia).
    destruct (IH (i + 1) ltac:(lia) ltac:(lia) ltac:(lia))
      as (rows & -> & Hn & Hrows & Hall).
    cbn [mbind option_bind]. eexists. split; [reflexivity|].
    split; [cbn [length]; now rewrite Hn|]. split.
    + intros r [<- | Hr];
        cbn [rowIndex rowObject rowName rowSelected rowYanked].
      * split; [lia|]. split; [assumption|]. split; [reflexivity|].
        split; [reflexivity | exact Hname].
      * destruct (Hrows r Hr) as (H1 & H2). split; [lia | exact H2].
    + intros j Hj. destruct (Z.eq_dec j i) as [-> | Hne].
      * eexists. split; [now left | reflexivity].
      * destruct (Hall j ltac:(lia)) as (r & Hr & E). exists r.
        split; [now right | assumption].
Qed.

Lemma wrap_le x : 0 <= x -> GoInt.wrap x <= x.
Proof.
  intros H. unfold GoInt.wrap.
  change (2 ^ 63) with 9223372036854775808.
  change (2 ^ 64) with 18446744073709551616.
  pose proof (Z.mod_le (x + 9223372036854775808) 18446744073709551616
                ltac:(lia) ltac:(lia)).
  lia.
Qed.

Lemma existsb_eqb_In key keys :
  existsb (String.eqb key) keys = true <-> In key keys.
Proof. exact (keyIs_In key keys). Qed.

(** X23. What the browser lists. [viewBrowser] takes its lines from the
    listing and cuts their names without a panic, whatever the model:
    each line shows the entry at its position, there are no more lines
    than the window has rows, the name shown is no wider than its column
    of at most sixty, the cursor mark is on the line at the cursor and on
    no other, and the yank mark is on the files whose key is yanked and on
    no directory.
    When a listing is shown and the cursor is within it, the line at the
    cursor is among the lines: the entry under the cursor is on the
    screen. *)
Theorem browser_lists_window (m : Model) :
  exists rows,
    visibleRows m = Some rows /\
    Z.of_nat (length rows) <= availableHeight m /\
    (forall r, In r rows ->
       index (objects m) (rowIndex r) = Some (rowObject r) /\
       (rowSelected r = true <-> rowIndex r = cursor m) /\
       (rowYanked r = true <->
        IsDir (rowObject r) = false /\ In (Key (rowObject r)) (yankedFiles m)) /\
       GoInt.slen (rowName r) <= maxNameWidth m <= 60) /\
    (loading m = false -> objects m <> [] -> cursorInRange m ->
     0 <= scrollOffset m -> noOverflow m ->
     exists r, In r rows /\ rowIndex r = cursor m).
Proof.
  pose proof (availableHeight_bounds m) as Hb.
  unfold visibleRows.
  destruct (loading m) eqn:El.
  { exists []. split; [reflexivity|]. split; [cbn; lia|].
    split; [intros r [] | discriminate]. }
  destruct (GoInt.len (objects m) =? 0) eqn:E0; bool_to_prop.
  { exists []. split; [reflexivity|]. split; [cbn; lia|].
    split; [intros r []|]. intros _ Hne. unfold GoInt.len in E0.
    destruct (objects m); [contradiction | cbn in E0; lia]. }
  unfold visibleRange. cbv zeta.
  rewrite updateScroll_availableHeight, updateScroll_objects.
  pose proof (updateScroll_nonneg m) as Hs.
  set (m' := updateScroll m) in *.
  set (start := scrollOffset m') in *.
  set (stop := if start +! availableHeight m >? GoInt.len (objects m)
               then GoInt.len (objects m) else start +! availableHeight m).
  assert (Hstop : stop <= GoInt.len (objects m) /\ stop <= GoInt.max_int /\
                  stop - start <= availableHeight m /\
                  (start + availableHeight m <= GoInt.max_int ->
                   stop = Z.min (GoInt.len (objects m))
                                (start + availableHeight m))).
  { subst stop. int_unfold.
    pose proof (wrap_le (start + availableHeight m) ltac:(lia)) as Hle.
    wrap_facts.
    destruct (_ >? _) eqn:E; bool_to_prop; repeat split; lia. }
  clearbody stop. destruct Hstop as (Hs1 & Hs2 & Hs3 & Hs4).
  assert (Hcur : loading m = false -> objects m <> [] -> cursorInRange m ->
                 0 <= scrollOffset m -> noOverflow m ->
                 start <= cursor m < stop).
  { intros _ Hne Hc Hso Ho. apply cursorInRange_arith in Hc.
    destruct Hc as [[Hc _] | Hc]; [lia|].
    destruct (updateScroll_window m Hc Hso Ho) as [_ Hw].
    fold m' in Hw. fold start in Hw.
    destruct Ho as [_ Ho2]. rewrite Hs4 by lia. lia. }
  destruct (Z.le_gt_cases stop start) as [Hle | Hgt].
  { replace (Z.to_nat (stop - start)) with 0%nat by lia.
    exists []. split; [reflexivity|]. split; [cbn; lia|].
    split; [intros r []|]. intros H1 H2 H3 H4 H5.
    specialize (Hcur El H2 H3 H4 H5). lia. }
  destruct (rowsLoop_rows m' (Z.to_nat (stop - start)) start)
    as (rows & E & Hn & Hrows & Hall);
    [assumption
    | subst m'; rewrite updateScroll_objects; lia
    | lia |].
  exists rows. split; [exact E|]. split; [lia|]. split.
  - intros r Hr. destruct (Hrows r Hr) as (_ & Hi & Hsel & Hy & Hname).
    subst m'. rewrite updateScroll_objects in Hi.
    rewrite updateScroll_cursor in Hsel. rewrite updateScroll_yankedFiles in Hy.
    rewrite updateScroll_frame in Hname.
    change (maxNameWidth (set_scrollOffset _ m)) with (maxNameWidth m) in Hname.
    pose proof (maxNameWidth_bounds m).
    split; [exact Hi|]. split; [|split; [|lia]].
    + rewrite Hsel. apply Z.eqb_eq.
    + rewrite Hy, andb_true_iff, negb_true_iff, existsb_eqb_In. reflexivity.
  - intros H1 H2 H3 H4 H5. specialize (Hcur El H2 H3 H4 H5).
    destruct (Hall (cursor m)) as (r & Hr & Er); [lia | eauto].
Qed.

End ViewFacts.

(* ===================================================================== *)
(** * Further properties: the configuration                               *)
(* ===================================================================== *)

Section ConfigFacts.
Import Config.

Variable HOME : string.
Variable os_UserHomeDir : error + string.
Variable filepath_Join : string -> string -> string.
Variable os_Stat : string -> bool.
Variable ini_Load : string -> error + IniSection.
Variable FS : Type.
Variable ini_SaveTo : IniSection -> string -> FS -> FS * option error.
Variable strings_TrimSpace : string -> string.
Variable strings_ToLower : string -> string.

Local Abbreviation askConfiguration :=
  (askConfiguration os_UserHomeDir filepath_Join strings_TrimSpace
                    strings_ToLower).
Local Abbreviation InteractiveS3Setup :=
  (InteractiveS3Setup os_UserHomeDir filepath_Join FS ini_SaveTo
                      strings_TrimSpace strings_ToLower).
Local Abbreviation LoadS3Config :=
  (LoadS3Config HOME filepath_Join os_Stat ini_Load).
Local Abbreviation configPaths := (configPaths HOME filepath_Join).

Lemma append_nonempty_r a b : b <> "" -> a +:+ b <> "".
Proof.
  intros Hb H. apply (f_equal String.length) in H.
  rewrite string_length_append in H. destruct b; [contradiction|].
  cbn in H. lia.
Qed.

(** What the questions of the setup give when they give a
    configuration. *)
Lemma askConfiguration_answers stdin config path :
  askConfiguration stdin = inr (config, path) ->
  complete config /\
  SignatureV2 config = false /\
  UseHTTPS config =
    negb (GoStrings.Contains (HostBase config) "localhost") &&
    negb (GoStrings.Contains (HostBase config) "127.0.0.1") /\
  (path = ".s3cfg" \/
   exists homeDir, os_UserHomeDir = inr homeDir /\
                   path = filepath_Join homeDir ".s3cfg") /\
  (6 <= length stdin)%nat /\
  (exists first,
     head stdin = Some first /\
     In (strings_ToLower (strings_TrimSpace first)) ["y"; "yes"]).
Proof.
  unfold Config.askConfiguration.
  repeat first
    [ match goal with
      | |- context [scanLine _ ?l] =>
          destruct l as [|? ?]; cbn [scanLine]; [discriminate|]
      end
    | split_if; try discriminate ].
  all: try (destruct os_UserHomeDir as [err | homeDir] eqn:Eh; [discriminate|]).
  all: intros [= <- <-]; unfold complete;
    cbn [AccessKey SecretKey HostBase HostBucket UseHTTPS SignatureV2 Region
         length head].
  all: repeat match goal with
         | H : String.eqb _ _ = false |- _ => apply String.eqb_neq in H
         | H : String.eqb _ _ = true |- _ => apply String.eqb_eq in H
         | H : negb _ && negb _ = false |- _ =>
             apply andb_false_iff in H;
             rewrite !negb_false_iff in H
         end.
  all: split;
    [ repeat split;
      first [ assumption | discriminate
            | apply append_nonempty_r; discriminate ] |].
  all: split; [reflexivity|]. 
  all: split; [reflexivity|].
  all: split; [first [now left | right; eauto]|].
  all: split; [cbn [length]; lia|].
  all: eexists; (split; [reflexivity|]); cbn [In];
    match goal with
    | H : _ \/ _ |- _ =>
        destruct H as [H | H]; apply String.eqb_eq in H; rewrite H; auto
    end.
Qed.

(** X24. What the interactive setup returns. A configuration that
    [InteractiveS3Setup] returns has an access key, a secret key, an
    endpoint, a bucket host and a region, none of them empty; it does not
    use signature version 2; it uses HTTPS unless the endpoint names
    [localhost] or [127.0.0.1]. It was saved, once and without an error,
    to [.s3cfg] in the current directory or in the home directory. The
    first answer was [y] or [yes], and six lines were read. *)
Theorem setup_returns_complete_configuration
    (stdin : list string) (fs fs' : FS) (config : S3Config) :
  InteractiveS3Setup stdin fs = (inr config, fs') ->
  complete config /\
  SignatureV2 config = false /\
  (UseHTTPS config = false <->
   GoStrings.Contains (HostBase config) "localhost" = true \/
   GoStrings.Contains (HostBase config) "127.0.0.1" = true) /\
  GetEndpointURL config =
    (if UseHTTPS config then "https://" else "http://") +:+ HostBase config /\
  (exists path,
     (path = ".s3cfg" \/
      exists homeDir, os_UserHomeDir = inr homeDir /\
                      path = filepath_Join homeDir ".s3cfg") /\
     ini_SaveTo (savedSection config) path fs = (fs', None)) /\
  (6 <= length stdin)%nat /\
  (exists first,
     head stdin = Some first /\
     In (strings_ToLower (strings_TrimSpace first)) ["y"; "yes"]).
Proof.
  unfold Config.InteractiveS3Setup, saveS3Config.
  destruct (askConfiguration stdin) as [e | [cfg path]] eqn:E; [discriminate|].
  destruct (ini_SaveTo (savedSection cfg) path fs) as [fs1 [err|]] eqn:Es;
    [discriminate|].
  intros [= <- <-].
  destruct (askConfiguration_answers _ _ _ E)
    as (Hc & Hsig & Hhttps & Hpath & Hlen & Hfirst).
  split; [exact Hc|]. split; [exact Hsig|]. split; [|split; [|split; [|split]]].
  - rewrite Hhttps, andb_false_iff, !negb_false_iff. reflexivity.
  - unfold GetEndpointURL. destruct (UseHTTPS cfg); reflexivity.
  - exists path. split; assumption.
  - exact Hlen.
  - exact Hfirst.
Qed.

(** X25. A setup that fails writes nothing. When [InteractiveS3Setup]
    returns an error, the file system is as it was, unless the error is
    that of the save itself. A first answer other than [y] or [yes]
    declines the setup. *)
Theorem failed_setup_writes_nothing
    (stdin : list string) (fs fs' : FS) (e : error) :
  InteractiveS3Setup stdin fs = (inl e, fs') ->
  (fs' = fs \/
   exists cause config path,
     e = ErrWrap "failed to save configuration" cause /\
     ini_SaveTo (savedSection config) path fs = (fs', Some cause)) /\
  (forall first rest,
     stdin = first :: rest ->
     ~ In (strings_ToLower (strings_TrimSpace first)) ["y"; "yes"] ->
     e = ErrText "setup declined by user" /\ fs' = fs).
Proof.
  unfold Config.InteractiveS3Setup, saveS3Config.
  destruct (askConfiguration stdin) as [e0 | [cfg path]] eqn:E.
  - intros [= <- <-]. split; [now left|].
    intros first rest -> Hn. split; [|reflexivity].
    revert E. unfold Config.askConfiguration. cbn [scanLine].
    destruct (String.eqb_spec (strings_ToLower (strings_TrimSpace first)) "y")
      as [Ey | _]; [exfalso; apply Hn; rewrite Ey; now left|].
    destruct (String.eqb_spec (strings_ToLower (strings_TrimSpace first)) "yes")
      as [Ey | _]; [exfalso; apply Hn; rewrite Ey; right; now left|].
    cbn [negb andb]. now intros [= <-].
  - destruct (ini_SaveTo (savedSection cfg) path fs) as [fs1 [err|]] eqn:Es;
      [|discriminate].
    intros [= <- <-]. split; [right; eauto|].
    intros first rest -> Hn. exfalso.
    destruct (askConfiguration_answers _ _ _ E) as (_ & _ & _ & _ & _ & Hf).
    destruct Hf as (f & [= <-] & Hin). contradiction.
Qed.

Lemma savedSection_lookups config :
  let section := savedSection config in
  KeyString section "access_key" = AccessKey config /\
  KeyString section "secret_key" = SecretKey config /\
  KeyString section "host_base" = HostBase config /\
  KeyString section "host_bucket" = HostBucket config /\
  KeyString section "use_https" = (if UseHTTPS config then "True" else "False") /\
  KeyString section "signature_v2" =
    (if SignatureV2 config then "True" else "False") /\
  KeyString section "bucket_location" = Region config.
Proof.
  cbv zeta. unfold savedSection, SetValue, KeyString.
  destruct (UseHTTPS config), (SignatureV2 config); cbv zeta;
    repeat split; by simplify_map_eq.
Qed.


Lemma firstFound_first paths :
  firstFound os_Stat paths <> "" ->
  os_Stat (firstFound os_Stat paths) = true /\
  exists earlier later,
    paths = earlier ++ firstFound os_Stat paths :: later /\
    Forall (fun p => os_Stat p = false) earlier.
Proof.
  induction paths as [|p ps IH]; cbn [firstFound]; [contradiction|].
  destruct (os_Stat p) eqn:E.
  - intros _. split; [exact E|]. exists [], ps. split; [reflexivity | constructor].
  - intros H. destruct (IH H) as (Hs & earlier & later & Hp & Hall).
    split; [exact Hs|]. exists (p :: earlier), later.
    split; [cbn; now rewrite <- Hp | now constructor].
Qed.


End ConfigFacts.

(* ===================================================================== *)
(** * Further properties: the earlier variant of the browser              *)
(* ===================================================================== *)

Section LegacyFacts.

Lemma legacyCursorInRange_arith (m : Legacy.Model) :
  legacyCursorInRange m <->
  (GoInt.len (Legacy.objects m) = 0 /\ Legacy.cursor m = 0) \/
  0 <= Legacy.cursor m < GoInt.len (Legacy.objects m).
Proof.
  unfold legacyCursorInRange, GoInt.len. split.
  - intros [[-> ->] | H]; [left; split; reflexivity | now right].
  - intros [[H ->] | H]; [left | now right].
    destruct (Legacy.objects m); [split; reflexivity | cbn in H; lia].
Qed.

Lemma legacy_key_in_range (m : Legacy.Model) (key : string) :
  legacyCursorInRange m ->
  GoInt.len (Legacy.objects m) <= GoInt.max_int ->
  exists m' cmd,
    Legacy.updateBrowser m key = Legacy.Next m' cmd /\
    legacyCursorInRange m' /\ Legacy.objects m' = Legacy.objects m.
Proof.
  intros Hc Ho. apply legacyCursorInRange_arith in Hc.
  pose proof (len_nonneg (Legacy.objects m)) as Hn.
  unfold GoInt.max_int in Ho. change (2 ^ 63) with 9223372036854775808 in Ho.
  assert (Hidx : (GoInt.len (Legacy.objects m) >? 0) = true ->
                 exists x, index (Legacy.objects m) (Legacy.cursor m) = Some x).
  { intros H. apply index_in_range. apply Z.gtb_lt in H. lia. }
  assert (Hdone : forall m1 cmd,
            Legacy.objects m1 = Legacy.objects m ->
            (GoInt.len (Legacy.objects m) = 0 /\ Legacy.cursor m1 = 0 \/
             0 <= Legacy.cursor m1 < GoInt.len (Legacy.objects m)) ->
            exists m' cmd',
              Legacy.Next m1 cmd = Legacy.Next m' cmd' /\
              legacyCursorInRange m' /\
              Legacy.objects m' = Legacy.objects m).
  { intros m1 cmd E H. exists m1, cmd. split; [reflexivity|].
    split; [|assumption]. apply legacyCursorInRange_arith. now rewrite E. }
  unfold Legacy.updateBrowser. any_key key;
    try (destruct (GoInt.len (Legacy.objects m) >? 0) eqn:Hpos;
         [destruct (Hidx eq_refl) as [sel Hsel]; rewrite ?Hsel | ]);
    take_apart;
    (apply Hdone; [reflexivity|]);
    cbn [Legacy.cursor Legacy.objects Legacy.set_cursor Legacy.set_viewMode
         Legacy.set_loading Legacy.set_currentPath] in *;
    int_unfold; bool_to_prop; wrap_facts; lia.
Qed.

(** X28. The earlier variant of the browser. From a model whose cursor is
    within the listing no key makes its [updateBrowser] panic, and the
    cursor is within the listing afterwards. On a file, [x] dispatches the
    deletion and [d] the download of its key at once: this variant asks
    for no confirmation. *)
Theorem legacy_browser_acts_at_once (m : Legacy.Model) (key : string) :
  legacyCursorInRange m ->
  GoInt.len (Legacy.objects m) <= GoInt.max_int ->
  (exists m' cmd,
     Legacy.updateBrowser m key = Legacy.Next m' cmd /\
     legacyCursorInRange m') /\
  (forall f,
     index (Legacy.objects m) (Legacy.cursor m) = Some f ->
     IsDir f = false ->
     Legacy.updateBrowser m "x" = Legacy.Next m (Legacy.deleteFile m (Key f)) /\
     Legacy.updateBrowser m "d" = Legacy.Next m (Legacy.downloadFile m (Key f))).
Proof.
  intros Hc Ho. split.
  - destruct (legacy_key_in_range m key Hc Ho) as (m' & cmd & E & H & _).
    eauto.
  - intros f Hf Hd. unfold Legacy.updateBrowser. switch_on_key.
    rewrite (index_Some_pos _ _ _ Hf), Hf, Hd. split; reflexivity.
Qed.

End LegacyFacts.

(* ===================================================================== *)
(** * The further properties at work                                      *)
(* ===================================================================== *)

(** X1 at work: into [docs] and back to the root. *)
Lemma enter_then_back_witness :
  index (objects dirModel) (cursor dirModel) = Some (mkS3Object "docs" 0 "" true) /\
  exists m1 m2,
    updateBrowser dirModel "enter" = Next m1 (loadObjects m1) /\
    currentPath m1 = "docs" /\
    updateBrowser m1 "backspace" = Next m2 (loadObjects m2) /\
    currentPath m2 = "".
Proof.
  assert (Hi : index (objects dirModel) (cursor dirModel)
               = Some (mkS3Object "docs" 0 "" true)) by reflexivity.
  split; [exact Hi|].
  destruct (enter_then_back dirModel (mkS3Object "docs" 0 "" true) "docs" Hi)
    as (m1 & m2 & H1 & H2 & _ & H3 & H4 & _);
    [reflexivity | reflexivity | discriminate | reflexivity |].
  exists m1, m2. split; [exact H1|]. split; [exact H2|].
  split; [exact H3 | exact H4].
Defined.

(** X2 at work: [docs/2024/report.txt] renamed to [summary.txt]. *)
Lemma rename_keeps_directory_witness :
  renamedKey "docs/2024/report.txt" "summary.txt" = "docs/2024/summary.txt" /\
  parentPath (renamedKey "docs/2024/report.txt" "summary.txt") = "docs/2024" /\
  GoStrings.Base (renamedKey "docs/2024/report.txt" "summary.txt")
    = "summary.txt".
Proof.
  split; [reflexivity|].
  destruct (rename_keeps_directory "docs/2024/report.txt" "summary.txt")
    as [H1 H2]; [discriminate | reflexivity |].
  split; [exact H1 | exact H2].
Defined.

(** X3 at work: the bucket in memory listed at its root. *)
Lemma ListObjects_result_witness :
  exists objs w',
    ListObjects memService "bucket" "" memWorld = (inr objs, w') /\
    calls w' = [CallList "bucket" "" "/"] /\
    In (mkS3Object "docs" 0 "" true) objs /\
    In (mkS3Object "a.txt" 1 "" false) objs.
Proof.
  pose proof (ListObjects_result memService "bucket" "" memWorld) as H.
  destruct (ListObjects memService "bucket" "" memWorld) as [[e | objs] w'] eqn:E;
    [vm_compute in E; discriminate E|].
  destruct H as (Hc & out & dirs & fs & Hs & -> & Hd & Hf).
  exists (dirs ++ fs), w'. split; [reflexivity|]. split; [exact Hc|].
  vm_compute in Hs. injection Hs as _ <-.
  split; apply in_or_app.
  - left. apply Hd. exists "docs/". split; [cbn; tauto|].
    split; [discriminate | reflexivity].
  - right. apply Hf. exists (mkContentEntry "a.txt" 1 "").
    split; [vm_compute; tauto|]. split; reflexivity.
Defined.

(** X4 at work: the listing of [docs] asks for the prefix [docs/]. *)
Lemma loadObjects_request_witness :
  sortsSlices insertionSort /\
  exists msg w',
    runLoadObjects memService insertionSort (set_currentPath "docs" dirModel)
      memWorld = (msg, w') /\
    calls w' = [CallList "bucket" "docs/" "/"].
Proof.
  split; [exact insertionSort_sorts|].
  pose proof (loadObjects_request memService insertionSort
                (set_currentPath "docs" dirModel) memWorld insertionSort_sorts)
    as H.
  cbv zeta in H.
  destruct (runLoadObjects memService insertionSort
              (set_currentPath "docs" dirModel) memWorld) as [msg w'].
  exists msg, w'. split; [reflexivity|]. exact (proj1 H).
Defined.


(** X6 at work: [a.txt] is deleted from the bucket in memory. *)
Lemma delete_end_to_end_witness :
  viewMode fileModel = ViewBrowser /\
  index (objects fileModel) (cursor fileModel) = Some fileA /\
  exists m1 m2 mc msg w' m3,
    Update plainDir plainJoin plainRuneCount fileModel (KeyMsg "x")
      = Next m1 CmdNone /\
    Update plainDir plainJoin plainRuneCount m1 (KeyMsg "y")
      = Next m2 (deleteFile mc "a.txt") /\
    runDeleteFile memService mc "a.txt" memWorld = (msg, w') /\
    calls w' = [CallDelete "bucket" "a.txt"] /\
    Update plainDir plainJoin plainRuneCount m2 msg = Next m3 (loadObjects m3) /\
    statusMessage m3 = "✓ Deleted 'a.txt' successfully".
Proof.
  assert (Hv : viewMode fileModel = ViewBrowser) by reflexivity.
  assert (Hi : index (objects fileModel) (cursor fileModel) = Some fileA)
    by reflexivity.
  split; [exact Hv|]. split; [exact Hi|].
  destruct (delete_end_to_end memService plainDir plainJoin plainRuneCount
              fileModel fileA memWorld Hv Hi eq_refl)
    as (m1 & m2 & mc & H1 & _ & H2 & _ & _ & H3).
  destruct (runDeleteFile memService mc (Key fileA) memWorld) as [msg w'] eqn:E.
  destruct H3 as (Hc & m3 & cmd & H4 & H5).
  exists m1, m2, mc, msg, w', m3.
  split; [exact H1|]. split; [exact H2|]. split; [exact E|].
  split; [exact Hc|].
  vm_compute in H5. destruct H5 as (_ & Hs & ->).
  split; [exact H4 | exact Hs].
Defined.

(** X7 at work: half a page down from the eleventh of twenty files. *)
Lemma browser_cursor_stays_in_range_witness :
  viewMode scrollModel = ViewBrowser /\
  cursorInRange scrollModel /\
  exists m' cmd,
    Update plainDir plainJoin plainRuneCount scrollModel (KeyMsg "ctrl+d")
      = Next m' cmd /\
    cursorInRange m'.
Proof.
  assert (Hv : viewMode scrollModel = ViewBrowser) by reflexivity.
  assert (Hc : cursorInRange scrollModel) by (right; split; by_computation).
  split; [exact Hv|]. split; [exact Hc|].
  apply (browser_cursor_stays_in_range plainDir plainJoin plainRuneCount
           scrollModel (KeyMsg "ctrl+d") Hv Hc).
  by_computation.
Defined.

(** X8 at work: [y] on [a.txt] yanks it. *)
Lemma yank_toggles_witness :
  index (objects fileModel) (cursor fileModel) = Some fileA /\
  NoDup (yankedFiles fileModel) /\
  exists m',
    updateBrowser fileModel "y" = Next m' CmdNone /\
    In "a.txt" (yankedFiles m') /\ NoDup (yankedFiles m').
Proof.
  assert (Hi : index (objects fileModel) (cursor fileModel) = Some fileA)
    by reflexivity.
  assert (Hn : NoDup (yankedFiles fileModel)) by constructor.
  split; [exact Hi|]. split; [exact Hn|].
  pose proof (yank_toggles fileModel fileA Hi Hn ltac:(by_computation)) as H.
  cbn [IsDir fileA] in H. destruct H as (m' & E & Hin & _ & Hnd & _).
  exists m'. split; [exact E|]. split; [|exact Hnd].
  apply Hin. intros [].
Defined.

(** X9 at work: a listing with one directory asks for its statistics. *)
Lemma listing_asks_for_missing_stats_witness :
  exists m' cmd,
    Update plainDir plainJoin plainRuneCount (NewModel "bucket")
      (objectsLoadedMsg someObjects None) = Next m' cmd /\
    In (calculateDirStats m' "docs") (requests cmd) /\
    ~ In (calculateDirStats m' "a.txt") (requests cmd).
Proof.
  destruct (listing_asks_for_missing_stats plainDir plainJoin plainRuneCount
              (NewModel "bucket") someObjects)
    as (m' & cmd & E & _ & _ & _ & _ & _ & _ & H).
  exists m', cmd. split; [exact E|]. split.
  - apply H. exists (mkS3Object "docs" 0 "" true).
    split; [cbn; tauto|]. split; [reflexivity|]. split; reflexivity.
  - intros Hin. apply H in Hin. destruct Hin as (o & Ho & Hd & _ & Eo).
    injection Eo as Ek. cbn [In someObjects] in Ho.
    repeat (destruct Ho as [<- | Ho]; [discriminate|]). destruct Ho.
Defined.

(** X10 at work: the deletion dispatched from the confirmation. *)
Lemma destructive_commands_are_confirmed_witness :
  exists m' c,
    Update plainDir plainJoin plainRuneCount inConfirm (KeyMsg "y")
      = Next m' c /\
    needsConfirmation c = true /\
    viewMode inConfirm = ViewConfirm /\
    confirmAction inConfirm = "delete" /\ confirmTarget inConfirm = "a.txt".
Proof.
  eexists _, _. split; [vm_compute; reflexivity|].
  split; [reflexivity|].
  destruct (destructive_commands_are_confirmed plainDir plainJoin plainRuneCount
              inConfirm (KeyMsg "y") _ _ _ eq_refl
              (or_introl eq_refl) eq_refl)
    as (Hv & _).
  split; [exact Hv|]. split; reflexivity.
Defined.

(** X11 at work: the dialog that [x] on a listed file opens. *)
Lemma confirm_dialog_is_never_idle_witness :
  reachable plainDir plainJoin plainRuneCount inConfirm /\
  viewMode inConfirm = ViewConfirm /\
  fst (confirmPrompt inConfirm) = "Confirm Delete" /\
  exists m' c,
    Update plainDir plainJoin plainRuneCount inConfirm (KeyMsg "enter")
      = Next m' c /\
    needsConfirmation c = true /\ viewMode m' = ViewBrowser.
Proof.
  assert (Hr : reachable plainDir plainJoin plainRuneCount inConfirm).
  { apply (reachable_run _ _ _ (NewModel "bucket") confirmRun).
    - apply reach_init.
    - unfold confirmRun. repeat constructor.
    - vm_compute. reflexivity. }
  assert (Hv : viewMode inConfirm = ViewConfirm) by reflexivity.
  split; [exact Hr|]. split; [exact Hv|]. split; [reflexivity|].
  destruct (confirm_dialog_is_never_idle plainDir plainJoin plainRuneCount
              inConfirm "enter" Hr Hv eq_refl)
    as (_ & _ & m' & c & E & Hn & Hb & _).
  exists m', c. split; [exact E|]. split; [exact Hn | exact Hb].
Defined.

(** X12 at work: a page down in a text of ten lines on four rows. *)
Lemma preview_scroll_stays_in_range_witness :
  previewScrollInRange inPreview /\
  maxScroll inPreview = 6 /\
  exists m' cmd,
    updatePreview inPreview "pgdown" = Next m' cmd /\
    previewScrollInRange m' /\ previewScroll m' = 6.
Proof.
  assert (Hr : previewScrollInRange inPreview) by (split; by_computation).
  split; [exact Hr|]. split; [reflexivity|].
  destruct (preview_scroll_stays_in_range inPreview "pgdown" Hr
              ltac:(by_computation))
    as (m' & cmd & E & H & _).
  exists m', cmd. split; [exact E|]. split; [exact H|].
  vm_compute in E. injection E as <- _. reflexivity.
Defined.

(** X14 at work: the four lines from the second on. *)
Lemma preview_shows_full_page_witness :
  previewScrollInRange inPreview /\
  visibleLines inPreview = Some ["two"; "three"; "four"; "five"].
Proof.
  assert (Hr : previewScrollInRange inPreview) by (split; by_computation).
  split; [exact Hr|].
  destruct (preview_shows_full_page inPreview Hr
              ltac:(by_computation) ltac:(by_computation) ltac:(discriminate))
    as (lines & E & -> & _).
  rewrite E. reflexivity.
Defined.

(** X15 at work: [ctrl+w] takes the name out of the rename dialog. *)
Lemma rename_dialog_never_panics_witness :
  renameCursorInRange renameModel /\
  exists m' cmd,
    updateRename renameModel "ctrl+w" = Next m' cmd /\
    renameCursorInRange m' /\ renameInput m' = "".
Proof.
  assert (Hr : renameCursorInRange renameModel) by (split; by_computation).
  split; [exact Hr|].
  destruct (rename_dialog_never_panics renameModel "ctrl+w" Hr
              ltac:(by_computation))
    as (m' & cmd & E & H).
  exists m', cmd. split; [exact E|]. split; [exact H|].
  vm_compute in E. injection E as <- _. reflexivity.
Defined.

(** X16 at work: the dialog [r] opened, the cursor two to the left. *)
Lemma rename_cursor_within_text_witness :
  reachable plainDir plainJoin plainRuneCount inRename /\
  renameInput inRename = "a.txt" /\ renameCursor inRename = 3 /\
  renameCursorInRange inRename.
Proof.
  assert (Hr : reachable plainDir plainJoin plainRuneCount inRename).
  { apply (reachable_run _ _ _ (NewModel "bucket") renameRun).
    - apply reach_init.
    - unfold renameRun. repeat constructor.
    - vm_compute. reflexivity. }
  split; [exact Hr|]. split; [reflexivity|]. split; [reflexivity|].
  exact (rename_cursor_within_text plainDir plainJoin plainRuneCount inRename Hr).
Defined.

(** X17 at work: [s] typed behind the third byte, and taken out again. *)
Lemma rename_typing_and_backspace_witness :
  renameCursorInRange inRename /\
  exists m1,
    updateRename inRename "s" = Next m1 CmdNone /\
    renameInput m1 = "a.tsxt" /\
    updateRename m1 "backspace" = Next inRename CmdNone.
Proof.
  assert (Hr : renameCursorInRange inRename) by (split; by_computation).
  split; [exact Hr|].
  pose proof (rename_typing_and_backspace inRename "s"%char eq_refl Hr
                ltac:(by_computation)) as H.
  change (Ascii.eqb "s" "q") with false in H. cbv iota in H.
  destruct H as (m1 & E & Hi & _ & Hb).
  exists m1. split; [exact E|]. split; [|exact Hb].
  rewrite Hi. vm_compute. reflexivity.
Defined.


(** X19 at work: [down] in the picker. *)
Lemma picker_cursor_stays_on_entry_witness :
  viewMode inPicker = ViewUpload /\
  pickerCursorInRange inPicker /\
  exists m' cmd,
    Update plainDir plainJoin plainRuneCount inPicker (KeyMsg "down")
      = Next m' cmd /\
    cursor m' = 1 /\ pickerCursorInRange m'.
Proof.
  assert (Hv : viewMode inPicker = ViewUpload) by reflexivity.
  assert (Hc : pickerCursorInRange inPicker) by (right; split; by_computation).
  split; [exact Hv|]. split; [exact Hc|].
  destruct (picker_cursor_stays_on_entry plainDir plainJoin plainRuneCount
              inPicker (KeyMsg "down") Hv Hc ltac:(by_computation))
    as (m' & cmd & E & H).
  exists m', cmd. split; [exact E|].
  vm_compute in E. injection E as <- _.
  split; [reflexivity | exact (H eq_refl)].
Defined.

(** X20 at work: a directory with a hidden entry and one that cannot be
    read. *)
Lemma picker_offers_visible_entries_witness :
  sortsSlices insertionSort /\
  exists items,
    runLoadLocalFiles insertionSort "." (inr someEntries)
      = localFilesLoadedMsg items "." None /\
    In parentEntry items /\
    In (LocalItem.mk "src" true 0) items /\
    ~ In (LocalItem.mk ".git" true 0) items.
Proof.
  split; [exact insertionSort_sorts|].
  destruct (picker_offers_visible_entries insertionSort "." (inr someEntries)
              insertionSort_sorts)
    as (items & E & Hp & Hhid & Hvis & _).
  exists items. split; [exact E|]. split; [exact Hp|]. split.
  - apply (Hvis (mkDirEntry "src" true (Some 0)) 0);
      [cbn; tauto | reflexivity | reflexivity].
  - intros Hin. apply Hhid in Hin; [discriminate Hin | discriminate].
Defined.

(** X21 at work: forty-two bytes in three files. *)
Lemma totalSize_is_sum_witness :
  Forall (fun obj => 0 <= Size obj) someObjects /\
  totalSize someObjects = 42.
Proof.
  assert (H : Forall (fun obj => 0 <= Size obj) someObjects)
    by (repeat constructor; by_computation).
  split; [exact H|].
  rewrite (totalSize_is_sum someObjects H ltac:(by_computation)).
  reflexivity.
Defined.

(** X22 at work: the latest of three dates. *)
Lemma latestDate_is_latest_witness :
  latestDate someObjects = "2024-06-11 08:30:00" /\
  forall o, In o someObjects -> IsDir o = false ->
            String.leb (LastModified o) "2024-06-11 08:30:00" = true.
Proof.
  split; [reflexivity|].
  destruct (latestDate_is_latest someObjects) as [[H _] | (_ & _ & H)];
    [discriminate H | exact H].
Defined.

(** X23 at work: the window of [scrollModel] holds its cursor. *)
Lemma browser_lists_window_witness :
  cursorInRange scrollModel /\
  exists rows r,
    visibleRows scrollModel = Some rows /\
    length rows = 7%nat /\
    In r rows /\ rowIndex r = 10 /\ rowSelected r = true.
Proof.
  assert (Hc : cursorInRange scrollModel) by (right; split; by_computation).
  split; [exact Hc|].
  destruct (browser_lists_window scrollModel)
    as (rows & E & _ & Hrows & Hcur).
  destruct Hcur as (r & Hr & Ei);
    [reflexivity | discriminate | exact Hc | by_computation
    | split; by_computation |].
  exists rows, r. split; [exact E|].
  split; [vm_compute in E; injection E as <-; reflexivity|].
  split; [exact Hr|]. split; [exact Ei|].
  apply (Hrows r Hr). exact Ei.
Defined.

(** X24 at work: the setup for a local MinIO. *)
Lemma setup_returns_complete_configuration_witness :
  Config.InteractiveS3Setup (inr "/home/user") plainJoin MemFS memSaveTo
    plainTrimSpace plainToLower setupAnswers ∅
  = (inr minioConfig, afterSetup) /\
  complete minioConfig /\
  Config.GetEndpointURL minioConfig = "http://localhost:9000".
Proof.
  assert (E : Config.InteractiveS3Setup (inr "/home/user") plainJoin MemFS memSaveTo
                plainTrimSpace plainToLower setupAnswers ∅
              = (inr minioConfig, afterSetup)) by reflexivity.
  split; [exact E|].
  destruct (setup_returns_complete_configuration _ _ _ _ _ _ _ _ _ _ E)
    as (Hc & _ & _ & Hu & _).
  split; [exact Hc | exact Hu].
Defined.

(** X25 at work: the setup declined. *)
Lemma failed_setup_writes_nothing_witness :
  exists e fs',
    Config.InteractiveS3Setup (inr "/home/user") plainJoin MemFS memSaveTo
      plainTrimSpace plainToLower ["no"] ∅ = (inl e, fs') /\
    e = ErrText "setup declined by user" /\ fs' = ∅.
Proof.
  eexists _, _. split; [reflexivity|].
  destruct (failed_setup_writes_nothing (inr "/home/user") plainJoin MemFS
              memSaveTo plainTrimSpace plainToLower ["no"] ∅ _ _ eq_refl)
    as (_ & H).
  apply (H "no" [] eq_refl).
  cbn. intros [H1 | [H1 | []]]; discriminate H1.
Defined.



(** X28 at work: [x] on [a.txt] in the earlier variant. *)
Lemma legacy_browser_acts_at_once_witness :
  legacyCursorInRange legacyModel /\
  Legacy.updateBrowser legacyModel "x"
  = Legacy.Next legacyModel (Legacy.deleteFile legacyModel "a.txt").
Proof.
  assert (Hc : legacyCursorInRange legacyModel) by (right; split; by_computation).
  split; [exact Hc|].
  destruct (legacy_browser_acts_at_once legacyModel "x" Hc ltac:(by_computation))
    as (_ & H).
  exact (proj1 (H fileA eq_refl eq_refl)).
Defined.
